(** * serve-local.py: a static file server with cross-origin isolation headers

    The script subclasses [http.server.SimpleHTTPRequestHandler], overrides
    [end_headers] so that two headers are sent before the header block is
    closed, changes into a fixed directory, binds a [socketserver.TCPServer]
    on port 8000, prints two lines and serves forever.

    The development embeds the script together with the methods of the
    CPython 3.11 standard library it inherits and calls
    ([http/server.py], [socketserver.py], [posixpath.py]).  Python [str]
    and [bytes] values are byte strings ([string]); the library functions
    whose text is not reproduced (URL quoting, MIME types, dates, [int],
    [repr]) are fields of a [runtime] record, and the operating system is a
    record of oracles indexed by path. *)

From Stdlib Require Import String Ascii List ZArith Lia Bool DecimalString.
From Stdlib Require Import Permutation Sorted.
Import ListNotations.

Local Open Scope string_scope.
Local Open Scope nat_scope.
Local Open Scope list_scope.

Infix "+++" := String.append (right associativity, at level 60).

(** ** Python string operations *)

Module Py.

Definition CR : ascii := ascii_of_nat 13.
Definition LF : ascii := ascii_of_nat 10.
Definition CRLF : string := String CR (String LF EmptyString).
Definition NL : string := String LF EmptyString.
Definition DQ : string := String (ascii_of_nat 34) EmptyString.

(** [str.isspace] on the code points below 256. *)
Definition isspace (c : ascii) : bool :=
  let n := nat_of_ascii c in
  ((9 <=? n) && (n <=? 13)) || ((28 <=? n) && (n <=? 32))
  || (n =? 133) || (n =? 160).

(** [s.split(sep)] for a one-character separator. *)
Fixpoint split (sep : ascii) (s : string) : list string :=
  match s with
  | EmptyString => [EmptyString]
  | String c s' =>
      if Ascii.eqb c sep then EmptyString :: split sep s'
      else match split sep s' with
           | w :: ws => String c w :: ws
           | [] => [String c EmptyString]
           end
  end.

(** [s.split(sep, 1)[0]]. *)
Fixpoint split1_head (sep : ascii) (s : string) : string :=
  match s with
  | EmptyString => EmptyString
  | String c s' =>
      if Ascii.eqb c sep then EmptyString else String c (split1_head sep s')
  end.

(** [s.split(sep, 1)[1]]; [None] is the [IndexError]. *)
Fixpoint split1_tail (sep : ascii) (s : string) : option string :=
  match s with
  | EmptyString => None
  | String c s' => if Ascii.eqb c sep then Some s' else split1_tail sep s'
  end.

(** [s.split()]: the words between runs of white space. *)
Fixpoint split_ws (s : string) : list string :=
  match s with
  | EmptyString => []
  | String c s' =>
      if isspace c then split_ws s'
      else match s' with
           | EmptyString => [String c EmptyString]
           | String c' _ =>
               if isspace c' then String c EmptyString :: split_ws s'
               else match split_ws s' with
                    | w :: ws => String c w :: ws
                    | [] => [String c EmptyString]
                    end
           end
  end.

(** [s.rstrip(chars)], the characters given by a predicate. *)
Fixpoint rstrip_by (p : ascii -> bool) (s : string) : string :=
  match s with
  | EmptyString => EmptyString
  | String c s' =>
      match rstrip_by p s' with
      | EmptyString => if p c then EmptyString else String c EmptyString
      | r => String c r
      end
  end.

Fixpoint lstrip_by (p : ascii -> bool) (s : string) : string :=
  match s with
  | EmptyString => EmptyString
  | String c s' => if p c then lstrip_by p s' else s
  end.

Definition rstrip (s : string) : string := rstrip_by isspace s.

Definition startswith (s pre : string) : bool := String.prefix pre s.

Definition endswith (s suf : string) : bool :=
  let n := String.length s in
  let m := String.length suf in
  (m <=? n) && String.eqb (String.substring (n - m) m s) suf.

(** [sep.join(l)]. *)
Definition join (sep : string) (l : list string) : string :=
  String.concat sep l.

(** [sep.join(l)] with the empty separator. *)
Definition join0 (l : list string) : string := String.concat EmptyString l.

(** [s.lower()] on the code points below 256. *)
Definition lower_char (c : ascii) : ascii :=
  let n := nat_of_ascii c in
  if ((65 <=? n) && (n <=? 90))
     || ((192 <=? n) && (n <=? 222) && negb (n =? 215))
  then ascii_of_nat (n + 32) else c.

Fixpoint lower (s : string) : string :=
  match s with
  | EmptyString => EmptyString
  | String c s' => String (lower_char c) (lower s')
  end.

(** [str(n)] and [%d] for a natural number. *)
Definition str_of_nat (n : nat) : string :=
  NilZero.string_of_uint (Nat.to_uint n).

(** [str(n)] for an integer. *)
Definition str_of_Z (z : Z) : string :=
  NilZero.string_of_int (Z.to_int z).

(** [a >= b] on strings (code point order). *)
Definition str_ge (a b : string) : bool := String.leb b a.

(** [needle in s]. *)
Fixpoint contains (s needle : string) : bool :=
  String.prefix needle s
  || match s with
     | EmptyString => false
     | String _ s' => contains s' needle
     end.

(** [len(s) > n] with [n] a machine-sized bound. *)
Definition len_gt (s : string) (n : Z) : bool :=
  (n <? Z.of_nat (String.length s))%Z.

End Py.

(** ** [html.escape(s, quote=False)] *)

Module Html.

Definition escape_char (c : ascii) : string :=
  if Ascii.eqb c "&" then "&amp;"
  else if Ascii.eqb c "<" then "&lt;"
  else if Ascii.eqb c ">" then "&gt;"
  else String c EmptyString.

Fixpoint escape (s : string) : string :=
  match s with
  | EmptyString => EmptyString
  | String c s' => escape_char c +++ escape s'
  end.

End Html.

(** ** [posixpath] *)

Module Posixpath.

Definition sep : ascii := "/".
Definition curdir : string := ".".
Definition pardir : string := "..".

(** [posixpath.join(a, b)]. *)
Definition join (a b : string) : string :=
  if Py.startswith b "/" then b
  else if String.eqb a EmptyString || Py.endswith a "/" then a +++ b
  else a +++ "/" +++ b.

(** [p[:p.rfind('/') + 1]]. *)
Fixpoint head_upto_last_sep (p : string) : string :=
  match p with
  | EmptyString => EmptyString
  | String c p' =>
      match head_upto_last_sep p' with
      | EmptyString => if Ascii.eqb c sep then String c EmptyString
                       else EmptyString
      | h => String c h
      end
  end.

Definition is_sep (c : ascii) : bool := Ascii.eqb c sep.

(** [posixpath.dirname(p)]. *)
Definition dirname (p : string) : string :=
  let head := head_upto_last_sep p in
  if negb (String.eqb head EmptyString)
     && negb (String.eqb (Py.lstrip_by is_sep head) EmptyString)
  then Py.rstrip_by is_sep head
  else head.

(** The loop of [normpath] over the components; [new_comps] is kept in
    reverse, its head is [new_comps[-1]]. *)
Fixpoint normpath_loop (initial_slashes : nat) (comps : list string)
         (new_comps : list string) : list string :=
  match comps with
  | [] => rev new_comps
  | comp :: rest =>
      if String.eqb comp EmptyString || String.eqb comp curdir
      then normpath_loop initial_slashes rest new_comps
      else if negb (String.eqb comp pardir)
              || ((initial_slashes =? 0) && match new_comps with
                                             | [] => true
                                             | _ => false
                                             end)
              || match new_comps with
                 | last :: _ => String.eqb last pardir
                 | [] => false
                 end
      then normpath_loop initial_slashes rest (comp :: new_comps)
      else match new_comps with
           | _ :: popped => normpath_loop initial_slashes rest popped
           | [] => normpath_loop initial_slashes rest new_comps
           end
  end.

(** [posixpath.normpath(path)], the Python definition, which the C
    accelerator of the module follows. *)
Definition normpath (path : string) : string :=
  if String.eqb path EmptyString then curdir
  else
    let initial_slashes :=
      if Py.startswith path "/" then
        if Py.startswith path "//" && negb (Py.startswith path "///")
        then 2 else 1
      else 0 in
    let comps := normpath_loop initial_slashes (Py.split sep path) [] in
    let path := Py.join "/" comps in
    let path :=
      match initial_slashes with
      | 0 => path
      | 1 => "/" +++ path
      | _ => "//" +++ path
      end in
    if String.eqb path EmptyString then curdir else path.

End Posixpath.

(** ** Library functions taken as given

    Functions of the Python runtime whose text is not reproduced here.  A
    [str] is a string of code points below 256, so that decoding the request
    line from ISO-8859-1 and encoding a header line to Latin-1 are the
    identity; the other codecs are fields. *)

Inductive tzinfo := TzNaive | TzUtc | TzOther.

Record url_parts := mkUrl {
  url_scheme : string;
  url_netloc : string;
  url_path : string;
  url_query : string;
  url_fragment : string
}.

Record runtime := mkRuntime {
  (** ["Python/" + sys.version.split()[0]] *)
  sys_version : string;
  (** [BaseHTTPRequestHandler.date_time_string(timestamp)]; [None] is the
      current time. *)
  date_time_string : option Z -> string;
  (** [int(s)]; [None] is the [ValueError]. *)
  py_int : string -> option Z;
  (** [repr(s)], the [%r] conversion. *)
  py_repr : string -> string;
  (** [s.encode('UTF-8', 'replace')] *)
  encode_utf8 : string -> string;
  (** [s.encode(sys.getfilesystemencoding(), 'surrogateescape')] *)
  encode_fs : string -> string;
  getfilesystemencoding : string;
  (** [urllib.parse.unquote(s, errors='surrogatepass')] for [s] with a
      [%]: the escapes decoded; [None] is the [UnicodeDecodeError]. *)
  unquote_escapes_surrogatepass : string -> option string;
  (** [urllib.parse.unquote(s)] for [s] with a [%] *)
  unquote_escapes : string -> string;
  (** [urllib.parse.quote(s, errors='surrogatepass')] *)
  quote : string -> string;
  (** [urllib.parse.urlsplit(s)] and [urllib.parse.urlunsplit(parts)];
      the [ValueError] of [urlsplit] on a malformed bracketed host is not
      represented. *)
  urlsplit : string -> url_parts;
  urlunsplit : url_parts -> string;
  (** [SimpleHTTPRequestHandler.guess_type(path)] *)
  guess_type : string -> string;
  (** [email.utils.parsedate_to_datetime(s)]: the time zone of the result
      and its seconds since the epoch read in that zone; [None] when it
      raises [TypeError], [IndexError], [OverflowError] or [ValueError]. *)
  parsedate_to_datetime : string -> option (tzinfo * Z)
}.

(** ** [urllib.parse.unquote]: a string without [%] is returned as it is *)

Module Urllib.

Definition unquote_surrogatepass (rt : runtime) (s : string)
  : option string :=
  if negb (Py.contains s "%") then Some s
  else unquote_escapes_surrogatepass rt s.

Definition unquote (rt : runtime) (s : string) : string :=
  if negb (Py.contains s "%") then s else unquote_escapes rt s.

End Urllib.

(** ** The file system, as the handler observes it

    One oracle per call the handler makes.  [open_rb] gives the contents of
    the file and its modification time in whole seconds; the size reported
    by [os.fstat] is the length of the contents. *)

Record file_object := mkFile {
  f_data : string;
  f_mtime : Z
}.

Record filesystem := mkFs {
  (** [os.path.exists] *)
  fs_exists : string -> bool;
  (** [os.path.isdir] *)
  fs_isdir : string -> bool;
  (** [os.path.isfile] *)
  fs_isfile : string -> bool;
  (** [os.path.islink] *)
  fs_islink : string -> bool;
  (** [os.access(path, os.X_OK)] of a directory *)
  fs_searchable : string -> bool;
  (** [open(path, 'rb')]; [None] is the [OSError]. *)
  fs_open_rb : string -> option file_object;
  (** [os.listdir(path)]; [None] is the [OSError]. *)
  fs_listdir : string -> option (list string);
  (** the value of [os.getcwd()] after [os.chdir(path)] *)
  fs_realpath : string -> string
}.

(** ** The state of a request handler *)

(** What [wfile] received, one entry per [write]: a header block is kept as
    the list of lines that [flush_headers] joins. *)
Inductive write :=
| WHeaders (lines : list string)
| WBody (data : string).

Definition bytes_of_write (w : write) : string :=
  match w with
  | WHeaders lines => Py.join0 lines
  | WBody data => data
  end.

(** The bytes on the wire. *)
Definition wire (ws : list write) : string :=
  Py.join0 (map bytes_of_write ws).

(** A call of the handler into the file system. *)
Inductive fs_call :=
| CallIsdir (path : string)
| CallIsfile (path : string)
| CallIslink (path : string)
| CallOpen (path : string) (mode : string)
| CallFstat (path : string)
| CallListdir (path : string).

Inductive log_entry :=
| LogRequest (code : Z)
| LogError (code : Z) (message : string).

Record handler := mkHandler {
  directory : string;
  command : option string;
  path : string;
  request_version : string;
  requestline : string;
  headers : list (string * string);
  close_connection : bool;
  headers_buffer : list string;
  wfile : list write;
  stderr_log : list log_entry;
  fs_calls : list fs_call
}.

(** [self.path], for the methods that have a local variable [path]. *)
Definition self_path (h : handler) : string := path h.

Definition set_command (v : option string) (h : handler) : handler :=
  mkHandler (directory h) v (path h) (request_version h) (requestline h)
            (headers h) (close_connection h) (headers_buffer h) (wfile h)
            (stderr_log h) (fs_calls h).

Definition set_path (v : string) (h : handler) : handler :=
  mkHandler (directory h) (command h) v (request_version h) (requestline h)
            (headers h) (close_connection h) (headers_buffer h) (wfile h)
            (stderr_log h) (fs_calls h).

Definition set_request_version (v : string) (h : handler) : handler :=
  mkHandler (directory h) (command h) (path h) v (requestline h)
            (headers h) (close_connection h) (headers_buffer h) (wfile h)
            (stderr_log h) (fs_calls h).

Definition set_requestline (v : string) (h : handler) : handler :=
  mkHandler (directory h) (command h) (path h) (request_version h) v
            (headers h) (close_connection h) (headers_buffer h) (wfile h)
            (stderr_log h) (fs_calls h).

Definition set_headers (v : list (string * string)) (h : handler) : handler :=
  mkHandler (directory h) (command h) (path h) (request_version h)
            (requestline h) v (close_connection h) (headers_buffer h)
            (wfile h) (stderr_log h) (fs_calls h).

Definition set_close_connection (v : bool) (h : handler) : handler :=
  mkHandler (directory h) (command h) (path h) (request_version h)
            (requestline h) (headers h) v (headers_buffer h) (wfile h)
            (stderr_log h) (fs_calls h).

Definition set_headers_buffer (v : list string) (h : handler) : handler :=
  mkHandler (directory h) (command h) (path h) (request_version h)
            (requestline h) (headers h) (close_connection h) v (wfile h)
            (stderr_log h) (fs_calls h).

Definition set_wfile (v : list write) (h : handler) : handler :=
  mkHandler (directory h) (command h) (path h) (request_version h)
            (requestline h) (headers h) (close_connection h)
            (headers_buffer h) v (stderr_log h) (fs_calls h).

Definition set_stderr_log (v : list log_entry) (h : handler) : handler :=
  mkHandler (directory h) (command h) (path h) (request_version h)
            (requestline h) (headers h) (close_connection h)
            (headers_buffer h) (wfile h) v (fs_calls h).

Definition set_fs_calls (v : list fs_call) (h : handler) : handler :=
  mkHandler (directory h) (command h) (path h) (request_version h)
            (requestline h) (headers h) (close_connection h)
            (headers_buffer h) (wfile h) (stderr_log h) v.

(** A method of the handler: a computation over [self]. *)
Definition M (A : Type) : Type := handler -> A * handler.

Definition ret {A : Type} (a : A) : M A := fun h => (a, h).

Definition bind {A B : Type} (m : M A) (k : A -> M B) : M B :=
  fun h => let (a, h') := m h in k a h'.

Definition get : M handler := fun h => (h, h).

Definition modify (f : handler -> handler) : M unit := fun h => (tt, f h).

Definition exec {A : Type} (m : M A) (h : handler) : handler := snd (m h).

Definition eval {A : Type} (m : M A) (h : handler) : A := fst (m h).

Declare Scope handler_scope.
Delimit Scope handler_scope with handler.
Notation "x <- m ;; k" := (bind m (fun x => k))
  (at level 61, m at next level, right associativity) : handler_scope.
Notation "m ;; k" := (bind m (fun _ => k))
  (at level 61, right associativity) : handler_scope.
Local Open Scope handler_scope.

(** [wfile.write(data)] *)
Definition wfile_write (w : write) : M unit :=
  modify (fun h => set_wfile (wfile h ++ [w]) h).

Definition fs_record (c : fs_call) : M unit :=
  modify (fun h => set_fs_calls (fs_calls h ++ [c]) h).

(** ** [http.server.BaseHTTPRequestHandler]

    The attributes and methods that a subclass may override are variables
    of the section: a call [self.end_headers()] in the library runs the
    method of the class of [self]. *)

(** The request as [rfile] delivers it: the request line, and what
    [http.client.parse_headers] makes of the lines after it. *)
Inductive parsed_headers :=
| HeadersOk (hs : list (string * string))
| HeadersLineTooLong (err : string)
| HeadersHTTPException (err : string).

Record raw_request := mkRequest {
  raw_requestline : string;
  raw_headers : parsed_headers
}.

Module BaseHTTPRequestHandler.

Definition protocol_version : string := "HTTP/1.0".
Definition default_request_version : string := "HTTP/0.9".
Definition error_content_type : string := "text/html;charset=utf-8".

(** [self.responses], the entries of [http.HTTPStatus] for the codes that
    the handler sends. *)
Definition responses (code : Z) : option (string * string) :=
  match code with
  | 100 => Some ("Continue", "Request received, please continue")
  | 200 => Some ("OK", "Request fulfilled, document follows")
  | 301 => Some ("Moved Permanently",
                 "Object moved permanently -- see URI list")
  | 304 => Some ("Not Modified",
                 "Document has not changed since given time")
  | 400 => Some ("Bad Request",
                 "Bad request syntax or unsupported method")
  | 404 => Some ("Not Found", "Nothing matches the given URI")
  | 414 => Some ("Request-URI Too Long", "URI is too long")
  | 431 => Some ("Request Header Fields Too Large",
                 "The server is unwilling to process the request because "
                   +++ "its header fields are too large")
  | 501 => Some ("Not Implemented",
                 "Server does not support this operation")
  | 505 => Some ("HTTP Version Not Supported", "Cannot fulfill request")
  | _ => None
  end%Z.

(** [error_message_format % {'code': ..., 'message': ..., 'explain': ...}] *)
Definition error_message_format (code : Z) (message explain : string)
  : string :=
  "<!DOCTYPE HTML>" +++ Py.NL +++
  "<html lang=" +++ Py.DQ +++ "en" +++ Py.DQ +++ ">" +++ Py.NL +++
  "    <head>" +++ Py.NL +++
  "        <meta charset=" +++ Py.DQ +++ "utf-8" +++ Py.DQ +++ ">"
    +++ Py.NL +++
  "        <title>Error response</title>" +++ Py.NL +++
  "    </head>" +++ Py.NL +++
  "    <body>" +++ Py.NL +++
  "        <h1>Error response</h1>" +++ Py.NL +++
  "        <p>Error code: " +++ Py.str_of_Z code +++ "</p>" +++ Py.NL +++
  "        <p>Message: " +++ message +++ ".</p>" +++ Py.NL +++
  "        <p>Error code explanation: " +++ Py.str_of_Z code +++ " - "
    +++ explain +++ ".</p>" +++ Py.NL +++
  "    </body>" +++ Py.NL +++
  "</html>" +++ Py.NL.

(** [self.headers.get(name)], [None] when the header is absent. *)
Fixpoint headers_get (name : string) (hs : list (string * string))
  : option string :=
  match hs with
  | [] => None
  | (k, v) :: rest =>
      if String.eqb (Py.lower k) (Py.lower name) then Some v
      else headers_get name rest
  end.

Definition headers_get_default (name default : string)
           (hs : list (string * string)) : string :=
  match headers_get name hs with
  | Some v => v
  | None => default
  end.

(** [name in self.headers] *)
Definition headers_contains (name : string) (hs : list (string * string))
  : bool :=
  match headers_get name hs with
  | Some _ => true
  | None => false
  end.

Section Methods.

Variable rt : runtime.
(** [self.server_version] *)
Variable self_server_version : string.
(** [self.end_headers] *)
Variable self_end_headers : M unit.
(** [getattr(self, 'do_' + command)]; [None] when [hasattr] is false. *)
Variable self_do : string -> option (M unit).

Definition log_request (code : Z) : M unit :=
  modify (fun h => set_stderr_log (stderr_log h ++ [LogRequest code]) h).

Definition log_error (code : Z) (message : string) : M unit :=
  modify (fun h =>
            set_stderr_log (stderr_log h ++ [LogError code message]) h).

Definition version_string : string :=
  self_server_version +++ " " +++ sys_version rt.

Definition headers_buffer_append (line : string) : M unit :=
  modify (fun h => set_headers_buffer (headers_buffer h ++ [line]) h).

Definition send_response_only (code : Z) (message : option string)
  : M unit :=
  h <- get ;;
  if negb (String.eqb (request_version h) "HTTP/0.9") then
    let message :=
      match message with
      | Some m => m
      | None => match responses code with
                | Some (short, _) => short
                | None => EmptyString
                end
      end in
    headers_buffer_append
      (protocol_version +++ " " +++ Py.str_of_Z code +++ " "
         +++ message +++ Py.CRLF)
  else ret tt.

Definition send_header (keyword value : string) : M unit :=
  h <- get ;;
  (if negb (String.eqb (request_version h) "HTTP/0.9") then
     headers_buffer_append (keyword +++ ": " +++ value +++ Py.CRLF)
   else ret tt) ;;
  if String.eqb (Py.lower keyword) "connection" then
    if String.eqb (Py.lower value) "close" then
      modify (set_close_connection true)
    else if String.eqb (Py.lower value) "keep-alive" then
      modify (set_close_connection false)
    else ret tt
  else ret tt.

(** The buffer is a list from the start: the attribute exists whenever
    [flush_headers] is reached, since [send_header] creates it. *)
Definition flush_headers : M unit :=
  h <- get ;;
  wfile_write (WHeaders (headers_buffer h)) ;;
  modify (set_headers_buffer []).

Definition end_headers : M unit :=
  h <- get ;;
  if negb (String.eqb (request_version h) "HTTP/0.9") then
    headers_buffer_append Py.CRLF ;;
    flush_headers
  else ret tt.

Definition send_response (code : Z) (message : option string) : M unit :=
  log_request code ;;
  send_response_only code message ;;
  send_header "Server" version_string ;;
  send_header "Date" (date_time_string rt None).

Definition send_error (code : Z) (message explain : option string)
  : M unit :=
  let (shortmsg, longmsg) :=
    match responses code with
    | Some p => p
    | None => ("???", "???")
    end in
  let message := match message with Some m => m | None => shortmsg end in
  let explain := match explain with Some e => e | None => longmsg end in
  log_error code message ;;
  send_response code (Some message) ;;
  send_header "Connection" "close" ;;
  body <-
    (if (200 <=? code)%Z
        && negb ((code =? 204)%Z || (code =? 205)%Z || (code =? 304)%Z)
     then
       let content :=
         error_message_format code (Html.escape message)
                              (Html.escape explain) in
       let body := encode_utf8 rt content in
       send_header "Content-Type" error_content_type ;;
       send_header "Content-Length" (Py.str_of_nat (String.length body)) ;;
       ret (Some body)
     else ret None) ;;
  self_end_headers ;;
  h <- get ;;
  match body with
  | Some b =>
      if negb (match command h with
               | Some c => String.eqb c "HEAD"
               | None => false
               end)
         && negb (String.eqb b EmptyString)
      then wfile_write (WBody b)
      else ret tt
  | None => ret tt
  end.

Definition handle_expect_100 : M bool :=
  send_response_only 100 None ;;
  self_end_headers ;;
  ret true.

(** The [try] block of [parse_request] that reads the version; [None]
    is the [ValueError] or [IndexError]. *)
Definition parse_version (version : string)
  : option (string * (Z * Z)) :=
  if negb (Py.startswith version "HTTP/") then None
  else
    match Py.split1_tail "/" version with
    | None => None
    | Some base_version_number =>
        match Py.split "." base_version_number with
        | [major; minor] =>
            match py_int rt major, py_int rt minor with
            | Some a, Some b => Some (base_version_number, (a, b))
            | _, _ => None
            end
        | _ => None
        end
    end.

(** [a >= b] on pairs of integers. *)
Definition tuple_ge (a b : Z * Z) : bool :=
  ((fst b <? fst a) || ((fst a =? fst b) && (snd b <=? snd a)))%Z.

(** The part of [parse_request] after the request line is accepted. *)
Definition parse_request_headers (rh : parsed_headers) : M bool :=
  match rh with
  | HeadersLineTooLong err =>
      send_error 431 (Some "Line too long") (Some err) ;;
      ret false
  | HeadersHTTPException err =>
      send_error 431 (Some "Too many headers") (Some err) ;;
      ret false
  | HeadersOk hs =>
      modify (set_headers hs) ;;
      let conntype := headers_get_default "Connection" EmptyString hs in
      (if String.eqb (Py.lower conntype) "close" then
         modify (set_close_connection true)
       else if String.eqb (Py.lower conntype) "keep-alive"
               && Py.str_ge protocol_version "HTTP/1.1" then
         modify (set_close_connection false)
       else ret tt) ;;
      let expect := headers_get_default "Expect" EmptyString hs in
      h <- get ;;
      if String.eqb (Py.lower expect) "100-continue"
         && Py.str_ge protocol_version "HTTP/1.1"
         && Py.str_ge (request_version h) "HTTP/1.1"
      then
        ok <- handle_expect_100 ;;
        ret ok
      else ret true
  end.

(** The part of [parse_request] after the version is read: the number
    of words, the HTTP/0.9 form, the path. *)
Definition parse_request_words (requestline : string)
           (words : list string) (rh : parsed_headers) : M bool :=
  match words with
  | [command; path] =>
      modify (set_close_connection true) ;;
      if negb (String.eqb command "GET") then
        send_error 400
          (Some ("Bad HTTP/0.9 request type (" +++ py_repr rt command
                   +++ ")")) None ;;
        ret false
      else
        modify (set_command (Some command)) ;;
        modify (set_path path) ;;
        (if Py.startswith path "//" then
           modify (set_path
                     ("/" +++ Py.lstrip_by (Ascii.eqb "/"%char) path))
         else ret tt) ;;
        parse_request_headers rh
  | [command; path; _] =>
      modify (set_command (Some command)) ;;
      modify (set_path path) ;;
      (if Py.startswith path "//" then
         modify (set_path
                   ("/" +++ Py.lstrip_by (Ascii.eqb "/"%char) path))
       else ret tt) ;;
      parse_request_headers rh
  | _ =>
      send_error 400
        (Some ("Bad request syntax (" +++ py_repr rt requestline +++ ")"))
        None ;;
      ret false
  end.

Definition parse_request (r : raw_request) : M bool :=
  modify (set_command None) ;;
  modify (set_request_version default_request_version) ;;
  modify (set_close_connection true) ;;
  let requestline :=
    Py.rstrip_by (fun c => Ascii.eqb c Py.CR || Ascii.eqb c Py.LF)
                 (raw_requestline r) in
  modify (set_requestline requestline) ;;
  let words := Py.split_ws requestline in
  match words with
  | [] => ret false
  | _ =>
      if 3 <=? List.length words then
        let version := List.last words EmptyString in
        match parse_version version with
        | None =>
            send_error 400
              (Some ("Bad request version (" +++ py_repr rt version
                       +++ ")")) None ;;
            ret false
        | Some (base_version_number, version_number) =>
            (if tuple_ge version_number (1, 1)%Z
                && Py.str_ge protocol_version "HTTP/1.1"
             then modify (set_close_connection false)
             else ret tt) ;;
            if tuple_ge version_number (2, 0)%Z then
              send_error 505
                (Some ("Invalid HTTP version (" +++ base_version_number
                         +++ ")")) None ;;
              ret false
            else
              modify (set_request_version version) ;;
              parse_request_words requestline words (raw_headers r)
        end
      else parse_request_words requestline words (raw_headers r)
  end.

Definition handle_one_request (r : raw_request) : M unit :=
  if Py.len_gt (raw_requestline r) 65536 then
    modify (set_requestline EmptyString) ;;
    modify (set_request_version EmptyString) ;;
    modify (set_command (Some EmptyString)) ;;
    send_error 414 None None
  else if String.eqb (raw_requestline r) EmptyString then
    modify (set_close_connection true)
  else
    ok <- parse_request r ;;
    if negb ok then ret tt
    else
      h <- get ;;
      let command :=
        match command h with Some c => c | None => EmptyString end in
      match self_do command with
      | None =>
          send_error 501
            (Some ("Unsupported method (" +++ py_repr rt command +++ ")"))
            None
      | Some method => method
      end.

(** The loop of [handle] over the requests that the connection
    delivers; at the end of the stream [readline] returns nothing. *)
Fixpoint handle_loop (rfile : list raw_request) : M unit :=
  match rfile with
  | [] => modify (set_close_connection true)
  | r :: rest =>
      handle_one_request r ;;
      h <- get ;;
      if close_connection h then ret tt else handle_loop rest
  end.

Definition handle (rfile : list raw_request) : M unit :=
  modify (set_close_connection true) ;;
  handle_loop rfile.

End Methods.

End BaseHTTPRequestHandler.

(** ** [shutil.copyfileobj] *)

Module Shutil.

Definition COPY_BUFSIZE : nat := 64 * 1024.

(** [s[:n]] and [s[n:]] *)
Fixpoint take (n : nat) (s : string) : string :=
  match n, s with
  | S n', String c s' => String c (take n' s')
  | _, _ => EmptyString
  end.

Fixpoint drop (n : nat) (s : string) : string :=
  match n, s with
  | S n', String _ s' => drop n' s'
  | _, _ => s
  end.

(** The loop [while buf := fsrc.read(length): fdst.write(buf)]: the
    buffers written, in order.  [fuel] bounds the iterations. *)
Fixpoint copy_loop (fuel : nat) (length : nat) (src : string)
  : list string :=
  match fuel with
  | 0 => []
  | S fuel' =>
      let buf := take length src in
      if String.eqb buf EmptyString then []
      else buf :: copy_loop fuel' length (drop length src)
  end.

Definition copyfileobj (src : string) : list string :=
  copy_loop (S (String.length src)) COPY_BUFSIZE src.

End Shutil.

(** ** [http.server.SimpleHTTPRequestHandler] *)

Module SimpleHTTPRequestHandler.

Definition server_version : string := "SimpleHTTP/0.6".

(** [list.sort(key=lambda a: a.lower())]: a stable sort on the key. *)
Fixpoint sort_insert (x : string) (l : list string) : list string :=
  match l with
  | [] => [x]
  | y :: rest =>
      if String.ltb (Py.lower x) (Py.lower y) then x :: y :: rest
      else y :: sort_insert x rest
  end.

Definition sort_by_lower (l : list string) : list string :=
  fold_left (fun acc x => sort_insert x acc) l [].

Section Methods.

Variable rt : runtime.
Variable fs : filesystem.
(** [self.end_headers] *)
Variable self_end_headers : M unit.

Let send_response :=
  BaseHTTPRequestHandler.send_response rt server_version.
Let send_header := BaseHTTPRequestHandler.send_header.
Let send_error :=
  BaseHTTPRequestHandler.send_error rt server_version self_end_headers.

(** The loop of [translate_path] over the words of the path. *)
Definition translate_word (path word : string) : string :=
  if negb (String.eqb (Posixpath.dirname word) EmptyString)
     || String.eqb word Posixpath.curdir
     || String.eqb word Posixpath.pardir
  then path
  else Posixpath.join path word.

Definition translate_path (directory path : string) : string :=
  let path := Py.split1_head "?" path in
  let path := Py.split1_head "#" path in
  let trailing_slash := Py.endswith (Py.rstrip path) "/" in
  let path :=
    match Urllib.unquote_surrogatepass rt path with
    | Some p => p
    | None => Urllib.unquote rt path
    end in
  let path := Posixpath.normpath path in
  let words := Py.split "/" path in
  let words := filter (fun w => negb (String.eqb w EmptyString)) words in
  let path := fold_left translate_word words directory in
  if trailing_slash then path +++ "/" else path.

Definition copyfile (source : string) : M unit :=
  fold_right (fun buf k => wfile_write (WBody buf) ;; k) (ret tt)
             (Shutil.copyfileobj source).

(** One item of the listing: the loop body of [list_directory]. *)
Definition list_item (path name : string) : M string :=
  let fullname := Posixpath.join path name in
  fs_record (CallIsdir fullname) ;;
  let displayname := if fs_isdir fs fullname then name +++ "/" else name in
  let linkname := if fs_isdir fs fullname then name +++ "/" else name in
  fs_record (CallIslink fullname) ;;
  let displayname :=
    if fs_islink fs fullname then name +++ "@" else displayname in
  ret ("<li><a href=" +++ Py.DQ +++ quote rt linkname +++ Py.DQ +++ ">"
         +++ Html.escape displayname +++ "</a></li>").

Fixpoint list_items (path : string) (names : list string)
  : M (list string) :=
  match names with
  | [] => ret []
  | name :: rest =>
      item <- list_item path name ;;
      items <- list_items path rest ;;
      ret (item :: items)
  end.

Definition list_directory (path : string) : M (option string) :=
  fs_record (CallListdir path) ;;
  match fs_listdir fs path with
  | None =>
      send_error 404 (Some "No permission to list directory") None ;;
      ret None
  | Some list =>
      let list := sort_by_lower list in
      h <- get ;;
      let displaypath :=
        match Urllib.unquote_surrogatepass rt (self_path h) with
        | Some p => p
        | None => Urllib.unquote rt path
        end in
      let displaypath := Html.escape displaypath in
      let enc := getfilesystemencoding rt in
      let title := "Directory listing for " +++ displaypath in
      items <- list_items path list ;;
      let r :=
        ["<!DOCTYPE HTML>";
         "<html lang=" +++ Py.DQ +++ "en" +++ Py.DQ +++ ">";
         "<head>";
         "<meta charset=" +++ Py.DQ +++ enc +++ Py.DQ +++ ">";
         "<title>" +++ title +++ "</title>" +++ Py.NL +++ "</head>";
         "<body>" +++ Py.NL +++ "<h1>" +++ title +++ "</h1>";
         "<hr>" +++ Py.NL +++ "<ul>"]
        ++ items
        ++ ["</ul>" +++ Py.NL +++ "<hr>" +++ Py.NL +++ "</body>"
              +++ Py.NL +++ "</html>" +++ Py.NL] in
      let encoded := encode_fs rt (Py.join Py.NL r) in
      send_response 200 None ;;
      send_header "Content-type" ("text/html; charset=" +++ enc) ;;
      send_header "Content-Length"
                  (Py.str_of_nat (String.length encoded)) ;;
      self_end_headers ;;
      ret (Some encoded)
  end.

(** The test of [If-Modified-Since] in [send_head]: [true] when the
    copy of the client is not older than the file. *)
Definition not_modified (hs : list (string * string)) (f : file_object)
  : bool :=
  if BaseHTTPRequestHandler.headers_contains "If-Modified-Since" hs
     && negb (BaseHTTPRequestHandler.headers_contains "If-None-Match" hs)
  then
    match parsedate_to_datetime rt
            (BaseHTTPRequestHandler.headers_get_default
               "If-Modified-Since" EmptyString hs) with
    | None => false
    | Some (tz, ims) =>
        let tz := match tz with TzNaive => TzUtc | _ => tz end in
        match tz with
        | TzUtc => (f_mtime f <=? ims)%Z
        | _ => false
        end
    end
  else false.

(** [send_head] from [ctype = self.guess_type(path)] on: the path is
    that of a file. *)
Definition send_head_file (path : string) : M (option string) :=
  let ctype := guess_type rt path in
  if Py.endswith path "/" then
    send_error 404 (Some "File not found") None ;;
    ret None
  else
    fs_record (CallOpen path "rb") ;;
    match fs_open_rb fs path with
    | None =>
        send_error 404 (Some "File not found") None ;;
        ret None
    | Some f =>
        fs_record (CallFstat path) ;;
        h <- get ;;
        if not_modified (headers h) f then
          send_response 304 None ;;
          self_end_headers ;;
          ret None
        else
          send_response 200 None ;;
          send_header "Content-type" ctype ;;
          send_header "Content-Length"
                      (Py.str_of_nat (String.length (f_data f))) ;;
          send_header "Last-Modified"
                      (date_time_string rt (Some (f_mtime f))) ;;
          self_end_headers ;;
          ret (Some (f_data f))
    end.

(** The loop [for index in "index.html", "index.htm"] of [send_head]. *)
Fixpoint find_index (path : string) (indexes : list string)
  : M (option string) :=
  match indexes with
  | [] => ret None
  | index :: rest =>
      let index := Posixpath.join path index in
      fs_record (CallIsfile index) ;;
      if fs_isfile fs index then ret (Some index)
      else find_index path rest
  end.

Definition send_head : M (option string) :=
  h <- get ;;
  let path := translate_path (directory h) (self_path h) in
  fs_record (CallIsdir path) ;;
  if fs_isdir fs path then
    let parts := urlsplit rt (self_path h) in
    if negb (Py.endswith (url_path parts) "/") then
      send_response 301 None ;;
      let new_parts :=
        mkUrl (url_scheme parts) (url_netloc parts)
              (url_path parts +++ "/") (url_query parts)
              (url_fragment parts) in
      let new_url := urlunsplit rt new_parts in
      send_header "Location" new_url ;;
      send_header "Content-Length" "0" ;;
      self_end_headers ;;
      ret None
    else
      index <- find_index path ["index.html"; "index.htm"] ;;
      match index with
      | Some index => send_head_file index
      | None => list_directory path
      end
  else send_head_file path.

Definition do_GET : M unit :=
  f <- send_head ;;
  match f with
  | Some source => copyfile source
  | None => ret tt
  end.

Definition do_HEAD : M unit :=
  f <- send_head ;;
  ret tt.

End Methods.

End SimpleHTTPRequestHandler.

(** ** The script: [class MyHTTPRequestHandler] *)

Module MyHTTPRequestHandler.

Section Methods.

Variable rt : runtime.
Variable fs : filesystem.

(** [def end_headers(self)] of the script; [super().end_headers()] is
    the method of [BaseHTTPRequestHandler]. *)
Definition end_headers : M unit :=
  BaseHTTPRequestHandler.send_header
    "Cross-Origin-Embedder-Policy" "require-corp" ;;
  BaseHTTPRequestHandler.send_header
    "Cross-Origin-Opener-Policy" "same-origin" ;;
  BaseHTTPRequestHandler.end_headers.

Definition server_version : string :=
  SimpleHTTPRequestHandler.server_version.

Definition do_GET : M unit :=
  SimpleHTTPRequestHandler.do_GET rt fs end_headers.

Definition do_HEAD : M unit :=
  SimpleHTTPRequestHandler.do_HEAD rt fs end_headers.

(** The methods named [do_...] of the class. *)
Definition getattr_do (command : string) : option (M unit) :=
  if String.eqb command "GET" then Some do_GET
  else if String.eqb command "HEAD" then Some do_HEAD
  else None.

Definition send_error :=
  BaseHTTPRequestHandler.send_error rt server_version end_headers.

Definition handle_one_request (r : raw_request) : M unit :=
  BaseHTTPRequestHandler.handle_one_request
    rt server_version end_headers getattr_do r.

Definition handle (rfile : list raw_request) : M unit :=
  BaseHTTPRequestHandler.handle
    rt server_version end_headers getattr_do rfile.

(** The handler as [finish_request] creates it: [directory] is
    [os.getcwd()], nothing is written yet. *)
Definition init (cwd : string) : handler :=
  mkHandler cwd None EmptyString EmptyString EmptyString [] true [] [] []
            [].

End Methods.

End MyHTTPRequestHandler.

(** ** The operating system, as the script observes it *)

Inductive exception :=
| FileNotFoundError
| NotADirectoryError
| PermissionError
| AddressInUse.

(** A connection attempt of a client: the local address and port it is
    addressed to, and the requests it sends. *)
Record connection := mkConn {
  conn_addr : string;
  conn_port : Z;
  conn_rfile : list raw_request
}.

Inductive event :=
| EvChdir (path : string)
| EvSocket
| EvBind (host : string) (port : Z)
| EvListen (backlog : Z)
| EvPrint (line : string)
| EvAccept (c : connection)
| EvFs (c : fs_call)
| EvSend (w : write)
| EvLog (l : log_entry)
| EvShutdownRequest
| EvServerClose
| EvTraceback (e : exception).

Record world := mkWorld {
  w_fs : filesystem;
  w_cwd : string;
  (** the addresses held by the sockets of the machine, [EmptyString] for
      every interface *)
  w_bound : list (string * Z);
  (** the process is allowed to bind the address (privileged ports,
      policy of the machine) *)
  w_bind_allowed : string * Z -> bool;
  w_trace : list event
}.

Definition set_cwd (v : string) (w : world) : world :=
  mkWorld (w_fs w) v (w_bound w) (w_bind_allowed w) (w_trace w).

Definition set_bound (v : list (string * Z)) (w : world) : world :=
  mkWorld (w_fs w) (w_cwd w) v (w_bind_allowed w) (w_trace w).

Definition set_trace (v : list event) (w : world) : world :=
  mkWorld (w_fs w) (w_cwd w) (w_bound w) (w_bind_allowed w) v.

Definition emit (evs : list event) (w : world) : world :=
  set_trace (w_trace w ++ evs) w.

(** A statement of the script: it returns or raises. *)
Inductive result (A : Type) :=
| Ok (a : A) (w : world)
| Raise (e : exception) (w : world).
Arguments Ok {A} a w.
Arguments Raise {A} e w.

Definition P (A : Type) : Type := world -> result A.

Definition pret {A : Type} (a : A) : P A := fun w => Ok a w.

Definition pbind {A B : Type} (m : P A) (k : A -> P B) : P B :=
  fun w => match m w with
           | Ok a w' => k a w'
           | Raise e w' => Raise e w'
           end.

Definition praise {A : Type} (e : exception) : P A := fun w => Raise e w.

Definition pemit (evs : list event) : P unit := fun w => Ok tt (emit evs w).

(** [try: body  except: handler; raise] *)
Definition try_reraise {A : Type} (body : P A) (handler : P unit) : P A :=
  fun w => match body w with
           | Ok a w' => Ok a w'
           | Raise e w' =>
               match handler w' with
               | Ok _ w'' => Raise e w''
               | Raise e' w'' => Raise e' w''
               end
           end.

Declare Scope script_scope.
Delimit Scope script_scope with script.
Notation "x <- m ;; k" := (pbind m (fun x => k))
  (at level 61, m at next level, right associativity) : script_scope.
Notation "m ;; k" := (pbind m (fun _ => k))
  (at level 61, right associativity) : script_scope.

(** Two addresses cannot both be bound: the same port, on the same
    interface or one of them on every interface. *)
Definition addr_conflict (a b : string * Z) : bool :=
  (snd a =? snd b)%Z
  && (String.eqb (fst a) EmptyString || String.eqb (fst b) EmptyString
      || String.eqb (fst a) (fst b)).

(** A connection attempt reaches a socket bound to [addr]. *)
Definition delivers (addr : string * Z) (c : connection) : bool :=
  (conn_port c =? snd addr)%Z
  && (String.eqb (fst addr) EmptyString || String.eqb (fst addr) (conn_addr c)).

Module Os.

Local Open Scope script_scope.

(** The exception that [os.chdir(path)] raises, if any. *)
Definition chdir_error (path : string) (w : world) : option exception :=
  if negb (fs_exists (w_fs w) path) then Some FileNotFoundError
  else if negb (fs_isdir (w_fs w) path) then Some NotADirectoryError
  else if negb (fs_searchable (w_fs w) path) then Some PermissionError
  else None.

(** [os.chdir(path)] *)
Definition chdir (path : string) : P unit :=
  pemit [EvChdir path] ;;
  fun w =>
    match chdir_error path w with
    | Some e => Raise e w
    | None => Ok tt (set_cwd (fs_realpath (w_fs w) path) w)
    end.

(** [socket.socket(AF_INET, SOCK_STREAM)] *)
Definition socket : P unit := pemit [EvSocket].

(** The exception that [sock.bind(addr)] raises, if any, without
    [SO_REUSEADDR] and [SO_REUSEPORT]. *)
Definition bind_error (addr : string * Z) (w : world) : option exception :=
  if negb (w_bind_allowed w addr) then Some PermissionError
  else if existsb (addr_conflict addr) (w_bound w) then Some AddressInUse
  else None.

(** [sock.bind(addr)] *)
Definition bind (addr : string * Z) : P unit :=
  pemit [EvBind (fst addr) (snd addr)] ;;
  fun w =>
    match bind_error addr w with
    | Some e => Raise e w
    | None => Ok tt (set_bound (addr :: w_bound w) w)
    end.

(** [sock.listen(backlog)] *)
Definition listen (backlog : Z) : P unit := pemit [EvListen backlog].

(** [sock.close()] of a socket bound to [addr], or not bound. *)
Definition close (addr : option (string * Z)) : P unit :=
  pemit [EvServerClose].

(** [print(line)], on a terminal that takes the text *)
Definition print (line : string) : P unit := pemit [EvPrint line].

End Os.

(** ** [socketserver.TCPServer] *)

Module TCPServer.

Local Open Scope script_scope.

Definition request_queue_size : Z := 5.
Definition allow_reuse_address : bool := false.
Definition allow_reuse_port : bool := false.

Record t := mkServer { server_address : string * Z }.

Definition server_bind (self : t) : P unit := Os.bind (server_address self).

Definition server_activate (self : t) : P unit :=
  Os.listen request_queue_size.

Definition server_close (self : t) : P unit := Os.close None.

(** [TCPServer(server_address, RequestHandlerClass)] *)
Definition init (server_address : string * Z) : P t :=
  let self := mkServer server_address in
  Os.socket ;;
  try_reraise (server_bind self ;; server_activate self)
              (server_close self) ;;
  pret self.

Section Serving.

Variable rt : runtime.

(** [finish_request]: the handler is created and run, [setup],
    [handle], [finish]; what it did is appended to the trace. *)
Definition finish_request (c : connection) : P unit :=
  fun w =>
    let h0 := MyHTTPRequestHandler.init (w_cwd w) in
    let h := exec (MyHTTPRequestHandler.handle rt (w_fs w)
                                               (conn_rfile c)) h0 in
    Ok tt (emit (map EvFs (fs_calls h) ++ map EvLog (stderr_log h)
                     ++ map EvSend (wfile h)) w).

Definition shutdown_request : P unit := pemit [EvShutdownRequest].

Definition process_request (c : connection) : P unit :=
  finish_request c ;;
  shutdown_request.

(** [_handle_request_noblock]: the socket is readable. *)
Definition handle_request_noblock (c : connection) : P unit :=
  pemit [EvAccept c] ;;
  process_request c.

(** [serve_forever] over the connection attempts that the machine
    receives: [select] reports those that reach the socket.  The loop
    does not end; the result is the server waiting in [select]. *)
Fixpoint serve_forever (self : t) (attempts : list connection)
  : P unit :=
  match attempts with
  | [] => pret tt
  | c :: rest =>
      (if delivers (server_address self) c
       then handle_request_noblock c
       else pret tt) ;;
      serve_forever self rest
  end.

End Serving.

End TCPServer.

(** ** The script *)

Module Script.

Local Open Scope script_scope.

Definition PORT : Z := 8000.

Definition ROOT : string := "/mnt/c/Users/millz/vib34d-fix".

(** The two lines printed, as the bytes that the terminal receives. *)
Definition line_serving : string :=
  "🌐 Serving VIB34D system at http://localhost:" +++ Py.str_of_Z PORT.

Definition line_live_test : string :=
  "📋 Live test: http://localhost:" +++ Py.str_of_Z PORT
    +++ "/live-test.html".

(** The body of the [with] statement. *)
Definition with_body (rt : runtime) (httpd : TCPServer.t)
           (attempts : list connection) : P unit :=
  Os.print line_serving ;;
  Os.print line_live_test ;;
  TCPServer.serve_forever rt httpd attempts.

(** The script from [os.chdir] on. *)
Definition main (rt : runtime) (attempts : list connection) : P unit :=
  Os.chdir ROOT ;;
  httpd <- TCPServer.init (EmptyString, PORT) ;;
  try_reraise (with_body rt httpd attempts) (TCPServer.server_close httpd).

(** The process: an exception that nothing catches ends it with the
    traceback on the console and exit status 1; otherwise the server
    waits for the next connection. *)
Inductive process_state :=
| Exited (status : Z)
| Serving.

Definition run (rt : runtime) (attempts : list connection) (w : world)
  : process_state * world :=
  match main rt attempts w with
  | Ok _ w' => (Serving, w')
  | Raise e w' => (Exited 1, emit [EvTraceback e] w')
  end.

End Script.


(** ** An environment for the examples

    A runtime with identity codecs and a file system with the files
    [live-test.html], [assets/logo.png] and [assets/a&b.txt] under the root
    of the script. *)

Module Example_env.

(** Decimal digits only. *)
Fixpoint digits_value (acc : Z) (s : string) : option Z :=
  match s with
  | EmptyString => Some acc
  | String c s' =>
      let n := nat_of_ascii c in
      if (48 <=? n) && (n <=? 57)
      then digits_value (10 * acc + Z.of_nat (n - 48))%Z s'
      else None
  end.

Definition int (s : string) : option Z :=
  match s with
  | EmptyString => None
  | _ => digits_value 0%Z s
  end.

(** [urllib.parse.quote] on ASCII text: the letters, the digits and
    [_.-~/] are kept, another character becomes [%XX]. *)
Definition hex_digit (n : nat) : ascii :=
  if n <? 10 then ascii_of_nat (48 + n) else ascii_of_nat (55 + n).

Definition always_safe (c : ascii) : bool :=
  let n := nat_of_ascii c in
  ((65 <=? n) && (n <=? 90)) || ((97 <=? n) && (n <=? 122))
  || ((48 <=? n) && (n <=? 57))
  || (n =? 95) || (n =? 46) || (n =? 45) || (n =? 126) || (n =? 47).

Fixpoint quote_ascii (s : string) : string :=
  match s with
  | EmptyString => EmptyString
  | String c s' =>
      let n := nat_of_ascii c in
      if always_safe c then String c (quote_ascii s')
      else String "%" (String (hex_digit (n / 16))
                         (String (hex_digit (n mod 16)) (quote_ascii s')))
  end.

(** The dates of the examples. *)
Definition http_date (t : Z) : string :=
  if (t =? 1793610000)%Z then "Mon, 02 Nov 2026 09:00:00 GMT"
  else if (t =? 1793698200)%Z then "Tue, 03 Nov 2026 09:30:00 GMT"
  else "Thu, 01 Jan 1970 00:00:00 GMT".

Definition rt0 : runtime :=
  mkRuntime
    "Python/3.11.2"
    (fun t => match t with
              | None => "Tue, 03 Nov 2026 10:00:00 GMT"
              | Some t => http_date t
              end)
    int
    (fun s => "'" +++ s +++ "'")
    (fun s => s)
    (fun s => s)
    "utf-8"
    (fun s => Some s)
    (fun s => s)
    quote_ascii
    (fun s => mkUrl EmptyString EmptyString (Py.split1_head "?" s)
                    EmptyString EmptyString)
    (fun p => url_path p)
    (fun _ => "text/html")
    (fun s => if String.eqb s "Mon, 02 Nov 2026 09:00:00 GMT"
              then Some (TzUtc, 1793610000%Z)
              else if String.eqb s "Tue, 03 Nov 2026 09:30:00 GMT"
              then Some (TzUtc, 1793698200%Z)
              else None).

Definition root : string := Script.ROOT.

Definition live_test_contents : string :=
  "<!DOCTYPE html><title>VIB34D</title>".

Definition files : list (string * file_object) :=
  [(root +++ "/live-test.html", mkFile live_test_contents 1793610000%Z);
   (root +++ "/assets/logo.png", mkFile "PNG" 1793610000%Z);
   (root +++ "/assets/a&b.txt", mkFile "ab" 1793610000%Z);
   ("/etc/passwd", mkFile "root:x:0:0" 1793610000%Z)].

(** The same files, with other contents outside the root. *)
Definition files_outside : list (string * file_object) :=
  [(root +++ "/live-test.html", mkFile live_test_contents 1793610000%Z);
   (root +++ "/assets/logo.png", mkFile "PNG" 1793610000%Z);
   (root +++ "/assets/a&b.txt", mkFile "ab" 1793610000%Z);
   ("/etc/passwd", mkFile "daemon:x:1:1" 1793698200%Z)].

Definition dirs : list string :=
  ["/"; "/etc"; root; root +++ "/"; root +++ "/assets"; root +++ "/assets/"].

Fixpoint lookup {A : Type} (p : string) (l : list (string * A)) : option A :=
  match l with
  | [] => None
  | (k, v) :: rest => if String.eqb k p then Some v else lookup p rest
  end.

Definition mem (p : string) (l : list string) : bool :=
  existsb (String.eqb p) l.

Definition fs0 : filesystem :=
  mkFs
    (fun p => mem p dirs || mem p (map fst files))
    (fun p => mem p dirs)
    (fun p => mem p (map fst files))
    (fun _ => false)
    (fun p => mem p dirs)
    (fun p => lookup p files)
    (fun p => if String.eqb p (root +++ "/assets/")
                 || String.eqb p (root +++ "/assets")
              then Some ["logo.png"; "a&b.txt"]
              else if String.eqb p root || String.eqb p (root +++ "/")
              then Some ["live-test.html"; "assets"]
              else None)
    (fun p => p).

Definition fs_outside : filesystem :=
  mkFs
    (fun p => mem p dirs || mem p (map fst files))
    (fun p => mem p dirs)
    (fun p => mem p (map fst files))
    (fun _ => false)
    (fun p => mem p dirs)
    (fun p => lookup p files_outside)
    (fs_listdir fs0)
    (fun p => p).

(** The file system in which no directory can be listed. *)
Definition fs_unlistable : filesystem :=
  mkFs (fs_exists fs0) (fs_isdir fs0) (fs_isfile fs0) (fs_islink fs0)
       (fs_searchable fs0) (fs_open_rb fs0) (fun _ => None) (fs_realpath fs0).

(** The file system without the root of the script. *)
Definition fs_no_root : filesystem :=
  mkFs (fun p => String.eqb p "/") (fun p => String.eqb p "/")
       (fun _ => false) (fun _ => false) (fun p => String.eqb p "/")
       (fun _ => None) (fun _ => None) (fun p => p).

Definition w0 : world := mkWorld fs0 "/" [] (fun _ => true) [].

Definition w_no_root : world := mkWorld fs_no_root "/" [] (fun _ => true) [].

Definition request (line : string) : raw_request :=
  mkRequest (line +++ Py.CRLF) (HeadersOk []).

Definition request_with (line : string) (hs : list (string * string))
  : raw_request :=
  mkRequest (line +++ Py.CRLF) (HeadersOk hs).

(** The handler after one request on a new connection. *)
Definition respond_on (fs : filesystem) (r : raw_request) : handler :=
  exec (MyHTTPRequestHandler.handle_one_request rt0 fs r)
       (MyHTTPRequestHandler.init root).

Definition respond (r : raw_request) : handler := respond_on fs0 r.

(** The handler when the method of the request is called: the request
    line and the headers are parsed. *)
Definition dispatched (r : raw_request) : handler :=
  exec (BaseHTTPRequestHandler.parse_request
          rt0 MyHTTPRequestHandler.server_version
          MyHTTPRequestHandler.end_headers r)
       (MyHTTPRequestHandler.init root).

(** A connection from another machine, and one from the machine itself. *)
Definition conn_lan : connection :=
  mkConn "192.168.1.20" 8000 [request "GET /live-test.html HTTP/1.1"].

Definition conn_loopback : connection :=
  mkConn "127.0.0.1" 8000 [request "GET /assets/ HTTP/1.1"].

(** The world in which another process holds the port. *)
Definition w_port_taken : world :=
  mkWorld fs0 "/" [("127.0.0.1", 8000%Z)] (fun _ => true) [].

End Example_env.

(** * The header block of a response *)

Definition COEP_line : string :=
  "Cross-Origin-Embedder-Policy: require-corp" +++ Py.CRLF.

Definition COOP_line : string :=
  "Cross-Origin-Opener-Policy: same-origin" +++ Py.CRLF.

(** The request line carried a protocol version: the handler answers with
    a status line and headers. *)
Definition full_request (h : handler) : Prop :=
  String.eqb (request_version h) "HTTP/0.9" = false.

(** The handler answers in the HTTP/0.9 form, the body alone. *)
Definition simple_request (h : handler) : Prop :=
  String.eqb (request_version h) "HTTP/0.9" = true.

Definition status_line (code : Z) (message : string) : string :=
  BaseHTTPRequestHandler.protocol_version +++ " " +++ Py.str_of_Z code
    +++ " " +++ message +++ Py.CRLF.

Definition header_line (keyword value : string) : string :=
  keyword +++ ": " +++ value +++ Py.CRLF.

(** A header block closed by the two headers of the script and the blank
    line. *)
Definition isolated (w : write) : Prop :=
  match w with
  | WHeaders lines => exists pre, lines = pre ++ [COEP_line; COOP_line; Py.CRLF]
  | WBody _ => True
  end.

(** Some header block of the response has the line. *)
Definition carries (line : string) (ws : list write) : bool :=
  existsb (fun w => match w with
                    | WHeaders lines => existsb (String.eqb line) lines
                    | WBody _ => false
                    end) ws.

(** The first lines that [send_response] buffers. *)
Definition response_head (rt : runtime) (code : Z) (message : string)
  : list string :=
  [status_line code message;
   header_line "Server"
               (SimpleHTTPRequestHandler.server_version +++ " "
                  +++ sys_version rt);
   header_line "Date" (date_time_string rt None)].

(** * Properties that the methods preserve *)

(** A method preserves a property of the handler. *)
Definition pres {A : Type} (I : handler -> Prop) (m : M A) : Prop :=
  forall h, I h -> I (exec m h).

(** The fields of the handler that the outside observes. *)
Definition same_obs (h h' : handler) : Prop :=
  directory h' = directory h /\ wfile h' = wfile h
  /\ fs_calls h' = fs_calls h.

(** * Paths under the root *)

Fixpoint has_char (c : ascii) (s : string) : bool :=
  match s with
  | EmptyString => false
  | String a s' => Ascii.eqb a c || has_char c s'
  end.

(** A plain name: not empty, without [/], neither [.] nor [..]. *)
Definition plain (w : string) : bool :=
  negb (String.eqb w EmptyString) && negb (has_char "/" w)
  && negb (String.eqb w ".") && negb (String.eqb w "..").

(** The paths made from the root [d] by joining plain names and
    appending [/]. *)
Inductive under (d : string) : string -> Prop :=
| under_root : under d d
| under_child (p w : string) :
    under d p -> plain w = true -> under d (Posixpath.join p w)
| under_slash (p : string) : under d p -> under d (p +++ "/").

(** The components of a path that the operating system walks through. *)
Definition components (p : string) : list string :=
  filter (fun w => negb (String.eqb w EmptyString)) (Py.split "/" p).

(** A call of the handler into the file system stays under the root [d]:
    files are opened for reading and directories are listed at paths
    under [d]; the tests are made there, or on an entry that [listdir]
    reported for such a path. *)
Definition entry_of (fs : filesystem) (d p : string) : Prop :=
  exists q names name,
    under d q /\ fs_listdir fs q = Some names /\ In name names
    /\ p = Posixpath.join q name.

Definition call_ok (fs : filesystem) (d : string) (c : fs_call) : Prop :=
  match c with
  | CallOpen p mode => under d p /\ mode = "rb"
  | CallListdir p => under d p
  | CallFstat p => under d p
  | CallIsdir p => under d p \/ entry_of fs d p
  | CallIsfile p => under d p \/ entry_of fs d p
  | CallIslink p => under d p \/ entry_of fs d p
  end.

(** The root of the handler is [d] and its calls so far stay under it. *)
Definition calls_under (fs : filesystem) (d : string) (h : handler) : Prop :=
  directory h = d /\ Forall (call_ok fs d) (fs_calls h).

(** Two file systems give the same answers to the tests, and the same
    contents and listings at the paths under the root [d]. *)
Definition agree_under (d : string) (fs fs' : filesystem) : Prop :=
  (forall p, fs_isdir fs' p = fs_isdir fs p)
  /\ (forall p, fs_isfile fs' p = fs_isfile fs p)
  /\ (forall p, fs_islink fs' p = fs_islink fs p)
  /\ (forall p, under d p ->
                fs_open_rb fs' p = fs_open_rb fs p
                /\ fs_listdir fs' p = fs_listdir fs p).

(** * The events of the script *)

(** The mode of an [open] allows writing. *)
Definition writes_mode (mode : string) : bool :=
  has_char "w" mode || has_char "a" mode || has_char "x" mode
  || has_char "+" mode.

(** A call that leaves the file system as it is: a test, a listing, a
    file opened for reading. *)
Definition read_only (c : fs_call) : bool :=
  match c with
  | CallOpen _ mode => negb (writes_mode mode)
  | _ => true
  end.

(** The events of the start of the script, when the listener is bound. *)
Definition startup_events : list event :=
  [EvChdir Script.ROOT; EvSocket; EvBind EmptyString Script.PORT;
   EvListen 5; EvPrint Script.line_serving; EvPrint Script.line_live_test].

(** The events of a start on which [bind] raises [e]. *)
Definition bind_failure_events (e : exception) : list event :=
  [EvChdir Script.ROOT; EvSocket; EvBind EmptyString Script.PORT;
   EvServerClose; EvTraceback e].

Definition is_accept (ev : event) : bool :=
  match ev with
  | EvAccept _ => true
  | _ => false
  end.

Definition is_print (ev : event) : bool :=
  match ev with
  | EvPrint _ => true
  | _ => false
  end.

Definition is_bind (ev : event) : bool :=
  match ev with
  | EvBind _ _ => true
  | _ => false
  end.

(** What [serve_forever] adds to the trace: connections accepted and
    closed, calls that read the file system, log lines, writes to the
    sockets. *)
Definition served_event (ev : event) : Prop :=
  match ev with
  | EvAccept _ => True
  | EvFs c => read_only c = true
  | EvSend _ => True
  | EvLog _ => True
  | EvShutdownRequest => True
  | _ => False
  end.

(** The world after [os.chdir] into the root. *)
Definition in_root (w : world) : world :=
  set_cwd (fs_realpath (w_fs w) Script.ROOT) w.

(** The world after the listener is bound. *)
Definition listening (w : world) : world :=
  set_bound ((EmptyString, Script.PORT) :: w_bound w) (in_root w).

(** * The responses to a request *)

(** [needle] occurs in [s]. *)
Definition occurs (needle s : string) : Prop :=
  exists before after, s = before +++ needle +++ after.

(** The calls of [list_directory] for one entry. *)
Definition list_item_calls (path name : string) : list fs_call :=
  [CallIsdir (Posixpath.join path name);
   CallIslink (Posixpath.join path name)].

(** The item of the listing for one entry. *)
Definition list_item_html (rt : runtime) (fs : filesystem)
           (path name : string) : string :=
  let fullname := Posixpath.join path name in
  let linkname := if fs_isdir fs fullname then name +++ "/" else name in
  let displayname :=
    if fs_islink fs fullname then name +++ "@"
    else if fs_isdir fs fullname then name +++ "/" else name in
  "<li><a href=" +++ Py.DQ +++ quote rt linkname +++ Py.DQ +++ ">"
    +++ Html.escape displayname +++ "</a></li>".

(** The page that [list_directory] builds for the entries [names] of
    [path], before it is encoded. *)
Definition listing_html (rt : runtime) (fs : filesystem)
           (displaypath path : string) (names : list string) : string :=
  let title := "Directory listing for " +++ Html.escape displaypath in
  Py.join Py.NL
    (["<!DOCTYPE HTML>";
      "<html lang=" +++ Py.DQ +++ "en" +++ Py.DQ +++ ">";
      "<head>";
      "<meta charset=" +++ Py.DQ +++ getfilesystemencoding rt +++ Py.DQ
        +++ ">";
      "<title>" +++ title +++ "</title>" +++ Py.NL +++ "</head>";
      "<body>" +++ Py.NL +++ "<h1>" +++ title +++ "</h1>";
      "<hr>" +++ Py.NL +++ "<ul>"]
     ++ map (list_item_html rt fs path)
            (SimpleHTTPRequestHandler.sort_by_lower names)
     ++ ["</ul>" +++ Py.NL +++ "<hr>" +++ Py.NL +++ "</body>"
           +++ Py.NL +++ "</html>" +++ Py.NL]).

(** The page of [send_error]. *)
Definition error_page (rt : runtime) (code : Z) (message explain : string)
  : string :=
  encode_utf8 rt
    (BaseHTTPRequestHandler.error_message_format
       code (Html.escape message) (Html.escape explain)).

(** The writes of a body: none when it is empty. *)
Definition body_writes (body : string) : list write :=
  map WBody (Shutil.copyfileobj body).

(** * What the methods that answer leave as it is *)

(** From [h] to [h']: the request and the root are the same, and a
    connection that was to be closed is still to be closed. *)
Definition answers (h h' : handler) : Prop :=
  directory h' = directory h
  /\ command h' = command h
  /\ path h' = path h
  /\ request_version h' = request_version h
  /\ requestline h' = requestline h
  /\ headers h' = headers h
  /\ (close_connection h = true -> close_connection h' = true).

Definition answering {A : Type} (m : M A) : Prop :=
  forall h, answers h (exec m h).

(** The connection is to be closed after the request. *)
Definition closing (h : handler) : Prop := close_connection h = true.

(** * The order of a listing *)

(** [a] is not after [b] in the order of the lower-case names. *)
Definition lower_le (a b : string) : Prop :=
  String.ltb (Py.lower b) (Py.lower a) = false.

(** The characters that [html.escape] replaces. *)
Definition html_special (c : ascii) : bool :=
  Ascii.eqb c "&" || Ascii.eqb c "<" || Ascii.eqb c ">".

Fixpoint forall_chars (p : ascii -> bool) (s : string) : bool :=
  match s with
  | EmptyString => true
  | String c s' => p c && forall_chars p s'
  end.

(** * Error responses *)

(** The writes of an error response to a request that carried a version:
    the header block, then the page unless it is empty. *)
Definition error_writes (rt : runtime) (code : Z) (message explain : string)
  : list write :=
  WHeaders
    (response_head rt code message
       ++ [header_line "Connection" "close";
           header_line "Content-Type" "text/html;charset=utf-8";
           header_line "Content-Length"
             (Py.str_of_nat
                (String.length (error_page rt code message explain)));
           COEP_line; COOP_line; Py.CRLF])
    :: (if String.eqb (error_page rt code message explain) EmptyString
        then []
        else [WBody (error_page rt code message explain)]).

(** The writes of an error response in the HTTP/0.9 form: the page
    alone. *)
Definition error_writes_simple (rt : runtime) (code : Z)
           (message explain : string) : list write :=
  if String.eqb (error_page rt code message explain) EmptyString
  then []
  else [WBody (error_page rt code message explain)].

(** [send_error] makes a page for the code. *)
Definition has_page (code : Z) : bool :=
  (200 <=? code)%Z
  && negb ((code =? 204)%Z || (code =? 205)%Z || (code =? 304)%Z).

(** * The request line *)

(** The path that [parse_request] keeps for the second word of the
    request line. *)
Definition kept_path (p : string) : string :=
  if Py.startswith p "//"
  then "/" +++ Py.lstrip_by (Ascii.eqb "/"%char) p
  else p.

(** The request line as [parse_request] splits it. *)
Definition request_words (r : raw_request) : list string :=
  Py.split_ws
    (Py.rstrip_by (fun c => Ascii.eqb c Py.CR || Ascii.eqb c Py.LF)
                  (raw_requestline r)).

(** * More of the environment for the examples *)

Module Example_more.

Fixpoint repeat_char (n : nat) (c : ascii) : string :=
  match n with
  | 0 => EmptyString
  | S n' => String c (repeat_char n' c)
  end.

(** A request line of 65537 characters. *)
Definition long_request : raw_request :=
  mkRequest (repeat_char (Z.to_nat 65537) "a") (HeadersOk []).

(** A root with a directory [docs] that has [index.html] and
    [index.htm]. *)
Definition docs : string := Example_env.root +++ "/docs/".

Definition fs_docs : filesystem :=
  mkFs
    (fun p => String.eqb p Example_env.root || String.eqb p docs
              || String.eqb p (docs +++ "index.html")
              || String.eqb p (docs +++ "index.htm"))
    (fun p => String.eqb p Example_env.root || String.eqb p docs)
    (fun p => String.eqb p (docs +++ "index.html")
              || String.eqb p (docs +++ "index.htm"))
    (fun _ => false)
    (fun p => String.eqb p Example_env.root || String.eqb p docs)
    (fun p => if String.eqb p (docs +++ "index.html")
              then Some (mkFile "<h1>docs</h1>" 1793610000%Z)
              else if String.eqb p (docs +++ "index.htm")
              then Some (mkFile "old" 1793610000%Z)
              else None)
    (fun p => if String.eqb p docs then Some ["index.htm"; "index.html"]
              else None)
    (fun p => p).

(** The world in which the root of the script is a file. *)
Definition fs_root_is_file : filesystem :=
  mkFs (fun p => String.eqb p Script.ROOT) (fun _ => false)
       (fun p => String.eqb p Script.ROOT) (fun _ => false)
       (fun _ => false) (fun _ => None) (fun _ => None) (fun p => p).

Definition w_root_is_file : world :=
  mkWorld fs_root_is_file "/" [] (fun _ => true) [].

(** A connection attempt to another port. *)
Definition conn_other_port : connection :=
  mkConn "127.0.0.1" 8080 [Example_env.request "GET / HTTP/1.1"].

End Example_more.

(** * Reasoning about methods *)

Lemma exec_bind {A B : Type} (m : M A) (k : A -> M B) (h : handler) :
  exec (bind m k) h = exec (k (eval m h)) (exec m h).
Proof. unfold exec, eval, bind. destruct (m h); reflexivity. Qed.

Lemma eval_bind {A B : Type} (m : M A) (k : A -> M B) (h : handler) :
  eval (bind m k) h = eval (k (eval m h)) (exec m h).
Proof. unfold exec, eval, bind. destruct (m h); reflexivity. Qed.

Lemma exec_ret {A : Type} (a : A) (h : handler) : exec (ret a) h = h.
Proof. reflexivity. Qed.

Lemma exec_modify (f : handler -> handler) (h : handler) :
  exec (modify f) h = f h.
Proof. reflexivity. Qed.

Lemma bind_get {A : Type} (k : handler -> M A) (h : handler) :
  bind get k h = k h h.
Proof. reflexivity. Qed.

Lemma bind_fs_record {A : Type} (c : fs_call) (k : unit -> M A)
      (h : handler) :
  bind (fs_record c) k h = k tt (set_fs_calls (fs_calls h ++ [c]) h).
Proof. reflexivity. Qed.

Lemma equal_f {A B : Type} (f g : A -> B) (x : A) : f = g -> f x = g x.
Proof. intros ->. reflexivity. Qed.

Lemma pres_ret {A : Type} (I : handler -> Prop) (a : A) : pres I (ret a).
Proof. intros h Hh; exact Hh. Qed.

Lemma pres_get (I : handler -> Prop) : pres I get.
Proof. intros h Hh; exact Hh. Qed.

Lemma pres_bind {A B : Type} (I : handler -> Prop) (m : M A) (k : A -> M B) :
  pres I m -> (forall a, pres I (k a)) -> pres I (bind m k).
Proof.
  intros Hm Hk h Hh. rewrite exec_bind. apply Hk, Hm, Hh.
Qed.

Lemma pres_modify (I : handler -> Prop) (f : handler -> handler) :
  (forall h, I h -> I (f h)) -> pres I (modify f).
Proof. intros Hf h Hh. rewrite exec_modify. apply Hf, Hh. Qed.

(** Breaks a method into its statements. *)
Ltac pres_split :=
  repeat match goal with
    | |- pres _ (bind _ _) => apply pres_bind; [ | intro ]
    | |- pres _ (ret _) => apply pres_ret
    | |- pres _ get => apply pres_get
    | |- pres _ (if ?b then _ else _) => destruct b
    | |- pres _ (match ?x with _ => _ end) => destruct x
    | |- pres _ (let (_, _) := ?x in _) => destruct x
    end.

Section Invariant.

Variable I : handler -> Prop.
Hypothesis I_obs : forall h h', same_obs h h' -> I h -> I h'.
Hypothesis I_body :
  forall h b, I h -> I (set_wfile (wfile h ++ [WBody b]) h).
Hypothesis I_end :
  pres I MyHTTPRequestHandler.end_headers.

Variable rt : runtime.
Variable fs : filesystem.

Lemma pres_neutral (f : handler -> handler) :
  (forall h, same_obs h (f h)) -> pres I (modify f).
Proof. intros Hf. apply pres_modify. intros h Hh. eapply I_obs; eauto. Qed.

Ltac neutral :=
  apply pres_neutral; intro; repeat split; reflexivity.

Lemma pres_log_request code :
  pres I (BaseHTTPRequestHandler.log_request code).
Proof. neutral. Qed.

Lemma pres_log_error code message :
  pres I (BaseHTTPRequestHandler.log_error code message).
Proof. neutral. Qed.

Lemma pres_headers_buffer_append line :
  pres I (BaseHTTPRequestHandler.headers_buffer_append line).
Proof. neutral. Qed.

Lemma pres_send_response_only code message :
  pres I (BaseHTTPRequestHandler.send_response_only code message).
Proof.
  unfold BaseHTTPRequestHandler.send_response_only.
  pres_split; apply pres_headers_buffer_append.
Qed.

Lemma pres_send_header keyword value :
  pres I (BaseHTTPRequestHandler.send_header keyword value).
Proof.
  unfold BaseHTTPRequestHandler.send_header.
  pres_split; try apply pres_headers_buffer_append; neutral.
Qed.

Lemma pres_send_response sv code message :
  pres I (BaseHTTPRequestHandler.send_response rt sv code message).
Proof.
  unfold BaseHTTPRequestHandler.send_response.
  pres_split; auto using pres_log_request, pres_send_response_only,
    pres_send_header.
Qed.

Lemma pres_wfile_write_body b : pres I (wfile_write (WBody b)).
Proof. apply pres_modify. intros h Hh. apply I_body, Hh. Qed.

Lemma pres_send_error code message explain :
  pres I (MyHTTPRequestHandler.send_error rt code message explain).
Proof.
  unfold MyHTTPRequestHandler.send_error, BaseHTTPRequestHandler.send_error.
  pres_split; auto using pres_log_error, pres_send_response,
    pres_send_header, pres_wfile_write_body.
Qed.

Lemma pres_handle_expect_100 :
  pres I (BaseHTTPRequestHandler.handle_expect_100
            MyHTTPRequestHandler.end_headers).
Proof.
  unfold BaseHTTPRequestHandler.handle_expect_100.
  pres_split; auto using pres_send_response_only.
Qed.

Lemma pres_parse_request_headers rh :
  pres I (BaseHTTPRequestHandler.parse_request_headers
            rt MyHTTPRequestHandler.server_version
            MyHTTPRequestHandler.end_headers rh).
Proof.
  unfold BaseHTTPRequestHandler.parse_request_headers.
  pres_split;
    try apply pres_send_error; try apply pres_handle_expect_100; neutral.
Qed.

Lemma pres_parse_request_words requestline words rh :
  pres I (BaseHTTPRequestHandler.parse_request_words
            rt MyHTTPRequestHandler.server_version
            MyHTTPRequestHandler.end_headers requestline words rh).
Proof.
  unfold BaseHTTPRequestHandler.parse_request_words.
  pres_split;
    try apply pres_send_error; try apply pres_parse_request_headers; neutral.
Qed.

Lemma pres_parse_request r :
  pres I (BaseHTTPRequestHandler.parse_request
            rt MyHTTPRequestHandler.server_version
            MyHTTPRequestHandler.end_headers r).
Proof.
  unfold BaseHTTPRequestHandler.parse_request.
  pres_split;
    try apply pres_send_error; try apply pres_parse_request_words; neutral.
Qed.

(** The methods [do_GET] and [do_HEAD] of [SimpleHTTPRequestHandler]. *)

Section Simple.

Hypothesis I_call :
  forall h c, I h -> I (set_fs_calls (fs_calls h ++ [c]) h).

Lemma pres_fs_record c : pres I (fs_record c).
Proof. apply pres_modify. intros h Hh. apply I_call, Hh. Qed.

Lemma pres_copy_buffers bufs :
  pres I (fold_right (fun buf k => bind (wfile_write (WBody buf))
                                        (fun _ => k))
                     (ret tt) bufs).
Proof.
  induction bufs as [|buf bufs IH]; simpl.
  - apply pres_ret.
  - apply pres_bind; [apply pres_wfile_write_body | intro; exact IH].
Qed.

Lemma pres_copyfile source :
  pres I (SimpleHTTPRequestHandler.copyfile source).
Proof. apply pres_copy_buffers. Qed.

Lemma pres_list_item path name :
  pres I (SimpleHTTPRequestHandler.list_item rt fs path name).
Proof.
  unfold SimpleHTTPRequestHandler.list_item.
  pres_split; apply pres_fs_record.
Qed.

Lemma pres_list_items path names :
  pres I (SimpleHTTPRequestHandler.list_items rt fs path names).
Proof.
  induction names as [|name names IH]; simpl.
  - apply pres_ret.
  - pres_split; auto using pres_list_item.
Qed.

Lemma pres_list_directory path :
  pres I (SimpleHTTPRequestHandler.list_directory
            rt fs MyHTTPRequestHandler.end_headers path).
Proof.
  unfold SimpleHTTPRequestHandler.list_directory.
  pres_split;
    auto using pres_fs_record, pres_list_items, pres_send_response,
      pres_send_header;
    apply pres_send_error.
Qed.

Lemma pres_send_head_file path :
  pres I (SimpleHTTPRequestHandler.send_head_file
            rt fs MyHTTPRequestHandler.end_headers path).
Proof.
  unfold SimpleHTTPRequestHandler.send_head_file.
  pres_split;
    auto using pres_fs_record, pres_send_response, pres_send_header;
    apply pres_send_error.
Qed.

Lemma pres_find_index path indexes :
  pres I (SimpleHTTPRequestHandler.find_index fs path indexes).
Proof.
  induction indexes as [|index indexes IH]; simpl.
  - apply pres_ret.
  - pres_split; auto using pres_fs_record.
Qed.

Lemma pres_send_head :
  pres I (SimpleHTTPRequestHandler.send_head
            rt fs MyHTTPRequestHandler.end_headers).
Proof.
  unfold SimpleHTTPRequestHandler.send_head.
  pres_split;
    auto using pres_fs_record, pres_send_response, pres_send_header,
      pres_find_index, pres_send_head_file, pres_list_directory.
Qed.

Lemma pres_do_GET : pres I (MyHTTPRequestHandler.do_GET rt fs).
Proof.
  unfold MyHTTPRequestHandler.do_GET, SimpleHTTPRequestHandler.do_GET.
  pres_split; auto using pres_send_head, pres_copyfile.
Qed.

Lemma pres_do_HEAD : pres I (MyHTTPRequestHandler.do_HEAD rt fs).
Proof.
  unfold MyHTTPRequestHandler.do_HEAD, SimpleHTTPRequestHandler.do_HEAD.
  pres_split; auto using pres_send_head.
Qed.

End Simple.

(** The request loop, once the two methods preserve the property. *)

Section Loop.

Hypothesis I_do_GET : pres I (MyHTTPRequestHandler.do_GET rt fs).
Hypothesis I_do_HEAD : pres I (MyHTTPRequestHandler.do_HEAD rt fs).

Lemma pres_getattr_do command method :
  MyHTTPRequestHandler.getattr_do rt fs command = Some method ->
  pres I method.
Proof.
  unfold MyHTTPRequestHandler.getattr_do.
  destruct (String.eqb command "GET");
    [ intros [= <-]; exact I_do_GET | ].
  destruct (String.eqb command "HEAD");
    [ intros [= <-]; exact I_do_HEAD | discriminate ].
Qed.

Lemma pres_handle_one_request r :
  pres I (MyHTTPRequestHandler.handle_one_request rt fs r).
Proof.
  unfold MyHTTPRequestHandler.handle_one_request,
    BaseHTTPRequestHandler.handle_one_request.
  destruct (Py.len_gt (raw_requestline r) 65536).
  { pres_split; try apply pres_send_error; neutral. }
  destruct (String.eqb (raw_requestline r) EmptyString).
  { neutral. }
  apply pres_bind; [apply pres_parse_request | intros ok].
  destruct (negb ok); [apply pres_ret | ].
  apply pres_bind; [apply pres_get | intros h].
  destruct (MyHTTPRequestHandler.getattr_do rt fs _) as [method|] eqn:Hm.
  - eapply pres_getattr_do; eassumption.
  - apply pres_send_error.
Qed.

Lemma pres_handle_loop rfile :
  pres I (BaseHTTPRequestHandler.handle_loop
            rt MyHTTPRequestHandler.server_version
            MyHTTPRequestHandler.end_headers
            (MyHTTPRequestHandler.getattr_do rt fs) rfile).
Proof.
  induction rfile as [|r rfile IH]; simpl.
  - neutral.
  - apply pres_bind; [apply pres_handle_one_request | intros _].
    apply pres_bind; [apply pres_get | intros h].
    destruct (close_connection h); [apply pres_ret | exact IH].
Qed.

Lemma pres_handle rfile :
  pres I (MyHTTPRequestHandler.handle rt fs rfile).
Proof.
  unfold MyHTTPRequestHandler.handle, BaseHTTPRequestHandler.handle.
  apply pres_bind; [neutral | intros _; apply pres_handle_loop].
Qed.

End Loop.

End Invariant.

Lemma send_header_full keyword value h :
  full_request h ->
  String.eqb (Py.lower keyword) "connection" = false ->
  exec (BaseHTTPRequestHandler.send_header keyword value) h
  = set_headers_buffer
      (headers_buffer h ++ [keyword +++ ": " +++ value +++ Py.CRLF]) h.
Proof.
  intros Hv Hk.
  unfold exec, BaseHTTPRequestHandler.send_header, bind, get,
    BaseHTTPRequestHandler.headers_buffer_append, modify, ret.
  cbv beta iota. rewrite Hv. cbv beta iota delta [negb]. rewrite Hk.
  reflexivity.
Qed.

Lemma send_header_simple keyword value h :
  simple_request h ->
  String.eqb (Py.lower keyword) "connection" = false ->
  exec (BaseHTTPRequestHandler.send_header keyword value) h = h.
Proof.
  intros Hv Hk.
  unfold exec, BaseHTTPRequestHandler.send_header, bind, get,
    BaseHTTPRequestHandler.headers_buffer_append, modify, ret.
  cbv beta iota. rewrite Hv. cbv beta iota delta [negb]. rewrite Hk.
  reflexivity.
Qed.

(** [end_headers] of the script, when the request carried a version: the
    two headers and the blank line close the buffered lines, and the
    block is written. *)
Lemma end_headers_full h :
  full_request h ->
  exec MyHTTPRequestHandler.end_headers h
  = set_headers_buffer []
      (set_wfile
         (wfile h ++ [WHeaders (headers_buffer h
                                  ++ [COEP_line; COOP_line; Py.CRLF])])
         (set_headers_buffer
            (headers_buffer h ++ [COEP_line; COOP_line; Py.CRLF]) h)).
Proof.
  intros Hv. unfold MyHTTPRequestHandler.end_headers.
  rewrite exec_bind, send_header_full by (assumption || reflexivity).
  rewrite exec_bind, send_header_full by (assumption || reflexivity).
  unfold exec, BaseHTTPRequestHandler.end_headers, bind, get,
    BaseHTTPRequestHandler.headers_buffer_append,
    BaseHTTPRequestHandler.flush_headers, wfile_write, modify, ret.
  cbn [request_version set_headers_buffer headers_buffer fst snd].
  unfold full_request in Hv. rewrite Hv. cbn [negb].
  cbn [set_headers_buffer set_wfile directory command path request_version
       requestline headers close_connection headers_buffer wfile stderr_log
       fs_calls fst snd].
  rewrite <- !app_assoc. reflexivity.
Qed.

(** In the HTTP/0.9 form [end_headers] does nothing. *)
Lemma end_headers_simple h :
  simple_request h ->
  exec MyHTTPRequestHandler.end_headers h = h.
Proof.
  intros Hv. unfold MyHTTPRequestHandler.end_headers.
  rewrite exec_bind, send_header_simple by (assumption || reflexivity).
  rewrite exec_bind, send_header_simple by (assumption || reflexivity).
  unfold exec, BaseHTTPRequestHandler.end_headers, bind, get, ret.
  unfold simple_request in Hv. cbv beta iota. rewrite Hv. reflexivity.
Qed.

(** * Claim C1: the two headers on the responses *)

Lemma isolated_obs h h' :
  same_obs h h' -> Forall isolated (wfile h) -> Forall isolated (wfile h').
Proof. intros (_ & Hw & _) H. rewrite Hw. exact H. Qed.

Lemma isolated_body h b :
  Forall isolated (wfile h) ->
  Forall isolated (wfile (set_wfile (wfile h ++ [WBody b]) h)).
Proof.
  intros H. cbn [wfile set_wfile]. apply Forall_app. split; [exact H|].
  constructor; [exact Logic.I | constructor].
Qed.

Lemma isolated_call h c :
  Forall isolated (wfile h) ->
  Forall isolated (wfile (set_fs_calls (fs_calls h ++ [c]) h)).
Proof. intros H. exact H. Qed.

Lemma version_cases h : full_request h \/ simple_request h.
Proof.
  unfold full_request, simple_request.
  destruct (String.eqb (request_version h) "HTTP/0.9"); auto.
Qed.

Lemma isolated_end_headers :
  pres (fun h => Forall isolated (wfile h)) MyHTTPRequestHandler.end_headers.
Proof.
  intros h H. destruct (version_cases h) as [Hv|Hv].
  - rewrite end_headers_full by exact Hv.
    cbn [wfile set_wfile set_headers_buffer].
    apply Forall_app. split; [exact H|].
    constructor; [ | constructor].
    exists (headers_buffer h). reflexivity.
  - rewrite end_headers_simple by exact Hv. exact H.
Qed.

Lemma isolated_handle rt fs rfile :
  pres (fun h => Forall isolated (wfile h))
       (MyHTTPRequestHandler.handle rt fs rfile).
Proof.
  apply pres_handle.
  - exact isolated_obs.
  - exact isolated_body.
  - exact isolated_end_headers.
  - apply pres_do_GET;
      [ exact isolated_obs | exact isolated_body
      | exact isolated_end_headers | exact isolated_call ].
  - apply pres_do_HEAD;
      [ exact isolated_obs | exact isolated_body
      | exact isolated_end_headers | exact isolated_call ].
Qed.


(** * Claim C2: the paths that the handler yields *)

Lemma split_not_nil sep s : Py.split sep s <> [].
Proof.
  destruct s as [|c s]; simpl; [discriminate|].
  destruct (Ascii.eqb c sep); [discriminate|].
  destruct (Py.split sep s); discriminate.
Qed.

Lemma split_no_sep sep s w :
  In w (Py.split sep s) -> has_char sep w = false.
Proof.
  revert w. induction s as [|c s IH]; simpl; intros w Hw.
  - destruct Hw as [<-|[]]. reflexivity.
  - destruct (Ascii.eqb c sep) eqn:Hc.
    + destruct Hw as [<-|Hw]; [reflexivity | apply IH, Hw].
    + destruct (Py.split sep s) as [|w0 ws] eqn:Hs.
      * destruct Hw as [<-|[]]. simpl. rewrite Hc. reflexivity.
      * destruct Hw as [<-|Hw].
        -- simpl. rewrite Hc. apply IH. left; reflexivity.
        -- apply IH. right; exact Hw.
Qed.

Lemma split_plain sep w : has_char sep w = false -> Py.split sep w = [w].
Proof.
  induction w as [|c w IH]; simpl; intros H; [reflexivity|].
  apply orb_false_iff in H. destruct H as [Hc Hw].
  rewrite Hc, (IH Hw). reflexivity.
Qed.

(** Splitting at a separator splits the two sides. *)
Lemma split_app_sep sep a b :
  Py.split sep (a +++ String sep b) = Py.split sep a ++ Py.split sep b.
Proof.
  induction a as [|c a IH]; simpl.
  - rewrite Ascii.eqb_refl. reflexivity.
  - destruct (Ascii.eqb c sep); [rewrite IH; reflexivity|].
    rewrite IH. destruct (Py.split sep a) as [|w ws] eqn:Ha.
    + exfalso. exact (split_not_nil _ _ Ha).
    + reflexivity.
Qed.

Lemma no_sep_head w :
  has_char "/" w = false -> Posixpath.head_upto_last_sep w = EmptyString.
Proof.
  induction w as [|c w IH]; simpl; intros H; [reflexivity|].
  apply orb_false_iff in H. destruct H as [Hc Hw].
  rewrite (IH Hw). unfold Posixpath.sep. rewrite Hc. reflexivity.
Qed.

Lemma no_sep_dirname w :
  has_char "/" w = false -> Posixpath.dirname w = EmptyString.
Proof.
  intros H. unfold Posixpath.dirname. rewrite (no_sep_head _ H). reflexivity.
Qed.

(** A word of the split path is dropped or joined as a plain name. *)
Lemma translate_word_cases p w :
  String.eqb w EmptyString = false -> has_char "/" w = false ->
  SimpleHTTPRequestHandler.translate_word p w = p
  \/ (plain w = true
      /\ SimpleHTTPRequestHandler.translate_word p w = Posixpath.join p w).
Proof.
  intros Hne Hs. unfold SimpleHTTPRequestHandler.translate_word, plain.
  rewrite (no_sep_dirname _ Hs), Hne, Hs.
  unfold Posixpath.curdir, Posixpath.pardir. simpl.
  destruct (String.eqb w "."); [left; reflexivity|].
  destruct (String.eqb w ".."); [left; reflexivity|].
  right. split; reflexivity.
Qed.

Lemma translate_words_under d ws p :
  under d p ->
  (forall w, In w ws ->
             String.eqb w EmptyString = false /\ has_char "/" w = false) ->
  under d (fold_left SimpleHTTPRequestHandler.translate_word ws p).
Proof.
  revert p. induction ws as [|w ws IH]; simpl; intros p Hp Hws; [exact Hp|].
  apply IH; [ | intros w' Hw'; apply Hws; right; exact Hw'].
  destruct (Hws w (or_introl eq_refl)) as [Hne Hs].
  destruct (translate_word_cases p w Hne Hs) as [-> | [Hpl ->]].
  - exact Hp.
  - apply under_child; assumption.
Qed.

(** Whatever the request path, [translate_path] yields the root followed
    by plain names. *)
Lemma translate_path_under rt d path :
  under d (SimpleHTTPRequestHandler.translate_path rt d path).
Proof.
  unfold SimpleHTTPRequestHandler.translate_path.
  match goal with
  | |- under d (if ?b then ?x +++ _ else _) =>
      assert (Hx : under d x); [ | destruct b; [apply under_slash|]; exact Hx ]
  end.
  apply translate_words_under; [apply under_root|].
  intros w Hw. apply filter_In in Hw. destruct Hw as [Hw Hne].
  split.
  - apply negb_true_iff. exact Hne.
  - eapply split_no_sep. exact Hw.
Qed.

Lemma endswith_slash p :
  Py.endswith p "/" = true -> exists p0, p = p0 +++ "/".
Proof.
  unfold Py.endswith. induction p as [|c p IH]; [discriminate|].
  destruct p as [|c' p].
  - simpl. destruct (Ascii.eqb_spec c "/") as [->|]; [|discriminate].
    intros _. exists EmptyString. reflexivity.
  - intros H. destruct IH as [p0 Hp0].
    + simpl in H |- *. rewrite Nat.sub_0_r in *. exact H.
    + exists (String c p0). simpl. rewrite <- Hp0. reflexivity.
Qed.

Lemma append_assoc a b c : (a +++ b) +++ c = a +++ (b +++ c).
Proof.
  induction a as [|x a IH]; simpl; [reflexivity|].
  rewrite IH; reflexivity.
Qed.

Lemma components_slash p : components (p +++ "/") = components p.
Proof.
  unfold components. rewrite split_app_sep, filter_app. simpl.
  apply app_nil_r.
Qed.

Lemma plain_facts w :
  plain w = true ->
  String.eqb w EmptyString = false /\ has_char "/" w = false
  /\ String.eqb w ".." = false.
Proof.
  unfold plain. intros H.
  repeat (apply andb_true_iff in H; destruct H as [H ?]).
  repeat split; apply negb_true_iff; assumption.
Qed.

Lemma startswith_no_sep w :
  has_char "/" w = false -> Py.startswith w "/" = false.
Proof.
  destruct w as [|c w]; [reflexivity|]. intros H.
  simpl in H. apply orb_false_iff in H. destruct H as [Hc _].
  unfold Py.startswith. cbn [String.prefix].
  destruct (ascii_dec "/" c) as [<-|]; [|reflexivity].
  rewrite Ascii.eqb_refl in Hc. discriminate.
Qed.

Lemma components_join p w :
  plain w = true -> components (Posixpath.join p w) = components p ++ [w].
Proof.
  intros Hpl. destruct (plain_facts w Hpl) as (Hne & Hs & _).
  assert (Hw : components w = [w]).
  { unfold components. rewrite (split_plain _ _ Hs). simpl. rewrite Hne.
    reflexivity. }
  unfold Posixpath.join.
  assert (Hpre : Py.startswith w "/" = false).
  { apply startswith_no_sep. exact Hs. }
  rewrite Hpre.
  destruct (String.eqb_spec p EmptyString) as [->|Hp]; simpl.
  - exact Hw.
  - destruct (Py.endswith p "/") eqn:He.
    + destruct (endswith_slash p He) as [p0 ->].
      rewrite append_assoc. simpl. rewrite components_slash.
      unfold components. rewrite split_app_sep, filter_app.
      fold (components w). rewrite Hw. reflexivity.
    + unfold components. simpl. rewrite split_app_sep, filter_app.
      fold (components w). rewrite Hw. reflexivity.
Qed.

(** A path under the root has the components of the root, then plain
    names: the walk goes through the root and never up. *)
Lemma under_components d p :
  under d p ->
  exists words,
    Forall (fun w => plain w = true) words
    /\ components p = components d ++ words.
Proof.
  induction 1 as [|p w _ (words & Hall & Hc) Hpl|p _ (words & Hall & Hc)].
  - exists []. split; [constructor | symmetry; apply app_nil_r].
  - exists (words ++ [w]). split.
    + apply Forall_app. split; [exact Hall|].
      constructor; [exact Hpl|constructor].
    + rewrite components_join by exact Hpl. rewrite Hc, app_assoc. reflexivity.
  - exists words. split; [exact Hall|]. rewrite components_slash. exact Hc.
Qed.

Lemma In_sort_insert x y l :
  In y (SimpleHTTPRequestHandler.sort_insert x l) -> y = x \/ In y l.
Proof.
  induction l as [|z l IH]; simpl.
  - intros [<-|[]]; left; reflexivity.
  - destruct (String.ltb (Py.lower x) (Py.lower z)); simpl.
    + intros [<-|[<-|H]]; auto.
    + intros [<-|H]; auto. destruct (IH H); auto.
Qed.

Lemma In_sort_by_lower y l :
  In y (SimpleHTTPRequestHandler.sort_by_lower l) -> In y l.
Proof.
  unfold SimpleHTTPRequestHandler.sort_by_lower.
  assert (G : forall acc, In y (fold_left (fun acc x =>
              SimpleHTTPRequestHandler.sort_insert x acc) l acc)
              -> In y l \/ In y acc).
  { induction l as [|x l IH]; simpl; intros acc H; [right; exact H|].
    destruct (IH _ H) as [H1|H1]; [left; right; exact H1|].
    destruct (In_sort_insert _ _ _ H1) as [->|H2]; auto. }
  intros H. destruct (G [] H) as [H1|[]]. exact H1.
Qed.

Section Calls.

Variable rt : runtime.
Variable fs : filesystem.
Variable d : string.

Lemma calls_obs h h' :
  same_obs h h' -> calls_under fs d h -> calls_under fs d h'.
Proof.
  intros (Hd & _ & Hc) [H1 H2]. split; [rewrite Hd | rewrite Hc]; assumption.
Qed.

Lemma calls_body h b :
  calls_under fs d h -> calls_under fs d (set_wfile (wfile h ++ [WBody b]) h).
Proof. intros H; exact H. Qed.

Lemma calls_end_headers :
  pres (calls_under fs d) MyHTTPRequestHandler.end_headers.
Proof.
  intros h H. destruct (version_cases h) as [Hv|Hv].
  - rewrite end_headers_full by exact Hv. exact H.
  - rewrite end_headers_simple by exact Hv. exact H.
Qed.

Lemma calls_record c : call_ok fs d c -> pres (calls_under fs d) (fs_record c).
Proof.
  intros Hc. apply pres_modify. intros h [H1 H2]. split; [exact H1|].
  cbn [fs_calls set_fs_calls]. apply Forall_app. split; [exact H2|].
  constructor; [exact Hc | constructor].
Qed.

Ltac calls_base :=
  first [ apply pres_send_error;
          [ exact calls_obs | exact calls_body | exact calls_end_headers ]
        | apply pres_send_response; exact calls_obs
        | apply pres_send_header; exact calls_obs
        | exact calls_end_headers ].

Lemma calls_list_item path names name :
  under d path -> fs_listdir fs path = Some names -> In name names ->
  pres (calls_under fs d) (SimpleHTTPRequestHandler.list_item rt fs path name).
Proof.
  intros Hp Hl Hn. unfold SimpleHTTPRequestHandler.list_item.
  assert (He : entry_of fs d (Posixpath.join path name))
    by (exists path, names, name; auto).
  pres_split; apply calls_record; right; exact He.
Qed.

Lemma calls_list_items path names l :
  under d path -> fs_listdir fs path = Some names ->
  (forall name, In name l -> In name names) ->
  pres (calls_under fs d) (SimpleHTTPRequestHandler.list_items rt fs path l).
Proof.
  intros Hp Hl. induction l as [|name l IH]; simpl; intros Hin.
  - apply pres_ret.
  - apply pres_bind; [ | intros item; apply pres_bind;
                         [ | intros items; apply pres_ret ] ].
    + eapply calls_list_item; eauto; apply Hin; left; reflexivity.
    + apply IH. intros n Hn. apply Hin. right; exact Hn.
Qed.

Lemma calls_list_directory path :
  under d path ->
  pres (calls_under fs d) (SimpleHTTPRequestHandler.list_directory
                      rt fs MyHTTPRequestHandler.end_headers path).
Proof.
  intros Hp. unfold SimpleHTTPRequestHandler.list_directory.
  apply pres_bind; [apply calls_record; exact Hp | intros _].
  destruct (fs_listdir fs path) as [names|] eqn:Hl.
  - apply pres_bind; [apply pres_get | intros h].
    apply pres_bind.
    + eapply calls_list_items; eauto. intros n. apply In_sort_by_lower.
    + intros items. pres_split; calls_base.
  - pres_split; calls_base.
Qed.

Lemma calls_send_head_file path :
  under d path ->
  pres (calls_under fs d) (SimpleHTTPRequestHandler.send_head_file
                      rt fs MyHTTPRequestHandler.end_headers path).
Proof.
  intros Hp. unfold SimpleHTTPRequestHandler.send_head_file.
  destruct (Py.endswith path "/").
  { pres_split; calls_base. }
  apply pres_bind;
    [apply calls_record; split; [exact Hp | reflexivity] | intros _].
  destruct (fs_open_rb fs path).
  - apply pres_bind; [apply calls_record; exact Hp | intros _].
    pres_split; calls_base.
  - pres_split; calls_base.
Qed.

Lemma calls_find_index path indexes :
  under d path -> Forall (fun w => plain w = true) indexes ->
  pres (calls_under fs d) (SimpleHTTPRequestHandler.find_index fs path indexes).
Proof.
  intros Hp. induction 1 as [|index indexes Hpl _ IH]; simpl.
  - apply pres_ret.
  - apply pres_bind.
    + apply calls_record. left. apply under_child; assumption.
    + intros _. destruct (fs_isfile fs _); [apply pres_ret | exact IH].
Qed.

Lemma eval_find_index path indexes h index :
  under d path -> Forall (fun w => plain w = true) indexes ->
  eval (SimpleHTTPRequestHandler.find_index fs path indexes) h = Some index ->
  under d index.
Proof.
  intros Hp Hall. revert h.
  induction Hall as [|i indexes Hpl _ IH]; simpl; intros h.
  - discriminate.
  - rewrite eval_bind.
    destruct (fs_isfile fs (Posixpath.join path i)).
    + intros [= <-]. apply under_child; assumption.
    + apply IH.
Qed.

Lemma calls_send_head :
  pres (calls_under fs d) (SimpleHTTPRequestHandler.send_head
                      rt fs MyHTTPRequestHandler.end_headers).
Proof.
  intros h H. unfold SimpleHTTPRequestHandler.send_head.
  rewrite exec_bind. change (eval get h) with h. change (exec get h) with h.
  cbv beta.
  match goal with
  | |- calls_under fs d (exec ?K h) =>
      assert (HK : pres (calls_under fs d) K); [ | exact (HK h H) ]
  end.
  destruct H as [Hd _]. rewrite Hd.
  pose proof (translate_path_under rt d (self_path h)) as Hp.
  assert (Hidx : Forall (fun w => plain w = true) ["index.html"; "index.htm"])
    by (repeat constructor).
  apply pres_bind; [apply calls_record; left; exact Hp | intros _].
  destruct (fs_isdir fs _); [ | apply calls_send_head_file; exact Hp].
  destruct (negb _); [pres_split; calls_base | ].
  intros h' H'. rewrite exec_bind.
  destruct (eval _ h') as [index|] eqn:Hi.
  - apply calls_send_head_file.
    + eapply eval_find_index; eassumption.
    + apply calls_find_index; assumption.
  - apply calls_list_directory; [exact Hp|].
    apply calls_find_index; assumption.
Qed.

Lemma calls_do_GET :
  pres (calls_under fs d) (MyHTTPRequestHandler.do_GET rt fs).
Proof.
  unfold MyHTTPRequestHandler.do_GET, SimpleHTTPRequestHandler.do_GET.
  apply pres_bind; [exact calls_send_head | intros [source|]].
  - apply pres_copyfile. exact calls_body.
  - apply pres_ret.
Qed.

Lemma calls_do_HEAD :
  pres (calls_under fs d) (MyHTTPRequestHandler.do_HEAD rt fs).
Proof.
  unfold MyHTTPRequestHandler.do_HEAD, SimpleHTTPRequestHandler.do_HEAD.
  apply pres_bind; [exact calls_send_head | intros f; apply pres_ret].
Qed.

Lemma calls_handle rfile :
  pres (calls_under fs d) (MyHTTPRequestHandler.handle rt fs rfile).
Proof.
  apply pres_handle.
  - exact calls_obs.
  - exact calls_body.
  - exact calls_end_headers.
  - exact calls_do_GET.
  - exact calls_do_HEAD.
Qed.

(** The handler on a file system [fs'] that agrees with [fs] under the
    root. *)

Variable fs' : filesystem.
Hypothesis Hagree : agree_under d fs fs'.

Lemma agree_list_item path name :
  SimpleHTTPRequestHandler.list_item rt fs' path name
  = SimpleHTTPRequestHandler.list_item rt fs path name.
Proof.
  destruct Hagree as (Hd & _ & Hl & _).
  unfold SimpleHTTPRequestHandler.list_item. rewrite Hd, Hl. reflexivity.
Qed.

Lemma agree_list_items path names :
  SimpleHTTPRequestHandler.list_items rt fs' path names
  = SimpleHTTPRequestHandler.list_items rt fs path names.
Proof.
  induction names as [|name names IH]; simpl; [reflexivity|].
  rewrite agree_list_item, IH. reflexivity.
Qed.

Lemma agree_list_directory path :
  under d path ->
  SimpleHTTPRequestHandler.list_directory
    rt fs' MyHTTPRequestHandler.end_headers path
  = SimpleHTTPRequestHandler.list_directory
      rt fs MyHTTPRequestHandler.end_headers path.
Proof.
  intros Hp. destruct Hagree as (_ & _ & _ & Hc).
  destruct (Hc path Hp) as [_ Hl].
  unfold SimpleHTTPRequestHandler.list_directory. rewrite Hl.
  destruct (fs_listdir fs path); [|reflexivity].
  rewrite agree_list_items. reflexivity.
Qed.

Lemma agree_send_head_file path :
  under d path ->
  SimpleHTTPRequestHandler.send_head_file
    rt fs' MyHTTPRequestHandler.end_headers path
  = SimpleHTTPRequestHandler.send_head_file
      rt fs MyHTTPRequestHandler.end_headers path.
Proof.
  intros Hp. destruct Hagree as (_ & _ & _ & Hc).
  destruct (Hc path Hp) as [Ho _].
  unfold SimpleHTTPRequestHandler.send_head_file. rewrite Ho. reflexivity.
Qed.

Lemma agree_find_index path indexes :
  SimpleHTTPRequestHandler.find_index fs' path indexes
  = SimpleHTTPRequestHandler.find_index fs path indexes.
Proof.
  destruct Hagree as (_ & Hf & _).
  induction indexes as [|index indexes IH]; simpl; [reflexivity|].
  rewrite Hf, IH. reflexivity.
Qed.

Lemma agree_send_head h :
  directory h = d ->
  SimpleHTTPRequestHandler.send_head rt fs' MyHTTPRequestHandler.end_headers h
  = SimpleHTTPRequestHandler.send_head rt fs MyHTTPRequestHandler.end_headers h.
Proof.
  intros Hd. pose proof Hagree as (Hi & _).
  unfold SimpleHTTPRequestHandler.send_head.
  rewrite !bind_get. cbv beta zeta. rewrite Hd.
  pose proof (translate_path_under rt d (self_path h)) as Hp.
  assert (Hidx : Forall (fun w => plain w = true) ["index.html"; "index.htm"])
    by (repeat constructor).
  rewrite !bind_fs_record, Hi.
  destruct (fs_isdir fs _); [|apply equal_f, agree_send_head_file, Hp].
  destruct (negb _); [reflexivity|].
  rewrite agree_find_index. unfold bind.
  match goal with
  | |- context [SimpleHTTPRequestHandler.find_index fs ?p ?l ?s] =>
      destruct (SimpleHTTPRequestHandler.find_index fs p l s)
        as [[index|] h2] eqn:Hfi
  end.
  - rewrite agree_send_head_file; [reflexivity|].
    eapply eval_find_index; [exact Hp | exact Hidx |].
    unfold eval. rewrite Hfi. reflexivity.
  - rewrite (agree_list_directory _ Hp). reflexivity.
Qed.

Lemma agree_do_GET h :
  directory h = d ->
  MyHTTPRequestHandler.do_GET rt fs' h = MyHTTPRequestHandler.do_GET rt fs h.
Proof.
  intros Hd.
  unfold MyHTTPRequestHandler.do_GET, SimpleHTTPRequestHandler.do_GET, bind.
  rewrite (agree_send_head h Hd). reflexivity.
Qed.

Lemma agree_do_HEAD h :
  directory h = d ->
  MyHTTPRequestHandler.do_HEAD rt fs' h = MyHTTPRequestHandler.do_HEAD rt fs h.
Proof.
  intros Hd.
  unfold MyHTTPRequestHandler.do_HEAD, SimpleHTTPRequestHandler.do_HEAD, bind.
  rewrite (agree_send_head h Hd). reflexivity.
Qed.

Lemma calls_parse_request r :
  pres (calls_under fs d)
       (BaseHTTPRequestHandler.parse_request
          rt MyHTTPRequestHandler.server_version
          MyHTTPRequestHandler.end_headers r).
Proof.
  apply pres_parse_request;
    [exact calls_obs | exact calls_body | exact calls_end_headers].
Qed.

Lemma agree_handle_one_request r h :
  calls_under fs d h ->
  MyHTTPRequestHandler.handle_one_request rt fs' r h
  = MyHTTPRequestHandler.handle_one_request rt fs r h.
Proof.
  intros H.
  unfold MyHTTPRequestHandler.handle_one_request,
    BaseHTTPRequestHandler.handle_one_request.
  destruct (Py.len_gt _ _); [reflexivity|].
  destruct (String.eqb _ _); [reflexivity|].
  unfold bind at 1 3.
  pose proof (calls_parse_request r h H) as H1. unfold exec in H1.
  destruct (BaseHTTPRequestHandler.parse_request _ _ _ r h) as [ok h1].
  simpl in H1. destruct (negb ok); [reflexivity|].
  unfold bind, get. destruct H1 as [Hd _].
  unfold MyHTTPRequestHandler.getattr_do.
  destruct (String.eqb _ "GET"); [apply agree_do_GET; exact Hd|].
  destruct (String.eqb _ "HEAD"); [apply agree_do_HEAD; exact Hd|].
  reflexivity.
Qed.

Lemma calls_handle_one_request r :
  pres (calls_under fs d) (MyHTTPRequestHandler.handle_one_request rt fs r).
Proof.
  apply pres_handle_one_request;
    [ exact calls_obs | exact calls_body | exact calls_end_headers
    | exact calls_do_GET | exact calls_do_HEAD ].
Qed.

Lemma agree_handle_loop rfile h :
  calls_under fs d h ->
  BaseHTTPRequestHandler.handle_loop
    rt MyHTTPRequestHandler.server_version MyHTTPRequestHandler.end_headers
    (MyHTTPRequestHandler.getattr_do rt fs') rfile h
  = BaseHTTPRequestHandler.handle_loop
      rt MyHTTPRequestHandler.server_version MyHTTPRequestHandler.end_headers
      (MyHTTPRequestHandler.getattr_do rt fs) rfile h.
Proof.
  revert h. induction rfile as [|r rfile IH]; intros h H; [reflexivity|].
  cbn [BaseHTTPRequestHandler.handle_loop].
  pose proof (agree_handle_one_request r h H) as Hr.
  unfold MyHTTPRequestHandler.handle_one_request in Hr.
  unfold bind at 1 3. rewrite Hr. clear Hr.
  pose proof (calls_handle_one_request r h H) as H1.
  unfold exec, MyHTTPRequestHandler.handle_one_request in H1.
  destruct (BaseHTTPRequestHandler.handle_one_request _ _ _ _ r h) as [u h1].
  simpl in H1. rewrite !bind_get.
  destruct (close_connection h1); [reflexivity | apply IH; exact H1].
Qed.

Lemma agree_handle rfile h :
  calls_under fs d h ->
  MyHTTPRequestHandler.handle rt fs' rfile h
  = MyHTTPRequestHandler.handle rt fs rfile h.
Proof.
  intros H. unfold MyHTTPRequestHandler.handle, BaseHTTPRequestHandler.handle.
  unfold bind at 1 2. cbn [modify].
  apply agree_handle_loop. exact H.
Qed.

End Calls.

(** * The script: start and service *)

Lemma emit_emit evs1 evs2 w : emit evs2 (emit evs1 w) = emit (evs1 ++ evs2) w.
Proof. unfold emit, set_trace. simpl. rewrite app_assoc. reflexivity. Qed.

Lemma emit_nil w : emit [] w = w.
Proof.
  destruct w. unfold emit, set_trace. simpl. rewrite app_nil_r.
  reflexivity.
Qed.

Lemma call_ok_read_only fs d c : call_ok fs d c -> read_only c = true.
Proof. destruct c; simpl; try reflexivity. intros [_ ->]. reflexivity. Qed.

Lemma handler_calls_read_only rt fs d rfile :
  Forall (fun c => read_only c = true)
         (fs_calls (exec (MyHTTPRequestHandler.handle rt fs rfile)
                         (MyHTTPRequestHandler.init d))).
Proof.
  assert (H : calls_under fs d
                (exec (MyHTTPRequestHandler.handle rt fs rfile)
                      (MyHTTPRequestHandler.init d))).
  { apply calls_handle. split; [reflexivity | constructor]. }
  destruct H as [_ H]. eapply Forall_impl; [|exact H].
  intros c. apply call_ok_read_only.
Qed.

Lemma Forall_served_map {A : Type} (f : A -> event) (l : list A) :
  (forall a, In a l -> served_event (f a)) -> Forall served_event (map f l).
Proof.
  intros H. apply Forall_forall. intros ev Hev.
  apply in_map_iff in Hev. destruct Hev as (a & <- & Ha). apply H, Ha.
Qed.

(** One connection: it is accepted, handled and closed, and the world
    changes by its trace only. *)
Lemma handle_request_noblock_emits rt c w :
  exists evs,
    TCPServer.handle_request_noblock rt c w
    = Ok tt (emit (EvAccept c :: evs) w)
    /\ Forall served_event evs.
Proof.
  unfold TCPServer.handle_request_noblock, TCPServer.process_request,
    TCPServer.finish_request, TCPServer.shutdown_request, pbind, pemit.
  cbn [emit set_trace w_cwd w_fs].
  eexists. split.
  - rewrite !emit_emit. cbn [app]. reflexivity.
  - apply Forall_app. split; [|constructor; [exact Logic.I|constructor]].
    apply Forall_app. split; [|apply Forall_app; split].
    + apply Forall_served_map. intros a Ha.
      pose proof (handler_calls_read_only rt (w_fs w) (w_cwd w) (conn_rfile c))
        as Hro.
      rewrite Forall_forall in Hro. exact (Hro a Ha).
    + apply Forall_served_map. intros; exact Logic.I.
    + apply Forall_served_map. intros; exact Logic.I.
Qed.

(** [serve_forever] does not raise; it accepts every connection attempt
    that reaches the socket, in order. *)
Lemma serve_forever_emits rt self attempts w :
  exists evs,
    TCPServer.serve_forever rt self attempts w = Ok tt (emit evs w)
    /\ Forall served_event evs
    /\ (forall c, In c attempts ->
                  delivers (TCPServer.server_address self) c = true ->
                  In (EvAccept c) evs).
Proof.
  revert w. induction attempts as [|c attempts IH]; intros w.
  - exists []. simpl. unfold pret. rewrite emit_nil.
    split; [reflexivity | split; [constructor | intros c []]].
  - cbn [TCPServer.serve_forever]. unfold pbind.
    destruct (delivers (TCPServer.server_address self) c) eqn:Hd.
    + destruct (handle_request_noblock_emits rt c w) as (evs1 & -> & H1).
      destruct (IH (emit (EvAccept c :: evs1) w)) as (evs2 & -> & H2 & H3).
      exists ((EvAccept c :: evs1) ++ evs2). rewrite emit_emit.
      split; [reflexivity|]. split.
      * apply Forall_app. split; [|exact H2].
        constructor; [exact Logic.I|exact H1].
      * intros c' [<-|Hc'] Hdel; [left; reflexivity|].
        apply in_or_app. right. apply H3; assumption.
    + unfold pret at 1. destruct (IH w) as (evs2 & -> & H2 & H3).
      exists evs2. split; [reflexivity|]. split; [exact H2|].
      intros c' [<-|Hc'] Hdel; [congruence | apply H3; assumption].
Qed.

(** The three courses of the script. *)

Lemma run_chdir_fails rt attempts w e :
  Os.chdir_error Script.ROOT w = Some e ->
  Script.run rt attempts w
  = (Script.Exited 1, emit [EvChdir Script.ROOT; EvTraceback e] w).
Proof.
  intros H.
  cbv beta iota delta [Script.run Script.main pbind Os.chdir pemit].
  change (Os.chdir_error Script.ROOT (emit [EvChdir Script.ROOT] w))
    with (Os.chdir_error Script.ROOT w).
  rewrite H. rewrite emit_emit. reflexivity.
Qed.

Lemma run_bind_fails rt attempts w e :
  Os.chdir_error Script.ROOT w = None ->
  Os.bind_error (EmptyString, Script.PORT) w = Some e ->
  Script.run rt attempts w
  = (Script.Exited 1, emit (bind_failure_events e) (in_root w)).
Proof.
  intros Hc Hb.
  cbv beta iota delta
      [Script.run Script.main pbind Os.chdir pemit TCPServer.init
       try_reraise TCPServer.server_bind TCPServer.server_activate
       TCPServer.server_close Os.socket Os.bind Os.listen Os.close pret].
  change (Os.chdir_error Script.ROOT (emit [EvChdir Script.ROOT] w))
    with (Os.chdir_error Script.ROOT w).
  rewrite Hc. cbn [TCPServer.server_address fst snd].
  match goal with
  | |- context [Os.bind_error ?a ?w1] =>
      change (Os.bind_error a w1) with (Os.bind_error a w)
  end.
  rewrite Hb. f_equal.
  destruct w. unfold emit, set_trace, in_root, set_cwd, bind_failure_events.
  cbn. rewrite <- !app_assoc. reflexivity.
Qed.

Lemma run_serves rt attempts w :
  Os.chdir_error Script.ROOT w = None ->
  Os.bind_error (EmptyString, Script.PORT) w = None ->
  exists served,
    Script.run rt attempts w
    = (Script.Serving, emit (startup_events ++ served) (listening w))
    /\ Forall served_event served
    /\ (forall c, In c attempts ->
                  delivers (EmptyString, Script.PORT) c = true ->
                  In (EvAccept c) served).
Proof.
  intros Hc Hb.
  cbv beta iota delta
      [Script.run Script.main Script.with_body pbind Os.chdir pemit
       TCPServer.init try_reraise TCPServer.server_bind
       TCPServer.server_activate TCPServer.server_close Os.socket Os.bind
       Os.listen Os.close Os.print pret].
  change (Os.chdir_error Script.ROOT (emit [EvChdir Script.ROOT] w))
    with (Os.chdir_error Script.ROOT w).
  rewrite Hc. cbn [TCPServer.server_address fst snd].
  match goal with
  | |- context [Os.bind_error ?a ?w1] =>
      change (Os.bind_error a w1) with (Os.bind_error a w)
  end.
  rewrite Hb.
  match goal with
  | |- context [TCPServer.serve_forever rt ?self attempts ?w1] =>
      destruct (serve_forever_emits rt self attempts w1)
        as (served & -> & Hs & Ha)
  end.
  exists served. split; [|split; [exact Hs | exact Ha]].
  f_equal. destruct w; unfold emit, set_trace, listening, in_root, set_bound,
    set_cwd, startup_events; cbn. rewrite <- !app_assoc. reflexivity.
Qed.

(** * Running the methods on a given handler *)

Lemma take_drop n s : Shutil.take n s +++ Shutil.drop n s = s.
Proof.
  revert s. induction n as [|n IH]; intros [|c s]; simpl; try reflexivity.
  rewrite IH. reflexivity.
Qed.

Lemma take_empty n s :
  0 < n -> Shutil.take n s = EmptyString -> s = EmptyString.
Proof. destruct n; [lia|]. destruct s; [reflexivity | discriminate]. Qed.

Lemma drop_length n s :
  String.length (Shutil.drop n s) = String.length s - n.
Proof.
  revert s. induction n as [|n IH]; intros [|c s]; simpl; try reflexivity.
  apply IH.
Qed.

(** With enough fuel the buffers that [copyfileobj] writes make up the
    source. *)
Lemma copy_loop_concat fuel n s :
  0 < n -> String.length s < fuel ->
  Py.join0 (Shutil.copy_loop fuel n s) = s.
Proof.
  intros Hn. revert s. induction fuel as [|fuel IH]; intros s Hf; [lia|].
  cbn [Shutil.copy_loop].
  destruct (String.eqb_spec (Shutil.take n s) EmptyString) as [He|Hne].
  - rewrite (take_empty n s Hn He). reflexivity.
  - unfold Py.join0 in *. cbn [String.concat].
    assert (Hs : s <> EmptyString).
    { intros ->. apply Hne. destruct n; reflexivity. }
    assert (Hl : String.length (Shutil.drop n s) < fuel).
    { rewrite drop_length. destruct s; [congruence|].
      cbn [String.length] in Hf |- *. lia. }
    specialize (IH _ Hl).
    destruct (Shutil.copy_loop fuel n (Shutil.drop n s)) as [|b bs] eqn:Hc.
    + simpl in IH. rewrite <- (take_drop n s) at 2. rewrite <- IH.
      clear. induction (Shutil.take n s); simpl; congruence.
    + rewrite IH. apply take_drop.
Qed.

Lemma copyfileobj_concat s : Py.join0 (Shutil.copyfileobj s) = s.
Proof.
  apply copy_loop_concat; [ | lia].
  unfold Shutil.COPY_BUFSIZE. apply Nat.mul_pos_pos; lia.
Qed.

Lemma copy_buffers_eq bufs h :
  fold_right (fun buf k => bind (wfile_write (WBody buf)) (fun _ => k))
             (ret tt) bufs h
  = (tt, set_wfile (wfile h ++ map WBody bufs) h).
Proof.
  revert h. induction bufs as [|buf bufs IH]; intros h; cbn [fold_right map].
  - destruct h. unfold ret, set_wfile. cbn. rewrite app_nil_r. reflexivity.
  - unfold bind at 1. cbn [wfile_write modify]. rewrite IH.
    destruct h. unfold set_wfile. cbn. rewrite <- app_assoc. reflexivity.
Qed.

Lemma copyfile_eq source h :
  SimpleHTTPRequestHandler.copyfile source h
  = (tt, set_wfile (wfile h ++ body_writes source) h).
Proof. apply copy_buffers_eq. Qed.

Lemma list_item_eq rt fs dir name h :
  SimpleHTTPRequestHandler.list_item rt fs dir name h
  = (list_item_html rt fs dir name,
     set_fs_calls (fs_calls h ++ list_item_calls dir name) h).
Proof.
  unfold SimpleHTTPRequestHandler.list_item, list_item_html, list_item_calls.
  destruct h. cbv beta iota zeta delta [bind fs_record modify ret set_fs_calls
    fs_calls directory command path request_version requestline headers
    close_connection headers_buffer wfile stderr_log].
  rewrite <- app_assoc. reflexivity.
Qed.

Lemma list_items_eq rt fs path names h :
  SimpleHTTPRequestHandler.list_items rt fs path names h
  = (map (list_item_html rt fs path) names,
     set_fs_calls (fs_calls h ++ flat_map (list_item_calls path) names) h).
Proof.
  revert h. induction names as [|name names IH]; intros h.
  - destruct h. cbn. rewrite app_nil_r. reflexivity.
  - cbn [SimpleHTTPRequestHandler.list_items map flat_map].
    unfold bind at 1. rewrite list_item_eq.
    unfold bind at 1. rewrite IH. destruct h. unfold ret, set_fs_calls. cbn.
    rewrite <- !app_assoc. reflexivity.
Qed.

Lemma endswith_cons c s :
  s <> EmptyString -> Py.endswith (String c s) "/" = Py.endswith s "/".
Proof.
  destruct s as [|c' s]; [congruence|]. intros _.
  unfold Py.endswith. simpl. rewrite Nat.sub_0_r. reflexivity.
Qed.

Lemma endswith_app x w :
  w <> EmptyString -> Py.endswith (x +++ w) "/" = Py.endswith w "/".
Proof.
  intros Hw. induction x as [|c x IH]; [reflexivity|].
  simpl. rewrite endswith_cons; [exact IH|].
  destruct x; simpl; [exact Hw | discriminate].
Qed.

(** A joined name ends as the name does. *)
Lemma endswith_join d w :
  w <> EmptyString -> Py.startswith w "/" = false ->
  Py.endswith (Posixpath.join d w) "/" = Py.endswith w "/".
Proof.
  intros Hw Hs. unfold Posixpath.join. rewrite Hs.
  destruct (_ || _).
  - apply endswith_app, Hw.
  - rewrite (endswith_app d ("/" +++ w)) by discriminate.
    apply endswith_cons, Hw.
Qed.

Lemma translate_path_live_test rt d :
  SimpleHTTPRequestHandler.translate_path rt d "/live-test.html"
  = Posixpath.join d "live-test.html".
Proof. cbv -[Posixpath.join]. reflexivity. Qed.

Lemma translate_path_assets rt d :
  SimpleHTTPRequestHandler.translate_path rt d "/assets/"
  = Posixpath.join d "assets" +++ "/".
Proof. cbv -[Posixpath.join String.append]. reflexivity. Qed.

(** Evaluates the tests of [send_header] on the keyword and the value. *)
Ltac eval_connection :=
  repeat match goal with
    | |- context [String.eqb (Py.lower ?k) "connection"] =>
        let b := eval vm_compute in (String.eqb (Py.lower k) "connection") in
        change (String.eqb (Py.lower k) "connection") with b;
        cbv beta iota
    end;
  repeat match goal with
    | |- context [String.eqb (Py.lower "close") ?c] =>
        let b := eval vm_compute in (String.eqb (Py.lower "close") c) in
        change (String.eqb (Py.lower "close") c) with b;
        cbv beta iota
    end.

(** Unfolds the methods of the handler on a handler given by its
    fields. *)
Ltac run_methods :=
  cbv beta iota zeta delta
      [exec eval bind ret get modify fst snd
       wfile_write fs_record
       MyHTTPRequestHandler.do_GET MyHTTPRequestHandler.do_HEAD
       MyHTTPRequestHandler.send_error MyHTTPRequestHandler.end_headers
       MyHTTPRequestHandler.server_version
       SimpleHTTPRequestHandler.do_GET SimpleHTTPRequestHandler.do_HEAD
       SimpleHTTPRequestHandler.send_head
       SimpleHTTPRequestHandler.send_head_file
       SimpleHTTPRequestHandler.list_directory
       SimpleHTTPRequestHandler.find_index
       BaseHTTPRequestHandler.send_error BaseHTTPRequestHandler.send_response
       BaseHTTPRequestHandler.send_response_only
       BaseHTTPRequestHandler.send_header BaseHTTPRequestHandler.end_headers
       BaseHTTPRequestHandler.flush_headers
       BaseHTTPRequestHandler.headers_buffer_append
       BaseHTTPRequestHandler.log_request BaseHTTPRequestHandler.log_error
       BaseHTTPRequestHandler.version_string
       BaseHTTPRequestHandler.responses
       BaseHTTPRequestHandler.error_content_type
       Z.leb Z.eqb Z.compare Pos.compare Pos.compare_cont Pos.eqb
       set_command set_path set_request_version set_requestline set_headers
       set_close_connection set_headers_buffer set_wfile set_stderr_log
       set_fs_calls
       directory command path self_path request_version requestline headers
       close_connection headers_buffer wfile stderr_log fs_calls].

(** [send_error] with a message, when the request carried a version, for
    the code 404: the header block, then the page unless the command is
    HEAD. *)
Lemma send_error_404_full rt message h :
  full_request h ->
  let body := error_page rt 404 message "Nothing matches the given URI" in
  wfile (exec (MyHTTPRequestHandler.send_error rt 404 (Some message) None) h)
  = wfile h
    ++ [WHeaders
          (headers_buffer h ++ response_head rt 404 message
             ++ [header_line "Connection" "close";
                 header_line "Content-Type" "text/html;charset=utf-8";
                 header_line "Content-Length"
                             (Py.str_of_nat (String.length body));
                 COEP_line; COOP_line; Py.CRLF])]
    ++ (if negb (match command h with
                 | Some c => String.eqb c "HEAD"
                 | None => false
                 end) && negb (String.eqb body EmptyString)
        then [WBody body] else []).
Proof.
  intros Hv body. destruct h as [d c p v rl hs cc hb wf lg calls].
  unfold full_request in Hv. cbn [request_version] in Hv.
  assert (Hbody : encode_utf8 rt
                    (BaseHTTPRequestHandler.error_message_format
                       404 (Html.escape message)
                       (Html.escape "Nothing matches the given URI")) = body)
    by reflexivity.
  clearbody body. cbn [command wfile headers_buffer].
  unfold response_head, header_line, status_line.
  destruct (match c with Some c0 => String.eqb c0 "HEAD" | None => false end)
    eqn:Hc;
    destruct (String.eqb body EmptyString) eqn:Hb;
    repeat (progress (run_methods; eval_connection;
                      rewrite ?Hv, ?Hbody, ?Hc, ?Hb; cbn [negb andb orb]));
    rewrite <- ?app_assoc; reflexivity.
Qed.

Lemma wire_body_writes body : wire (body_writes body) = body.
Proof.
  unfold wire, body_writes. rewrite map_map. cbn [bytes_of_write].
  rewrite map_id. apply copyfileobj_concat.
Qed.

(** * From the request line to the method

    [handle_one_request] on a request line that [parse_request] accepts
    with the command GET runs [do_GET] on the handler that
    [parse_request] leaves. *)

Lemma handle_one_request_GET rt fs r h :
  Py.len_gt (raw_requestline r) 65536 = false ->
  String.eqb (raw_requestline r) EmptyString = false ->
  eval (BaseHTTPRequestHandler.parse_request
          rt MyHTTPRequestHandler.server_version
          MyHTTPRequestHandler.end_headers r) h = true ->
  command (exec (BaseHTTPRequestHandler.parse_request
                   rt MyHTTPRequestHandler.server_version
                   MyHTTPRequestHandler.end_headers r) h) = Some "GET" ->
  exec (MyHTTPRequestHandler.handle_one_request rt fs r) h
  = exec (MyHTTPRequestHandler.do_GET rt fs)
         (exec (BaseHTTPRequestHandler.parse_request
                  rt MyHTTPRequestHandler.server_version
                  MyHTTPRequestHandler.end_headers r) h).
Proof.
  intros Hlen Hne Hok Hcmd.
  unfold MyHTTPRequestHandler.handle_one_request,
    BaseHTTPRequestHandler.handle_one_request.
  rewrite Hlen, Hne. rewrite exec_bind, Hok. cbn [negb].
  rewrite exec_bind. change (eval get ?x) with x. change (exec get ?x) with x.
  cbv beta zeta. rewrite Hcmd. reflexivity.
Qed.

Example respond_is_do_GET_on_dispatched :
  Example_env.respond (Example_env.request "GET /live-test.html HTTP/1.1")
  = exec (MyHTTPRequestHandler.do_GET Example_env.rt0 Example_env.fs0)
         (Example_env.dispatched
            (Example_env.request "GET /live-test.html HTTP/1.1"))
  /\ full_request (Example_env.dispatched
                     (Example_env.request "GET /live-test.html HTTP/1.1"))
  /\ simple_request (Example_env.dispatched
                       (Example_env.request "GET /live-test.html")).
Proof.
  split; [apply handle_one_request_GET; reflexivity|].
  split; reflexivity.
Qed.

(** * Claim C4: a path that resolves to nothing *)


(** * Claim C3: [GET /live-test.html] *)


(** * Claim C7: the listing of a directory *)

Lemma append_empty_r s : s +++ EmptyString = s.
Proof.
  induction s as [|c s IH]; simpl; [reflexivity|].
  rewrite IH; reflexivity.
Qed.

Lemma occurs_refl s : occurs s s.
Proof.
  exists EmptyString, EmptyString. simpl. rewrite append_empty_r.
  reflexivity.
Qed.

Lemma occurs_trans a b c : occurs a b -> occurs b c -> occurs a c.
Proof.
  intros (x1 & y1 & ->) (x2 & y2 & ->).
  exists (x2 +++ x1), (y1 +++ y2). rewrite !append_assoc. reflexivity.
Qed.

Lemma occurs_app_l a s x : occurs a s -> occurs a (s +++ x).
Proof.
  intros H. eapply occurs_trans; [exact H|].
  exists EmptyString, x. reflexivity.
Qed.

Lemma occurs_app_r a s x : occurs a s -> occurs a (x +++ s).
Proof.
  intros H. eapply occurs_trans; [exact H|].
  exists x, EmptyString. rewrite append_empty_r. reflexivity.
Qed.

Lemma occurs_join x sep l : In x l -> occurs x (Py.join sep l).
Proof.
  unfold Py.join. induction l as [|y l IH]; [intros []|].
  intros [->|Hin].
  - destruct l as [|z l]; simpl; [apply occurs_refl|].
    apply occurs_app_l, occurs_refl.
  - destruct l as [|z l]; [destruct Hin|].
    cbn [String.concat]. apply occurs_app_r, occurs_app_r, IH, Hin.
Qed.

Lemma escape_app a b : Html.escape (a +++ b) = Html.escape a +++ Html.escape b.
Proof.
  induction a as [|c a IH]; simpl; [reflexivity|].
  rewrite IH, append_assoc. reflexivity.
Qed.

(** The item of an entry shows its name, escaped. *)
Lemma occurs_list_item rt fs dir name :
  occurs (Html.escape name) (list_item_html rt fs dir name).
Proof.
  unfold list_item_html. cbv zeta.
  apply occurs_app_r, occurs_app_r, occurs_app_r, occurs_app_r,
    occurs_app_r, occurs_app_l.
  destruct (fs_islink fs _); [|destruct (fs_isdir fs _)];
    rewrite ?escape_app; try apply occurs_app_l; apply occurs_refl.
Qed.

Lemma In_sort_insert_intro x y l :
  y = x \/ In y l -> In y (SimpleHTTPRequestHandler.sort_insert x l).
Proof.
  induction l as [|z l IH]; simpl.
  - intros [->|[]]; left; reflexivity.
  - destruct (String.ltb (Py.lower x) (Py.lower z)); simpl.
    + intros [->|[->|H]]; auto.
    + intros [->|[->|H]]; auto.
Qed.

Lemma In_sort_by_lower_intro y l :
  In y l -> In y (SimpleHTTPRequestHandler.sort_by_lower l).
Proof.
  unfold SimpleHTTPRequestHandler.sort_by_lower.
  assert (G : forall acc, In y l \/ In y acc ->
              In y (fold_left (fun acc x =>
                      SimpleHTTPRequestHandler.sort_insert x acc) l acc)).
  { induction l as [|x l IH]; simpl; intros acc H.
    - destruct H as [[]|H]; exact H.
    - apply IH. destruct H as [[->|H]|H].
      + right. apply In_sort_insert_intro. left; reflexivity.
      + left; exact H.
      + right. apply In_sort_insert_intro. right; exact H. }
  intros H. apply G. left; exact H.
Qed.

(** The page lists every entry. *)
Lemma listing_shows_names rt fs displaypath dir names name :
  In name names ->
  occurs (Html.escape name) (listing_html rt fs displaypath dir names).
Proof.
  intros Hin. unfold listing_html. cbv zeta.
  eapply occurs_trans; [apply (occurs_list_item rt fs dir name)|].
  apply occurs_join. apply in_or_app. right. apply in_or_app. left.
  apply in_map, In_sort_by_lower_intro, Hin.
Qed.


(** * Claim C2, stated *)

Lemma prefix_refl d : String.prefix d d = true.
Proof.
  induction d as [|a d IH]; simpl; [reflexivity|].
  destruct (ascii_dec a a); [exact IH | congruence].
Qed.

Lemma prefix_app d p x :
  String.prefix d p = true -> String.prefix d (p +++ x) = true.
Proof.
  revert p. induction d as [|a d IH]; intros p H;
    [destruct (p +++ x); reflexivity|].
  destruct p as [|b p]; simpl in *; [discriminate|].
  destruct (ascii_dec a b); [apply IH; exact H | discriminate].
Qed.

(** A path under the root begins with the root. *)
Lemma under_prefix d p : under d p -> String.prefix d p = true.
Proof.
  induction 1 as [|p w _ IH Hpl|p _ IH].
  - apply prefix_refl.
  - destruct (plain_facts w Hpl) as (_ & Hs & _).
    unfold Posixpath.join. rewrite (startswith_no_sep w Hs).
    destruct (_ || _); apply prefix_app, IH.
  - apply prefix_app, IH.
Qed.


Lemma fs_outside_agrees :
  agree_under Example_env.root Example_env.fs0 Example_env.fs_outside.
Proof.
  repeat split; try reflexivity.
  unfold Example_env.fs_outside, Example_env.fs0. cbn [fs_open_rb].
  apply under_prefix in H.
  unfold Example_env.files_outside, Example_env.files, Example_env.lookup.
  repeat match goal with
         | |- context [String.eqb ?k p] =>
             destruct (String.eqb_spec k p) as [<-|]; [try reflexivity|]
         end; try reflexivity.
  vm_compute in H. discriminate.
Qed.


(** * Claim C1, witness and counterexample *)



(** * Claim C3, witness and counterexample *)



(** * Claim C4, witness and counterexample *)



(** * Claim C7, witness and counterexample *)



(** * Claims C5, C6, C8, C9 and C10: the course of the script *)

Lemma chdir_error_cases w :
  Os.chdir_error Script.ROOT w = None
  \/ exists e, Os.chdir_error Script.ROOT w = Some e.
Proof. destruct (Os.chdir_error Script.ROOT w); eauto. Qed.

Lemma bind_error_cases addr w :
  Os.bind_error addr w = None
  \/ Os.bind_error addr w = Some PermissionError
  \/ Os.bind_error addr w = Some AddressInUse.
Proof.
  unfold Os.bind_error. destruct (negb _); [auto|].
  destruct (existsb _ _); auto.
Qed.

(** The script reaches [serve_forever] exactly when [os.chdir] and [bind]
    raise nothing. *)
Lemma run_serving_inv rt attempts w w' :
  Script.run rt attempts w = (Script.Serving, w') ->
  Os.chdir_error Script.ROOT w = None
  /\ Os.bind_error (EmptyString, Script.PORT) w = None.
Proof.
  intros H. destruct (chdir_error_cases w) as [Hc|[e Hc]].
  - split; [exact Hc|].
    destruct (bind_error_cases (EmptyString, Script.PORT) w)
      as [Hb|[Hb|Hb]]; [exact Hb | | ];
      rewrite (run_bind_fails rt attempts w _ Hc Hb) in H; discriminate.
  - rewrite (run_chdir_fails rt attempts w e Hc) in H. discriminate.
Qed.



(** C6.  When [bind] raises, for the port in use or for want of the
    right to bind, nothing catches the exception: the process ends with
    exit status 1 and the traceback on the console, after one [bind], with
    nothing printed, no connection accepted and no address held. *)
Theorem bind_failure_is_fatal
        (rt : runtime) (attempts : list connection) (w : world)
        (e : exception) :
  Os.chdir_error Script.ROOT w = None ->
  Os.bind_error (EmptyString, Script.PORT) w = Some e ->
  Script.run rt attempts w
  = (Script.Exited 1, emit (bind_failure_events e) (in_root w))
  /\ (e = PermissionError \/ e = AddressInUse)
  /\ w_bound (snd (Script.run rt attempts w)) = w_bound w
  /\ forallb (fun ev => negb (is_accept ev || is_print ev))
             (bind_failure_events e) = true.
Proof.
  intros Hc Hb. rewrite (run_bind_fails rt attempts w e Hc Hb).
  split; [reflexivity|]. split; [|split; reflexivity].
  destruct (bind_error_cases (EmptyString, Script.PORT) w) as [H|[H|H]];
    rewrite H in Hb; [discriminate | | ]; injection Hb as <-; auto.
Qed.

Lemma bind_failure_is_fatal_witness :
  Script.run Example_env.rt0 [Example_env.conn_lan] Example_env.w_port_taken
  = (Script.Exited 1,
     emit (bind_failure_events AddressInUse)
          (in_root Example_env.w_port_taken))
  /\ (AddressInUse = PermissionError \/ AddressInUse = AddressInUse)
  /\ w_bound (snd (Script.run Example_env.rt0 [Example_env.conn_lan]
                              Example_env.w_port_taken))
     = w_bound Example_env.w_port_taken
  /\ forallb (fun ev => negb (is_accept ev || is_print ev))
             (bind_failure_events AddressInUse) = true.
Proof.
  apply (bind_failure_is_fatal
           Example_env.rt0 [Example_env.conn_lan] Example_env.w_port_taken
           AddressInUse); reflexivity.
Defined.

(** C8.  Whatever the course of the script and the connections served,
    the file system of the world is the one it started with, and every
    call into the file system that the trace gains leaves it as it is: a
    test, a listing, a file opened for reading. *)
Theorem serving_only_reads
        (rt : runtime) (attempts : list connection) (w : world) :
  w_fs (snd (Script.run rt attempts w)) = w_fs w
  /\ exists evs,
      w_trace (snd (Script.run rt attempts w)) = w_trace w ++ evs
      /\ forall c, In (EvFs c) evs -> read_only c = true.
Proof.
  destruct (chdir_error_cases w) as [Hc|[e Hc]].
  - destruct (bind_error_cases (EmptyString, Script.PORT) w)
      as [Hb|[Hb|Hb]].
    + destruct (run_serves rt attempts w Hc Hb) as (served & -> & Hs & _).
      split; [reflexivity|]. exists (startup_events ++ served).
      split; [reflexivity|]. intros c Hin.
      apply in_app_or in Hin. destruct Hin as [Hin|Hin].
      * unfold startup_events in Hin. simpl in Hin.
        repeat (destruct Hin as [Hin|Hin]; [discriminate|]). destruct Hin.
      * rewrite Forall_forall in Hs. exact (Hs _ Hin).
    + rewrite (run_bind_fails rt attempts w _ Hc Hb).
      split; [reflexivity|]. eexists. split; [reflexivity|].
      intros c Hin. simpl in Hin.
      repeat (destruct Hin as [Hin|Hin]; [discriminate|]). destruct Hin.
    + rewrite (run_bind_fails rt attempts w _ Hc Hb).
      split; [reflexivity|]. eexists. split; [reflexivity|].
      intros c Hin. simpl in Hin.
      repeat (destruct Hin as [Hin|Hin]; [discriminate|]). destruct Hin.
  - rewrite (run_chdir_fails rt attempts w e Hc).
    split; [reflexivity|]. eexists. split; [reflexivity|].
    intros c Hin. simpl in Hin.
    repeat (destruct Hin as [Hin|Hin]; [discriminate|]). destruct Hin.
Qed.

(** C9.  When the root of the script does not exist, [os.chdir] raises
    [FileNotFoundError] and nothing catches it: the process ends with exit
    status 1 and the traceback; the trace gains the call of [os.chdir] and
    the traceback only, so no socket is bound and no line is printed. *)
Theorem missing_root_is_fatal
        (rt : runtime) (attempts : list connection) (w : world) :
  fs_exists (w_fs w) Script.ROOT = false ->
  Script.run rt attempts w
  = (Script.Exited 1,
     emit [EvChdir Script.ROOT; EvTraceback FileNotFoundError] w)
  /\ w_bound (snd (Script.run rt attempts w)) = w_bound w
  /\ forallb (fun ev => negb (is_bind ev || is_print ev))
             [EvChdir Script.ROOT; EvTraceback FileNotFoundError] = true.
Proof.
  intros H.
  assert (Hc : Os.chdir_error Script.ROOT w = Some FileNotFoundError).
  { unfold Os.chdir_error. rewrite H. reflexivity. }
  rewrite (run_chdir_fails rt attempts w _ Hc).
  repeat split; reflexivity.
Qed.

Lemma missing_root_is_fatal_witness :
  Script.run Example_env.rt0 [Example_env.conn_lan] Example_env.w_no_root
  = (Script.Exited 1,
     emit [EvChdir Script.ROOT; EvTraceback FileNotFoundError]
          Example_env.w_no_root)
  /\ w_bound (snd (Script.run Example_env.rt0 [Example_env.conn_lan]
                              Example_env.w_no_root))
     = w_bound Example_env.w_no_root
  /\ forallb (fun ev => negb (is_bind ev || is_print ev))
             [EvChdir Script.ROOT; EvTraceback FileNotFoundError] = true.
Proof.
  apply (missing_root_is_fatal
           Example_env.rt0 [Example_env.conn_lan] Example_env.w_no_root).
  reflexivity.
Defined.



(** * Examples of the string operations *)

Example split_example :
  Py.split "/" "/a//b/" = [EmptyString; "a"; EmptyString; "b"; EmptyString].
Proof. reflexivity. Qed.

Example split_ws_example :
  Py.split_ws "GET  /x HTTP/1.0" = ["GET"; "/x"; "HTTP/1.0"]
  /\ Py.split_ws " a  b " = ["a"; "b"]
  /\ Py.split_ws "   " = []
  /\ Py.rstrip "/x/  " = "/x/".
Proof. repeat split; reflexivity. Qed.

Example normpath_example :
  Posixpath.normpath "/../../etc/./passwd" = "/etc/passwd"
  /\ Posixpath.normpath "a/b/../../../c" = "../c"
  /\ Posixpath.normpath "//x/" = "//x"
  /\ Posixpath.normpath "///x//y" = "/x/y".
Proof. repeat split; reflexivity. Qed.

Example dirname_example :
  Posixpath.dirname "a/b" = "a" /\ Posixpath.dirname "ab" = EmptyString
  /\ Posixpath.dirname "//x" = "//".
Proof. repeat split; reflexivity. Qed.

Example str_of_nat_example :
  Py.str_of_nat 0 = "0" /\ Py.str_of_nat 137 = "137"
  /\ Py.str_of_Z 8000 = "8000".
Proof. repeat split; reflexivity. Qed.

Example escape_example : Html.escape "a&b<c>" = "a&amp;b&lt;c&gt;".
Proof. reflexivity. Qed.

(** * The methods that answer *)

Lemma answers_refl h : answers h h.
Proof. repeat split; auto. Qed.

Lemma answers_trans h1 h2 h3 : answers h1 h2 -> answers h2 h3 -> answers h1 h3.
Proof.
  intros (A1 & A2 & A3 & A4 & A5 & A6 & A7) (B1 & B2 & B3 & B4 & B5 & B6 & B7).
  repeat split; try congruence. auto.
Qed.

Lemma answering_ret {A : Type} (a : A) : answering (ret a).
Proof. intros h. apply answers_refl. Qed.

Lemma answering_get : answering get.
Proof. intros h. apply answers_refl. Qed.

Lemma answering_bind {A B : Type} (m : M A) (k : A -> M B) :
  answering m -> (forall a, answering (k a)) -> answering (bind m k).
Proof.
  intros Hm Hk h. rewrite exec_bind.
  eapply answers_trans; [apply Hm | apply Hk].
Qed.

Lemma answering_modify (f : handler -> handler) :
  (forall h, answers h (f h)) -> answering (modify f).
Proof. intros Hf h. apply Hf. Qed.

Ltac answering_split :=
  repeat match goal with
    | |- answering (bind _ _) => apply answering_bind; [ | intro ]
    | |- answering (ret _) => apply answering_ret
    | |- answering get => apply answering_get
    | |- answering (if ?b then _ else _) => destruct b
    | |- answering (match ?x with _ => _ end) => destruct x
    | |- answering (let (_, _) := ?x in _) => destruct x
    end.

Ltac answering_setter :=
  apply answering_modify; intro; repeat split; auto.

Lemma answering_log_request code :
  answering (BaseHTTPRequestHandler.log_request code).
Proof. answering_setter. Qed.

Lemma answering_log_error code message :
  answering (BaseHTTPRequestHandler.log_error code message).
Proof. answering_setter. Qed.

Lemma answering_headers_buffer_append line :
  answering (BaseHTTPRequestHandler.headers_buffer_append line).
Proof. answering_setter. Qed.

Lemma answering_wfile_write w : answering (wfile_write w).
Proof. answering_setter. Qed.

Lemma answering_fs_record c : answering (fs_record c).
Proof. answering_setter. Qed.

Lemma answering_send_response_only code message :
  answering (BaseHTTPRequestHandler.send_response_only code message).
Proof.
  unfold BaseHTTPRequestHandler.send_response_only.
  answering_split; apply answering_headers_buffer_append.
Qed.

(** [send_header] keeps a connection that is to be closed so, unless the
    header is [Connection: keep-alive]. *)
Lemma answering_send_header keyword value :
  String.eqb (Py.lower keyword) "connection"
  && String.eqb (Py.lower value) "keep-alive" = false ->
  answering (BaseHTTPRequestHandler.send_header keyword value).
Proof.
  intros H. unfold BaseHTTPRequestHandler.send_header.
  apply answering_bind; [apply answering_get | intros h0].
  apply answering_bind.
  - answering_split; apply answering_headers_buffer_append.
  - intros _. destruct (String.eqb (Py.lower keyword) "connection").
    + destruct (String.eqb (Py.lower value) "close").
      * answering_setter.
      * destruct (String.eqb (Py.lower value) "keep-alive");
          [discriminate | apply answering_ret].
    + apply answering_ret.
Qed.

Ltac answering_header :=
  apply answering_send_header; reflexivity.

Lemma answering_send_response rt sv code message :
  answering (BaseHTTPRequestHandler.send_response rt sv code message).
Proof.
  unfold BaseHTTPRequestHandler.send_response.
  answering_split;
    first [ apply answering_log_request
          | apply answering_send_response_only
          | answering_header ].
Qed.

Lemma answering_flush_headers :
  answering BaseHTTPRequestHandler.flush_headers.
Proof.
  unfold BaseHTTPRequestHandler.flush_headers.
  answering_split; first [apply answering_wfile_write | answering_setter].
Qed.

Lemma answering_end_headers : answering MyHTTPRequestHandler.end_headers.
Proof.
  unfold MyHTTPRequestHandler.end_headers,
    BaseHTTPRequestHandler.end_headers.
  answering_split;
    first [ answering_header
          | apply answering_headers_buffer_append
          | apply answering_flush_headers ].
Qed.

Lemma answering_send_error rt code message explain :
  answering (MyHTTPRequestHandler.send_error rt code message explain).
Proof.
  unfold MyHTTPRequestHandler.send_error, BaseHTTPRequestHandler.send_error.
  answering_split;
    first [ apply answering_log_error
          | apply answering_send_response
          | answering_header
          | apply answering_end_headers
          | apply answering_wfile_write ].
Qed.

Lemma answering_copyfile source :
  answering (SimpleHTTPRequestHandler.copyfile source).
Proof.
  unfold SimpleHTTPRequestHandler.copyfile.
  induction (Shutil.copyfileobj source) as [|buf bufs IH]; simpl.
  - apply answering_ret.
  - apply answering_bind; [apply answering_wfile_write | intro; exact IH].
Qed.

Lemma answering_list_items rt fs dir names :
  answering (SimpleHTTPRequestHandler.list_items rt fs dir names).
Proof.
  induction names as [|name names IH]; simpl.
  - apply answering_ret.
  - unfold SimpleHTTPRequestHandler.list_item.
    answering_split; first [apply answering_fs_record | exact IH].
Qed.

Lemma answering_list_directory rt fs dir :
  answering (SimpleHTTPRequestHandler.list_directory
               rt fs MyHTTPRequestHandler.end_headers dir).
Proof.
  unfold SimpleHTTPRequestHandler.list_directory.
  answering_split;
    first [ apply answering_fs_record
          | apply answering_list_items
          | apply answering_send_response
          | answering_header
          | apply answering_end_headers
          | apply answering_send_error ].
Qed.

Lemma answering_send_head_file rt fs p :
  answering (SimpleHTTPRequestHandler.send_head_file
               rt fs MyHTTPRequestHandler.end_headers p).
Proof.
  unfold SimpleHTTPRequestHandler.send_head_file.
  answering_split;
    first [ apply answering_fs_record
          | apply answering_send_response
          | answering_header
          | apply answering_end_headers
          | apply answering_send_error ].
Qed.

Lemma answering_find_index fs dir indexes :
  answering (SimpleHTTPRequestHandler.find_index fs dir indexes).
Proof.
  induction indexes as [|index indexes IH]; simpl.
  - apply answering_ret.
  - answering_split; first [apply answering_fs_record | exact IH].
Qed.

Lemma answering_send_head rt fs :
  answering (SimpleHTTPRequestHandler.send_head
               rt fs MyHTTPRequestHandler.end_headers).
Proof.
  unfold SimpleHTTPRequestHandler.send_head.
  answering_split;
    first [ apply answering_fs_record
          | apply answering_send_response
          | answering_header
          | apply answering_end_headers
          | apply answering_find_index
          | apply answering_send_head_file
          | apply answering_list_directory ].
Qed.

Lemma answering_do_GET rt fs : answering (MyHTTPRequestHandler.do_GET rt fs).
Proof.
  unfold MyHTTPRequestHandler.do_GET, SimpleHTTPRequestHandler.do_GET.
  answering_split;
    first [apply answering_send_head | apply answering_copyfile].
Qed.

Lemma answering_do_HEAD rt fs :
  answering (MyHTTPRequestHandler.do_HEAD rt fs).
Proof.
  unfold MyHTTPRequestHandler.do_HEAD, SimpleHTTPRequestHandler.do_HEAD.
  answering_split; apply answering_send_head.
Qed.

(** * One request on a connection *)

Lemma answering_pres_closing {A : Type} (m : M A) :
  answering m -> pres closing m.
Proof. intros Hm h Hh. apply (Hm h). exact Hh. Qed.

Lemma send_header_connection_close h :
  closing (exec (BaseHTTPRequestHandler.send_header "Connection" "close") h).
Proof.
  unfold BaseHTTPRequestHandler.send_header. eval_connection.
  unfold closing, exec, bind, get, modify, ret,
    BaseHTTPRequestHandler.headers_buffer_append.
  destruct (negb _); reflexivity.
Qed.

(** Whatever the error, [send_error] leaves the connection to be
    closed. *)
Lemma send_error_closes rt code message explain h :
  closing (exec (MyHTTPRequestHandler.send_error rt code message explain) h).
Proof.
  unfold MyHTTPRequestHandler.send_error, BaseHTTPRequestHandler.send_error.
  destruct (match BaseHTTPRequestHandler.responses code with
            | Some p => p
            | None => ("???", "???")
            end) as [shortmsg longmsg].
  do 3 (rewrite exec_bind; cbv beta).
  match goal with
  | |- closing (exec ?K ?S) => assert (HK : answering K)
  end.
  { answering_split;
      first [ answering_header
            | apply answering_end_headers
            | apply answering_wfile_write ]. }
  apply (answering_pres_closing _ HK). apply send_header_connection_close.
Qed.

Lemma closing_setter (f : handler -> handler) :
  (forall h, close_connection (f h) = close_connection h) ->
  pres closing (modify f).
Proof. intros Hf. apply pres_modify. unfold closing. intros h. rewrite Hf. auto. Qed.

Lemma closing_handle_expect_100 :
  pres closing (BaseHTTPRequestHandler.handle_expect_100
                  MyHTTPRequestHandler.end_headers).
Proof.
  unfold BaseHTTPRequestHandler.handle_expect_100.
  pres_split; apply answering_pres_closing;
    first [apply answering_send_response_only | apply answering_end_headers].
Qed.

Lemma closing_parse_request_headers rt rh :
  pres closing (BaseHTTPRequestHandler.parse_request_headers
                  rt MyHTTPRequestHandler.server_version
                  MyHTTPRequestHandler.end_headers rh).
Proof.
  unfold BaseHTTPRequestHandler.parse_request_headers.
  change (Py.str_ge BaseHTTPRequestHandler.protocol_version "HTTP/1.1")
    with false.
  destruct rh as [hs|err|err].
  - apply pres_bind; [apply closing_setter; reflexivity | intros _].
    apply pres_bind.
    + rewrite andb_false_r.
      destruct (String.eqb _ "close");
        [apply pres_modify; intros; reflexivity | apply pres_ret].
    + intros _. pres_split. apply closing_handle_expect_100.
  - pres_split. intros h _.
    apply (send_error_closes rt 431 (Some "Line too long") (Some err)).
  - pres_split. intros h _.
    apply (send_error_closes rt 431 (Some "Too many headers") (Some err)).
Qed.

Lemma closing_parse_request_words rt requestline words rh :
  pres closing (BaseHTTPRequestHandler.parse_request_words
                  rt MyHTTPRequestHandler.server_version
                  MyHTTPRequestHandler.end_headers requestline words rh).
Proof.
  unfold BaseHTTPRequestHandler.parse_request_words.
  pres_split;
    first [ apply closing_parse_request_headers
          | apply closing_setter; reflexivity
          | apply pres_modify; intros; reflexivity
          | intros h _; apply send_error_closes ].
Qed.

(** [parse_request] leaves the connection to be closed: the protocol of
    the server is HTTP/1.0, so neither the version of the request nor a
    [Connection: keep-alive] header keeps it open. *)
Lemma parse_request_closes rt r h :
  closing (exec (BaseHTTPRequestHandler.parse_request
                   rt MyHTTPRequestHandler.server_version
                   MyHTTPRequestHandler.end_headers r) h).
Proof.
  unfold BaseHTTPRequestHandler.parse_request.
  change (Py.str_ge BaseHTTPRequestHandler.protocol_version "HTTP/1.1")
    with false.
  do 3 (rewrite exec_bind; cbv beta).
  match goal with
  | |- closing (exec ?K ?S) =>
      assert (HK : pres closing K); [ | apply HK; reflexivity ]
  end.
  apply pres_bind; [apply closing_setter; reflexivity | intros _].
  destruct (Py.split_ws _) as [|w ws]; [apply pres_ret|].
  destruct (3 <=? _).
  - destruct (BaseHTTPRequestHandler.parse_version rt _)
      as [[base_version_number version_number]|].
    + apply pres_bind.
      * rewrite andb_false_r. apply pres_ret.
      * intros _. destruct (BaseHTTPRequestHandler.tuple_ge _ _).
        -- pres_split. intros h0 _. apply send_error_closes.
        -- apply pres_bind; [apply closing_setter; reflexivity | intros _].
           apply closing_parse_request_words.
    + pres_split. intros h0 _. apply send_error_closes.
  - apply closing_parse_request_words.
Qed.

Lemma handle_one_request_closes rt fs r h :
  closing (exec (MyHTTPRequestHandler.handle_one_request rt fs r) h).
Proof.
  unfold MyHTTPRequestHandler.handle_one_request,
    BaseHTTPRequestHandler.handle_one_request.
  destruct (Py.len_gt _ _).
  { do 3 (rewrite exec_bind; cbv beta).
    apply (send_error_closes rt 414 None None). }
  destruct (String.eqb _ _); [reflexivity|].
  rewrite exec_bind.
  pose proof (parse_request_closes rt r h) as Hc.
  destruct (negb _); [exact Hc|].
  rewrite exec_bind. change (exec get ?x) with x. change (eval get ?x) with x.
  cbv beta zeta.
  unfold MyHTTPRequestHandler.getattr_do.
  destruct (String.eqb _ "GET");
    [apply (answering_pres_closing _ (answering_do_GET rt fs)); exact Hc|].
  destruct (String.eqb _ "HEAD");
    [apply (answering_pres_closing _ (answering_do_HEAD rt fs)); exact Hc|].
  apply (send_error_closes rt 501).
Qed.

(** X1.  A connection is served one request: after the first request,
    whatever it is and whatever the answer, the connection is to be
    closed, and the requests that follow on it are not read. *)
Theorem one_request_per_connection
        (rt : runtime) (fs : filesystem) (r : raw_request)
        (rest : list raw_request) (h : handler) :
  exec (MyHTTPRequestHandler.handle rt fs (r :: rest)) h
  = exec (MyHTTPRequestHandler.handle rt fs [r]) h
  /\ close_connection (exec (MyHTTPRequestHandler.handle rt fs (r :: rest)) h)
     = true.
Proof.
  assert (E : forall tail,
    exec (MyHTTPRequestHandler.handle rt fs (r :: tail)) h
    = exec (MyHTTPRequestHandler.handle_one_request rt fs r)
           (set_close_connection true h)).
  { intros tail.
    unfold MyHTTPRequestHandler.handle, BaseHTTPRequestHandler.handle.
    rewrite exec_bind. cbv beta. rewrite exec_modify.
    cbn [BaseHTTPRequestHandler.handle_loop].
    rewrite exec_bind. cbv beta.
    rewrite exec_bind. change (exec get ?x) with x. change (eval get ?x) with x.
    cbv beta.
    pose proof (handle_one_request_closes rt fs r (set_close_connection true h))
      as Hc.
    unfold closing, MyHTTPRequestHandler.handle_one_request in Hc.
    rewrite Hc. reflexivity. }
  split.
  - rewrite (E rest), (E []). reflexivity.
  - rewrite (E rest). apply handle_one_request_closes.
Qed.

(** * The string operations *)

Lemma has_char_app c a b :
  has_char c (a +++ b) = has_char c a || has_char c b.
Proof.
  induction a as [|x a IH]; simpl; [reflexivity|].
  rewrite IH, orb_assoc. reflexivity.
Qed.

(** X2.  [html.escape] leaves no [<] and no [>] in its result, whatever
    the text: a message or a name that the server shows in a page cannot
    open or close a tag. *)
Theorem escape_leaves_no_angle_bracket (s : string) :
  has_char "<" (Html.escape s) = false
  /\ has_char ">" (Html.escape s) = false.
Proof.
  induction s as [|c s [IH1 IH2]]; [split; reflexivity|].
  cbn [Html.escape]. rewrite !has_char_app, IH1, IH2, !orb_false_r.
  unfold Html.escape_char.
  destruct (Ascii.eqb_spec c "&"); [split; reflexivity|].
  destruct (Ascii.eqb_spec c "<"); [split; reflexivity|].
  destruct (Ascii.eqb_spec c ">"); [split; reflexivity|].
  cbn [has_char]. rewrite !orb_false_r.
  split; apply Ascii.eqb_neq; assumption.
Qed.

(** [html.escape] returns a text without [&], [<] and [>] as it
    is: such a name is shown in a listing letter for letter. *)
Theorem escape_keeps_plain_text (s : string) :
  forall_chars (fun c => negb (html_special c)) s = true ->
  Html.escape s = s.
Proof.
  induction s as [|c s IH]; [reflexivity|]. cbn [forall_chars Html.escape].
  intros H. apply andb_true_iff in H. destruct H as [Hc Hs].
  rewrite (IH Hs). unfold html_special in Hc. unfold Html.escape_char.
  apply negb_true_iff in Hc.
  apply orb_false_iff in Hc. destruct Hc as [Hc H3].
  apply orb_false_iff in Hc. destruct Hc as [H1 H2].
  rewrite H1, H2, H3. reflexivity.
Qed.

Lemma escape_keeps_plain_text_witness :
  Html.escape "logo.png" = "logo.png".
Proof. apply escape_keeps_plain_text. reflexivity. Defined.

(** Joining the pieces of [s.split(sep)] with [sep] gives [s]
    back. *)
Theorem join_split_round_trip (sep : ascii) (s : string) :
  Py.join (String sep EmptyString) (Py.split sep s) = s.
Proof.
  unfold Py.join. induction s as [|c s IH]; [reflexivity|].
  cbn [Py.split].
  destruct (Py.split sep s) as [|w ws] eqn:Hs;
    [exfalso; exact (split_not_nil _ _ Hs)|].
  destruct (Ascii.eqb_spec c sep) as [->|Hc].
  - change (String.concat (String sep EmptyString) (EmptyString :: w :: ws))
      with (String sep (String.concat (String sep EmptyString) (w :: ws))).
    rewrite IH. reflexivity.
  - destruct ws as [|w' ws].
    + cbn [String.concat] in *. rewrite IH. reflexivity.
    + change (String.concat (String sep EmptyString) (String c w :: w' :: ws))
        with (String c (String.concat (String sep EmptyString)
                                      (w :: w' :: ws))).
      rewrite IH. reflexivity.
Qed.

Lemma split1_head_app_sep c p q :
  Py.split1_head c (p +++ String c q) = Py.split1_head c p.
Proof.
  induction p as [|x p IH]; simpl.
  - rewrite Ascii.eqb_refl. reflexivity.
  - destruct (Ascii.eqb x c); [reflexivity | rewrite IH; reflexivity].
Qed.

Lemma split1_head_id c p : has_char c p = false -> Py.split1_head c p = p.
Proof.
  induction p as [|x p IH]; simpl; [reflexivity|]. intros H.
  apply orb_false_iff in H. destruct H as [Hx Hp].
  rewrite Hx, (IH Hp). reflexivity.
Qed.

Lemma split1_head_app c p x :
  has_char c p = false ->
  Py.split1_head c (p +++ x) = p +++ Py.split1_head c x.
Proof.
  induction p as [|y p IH]; simpl; [reflexivity|]. intros H.
  apply orb_false_iff in H. destruct H as [Hy Hp].
  rewrite Hy, (IH Hp). reflexivity.
Qed.

(** X3.  The query and the fragment of the request path play no part in
    the file that the path names: [translate_path] of [p?q] and of [p#q]
    is that of [p]. *)
Theorem translate_path_ignores_query_and_fragment
        (rt : runtime) (d p q : string) :
  has_char "?" p = false ->
  SimpleHTTPRequestHandler.translate_path rt d (p +++ "?" +++ q)
  = SimpleHTTPRequestHandler.translate_path rt d p
  /\ SimpleHTTPRequestHandler.translate_path rt d (p +++ "#" +++ q)
     = SimpleHTTPRequestHandler.translate_path rt d p.
Proof.
  intros Hp. unfold SimpleHTTPRequestHandler.translate_path. split.
  - change (p +++ "?" +++ q) with (p +++ String "?" q).
    rewrite split1_head_app_sep. reflexivity.
  - change (p +++ "#" +++ q) with (p +++ String "#" q).
    rewrite (split1_head_app "?" p _ Hp), (split1_head_id "?" p Hp).
    change (Py.split1_head "?" (String "#" q))
      with (String "#" (Py.split1_head "?" q)).
    rewrite split1_head_app_sep. reflexivity.
Qed.

Lemma translate_path_ignores_query_and_fragment_witness :
  SimpleHTTPRequestHandler.translate_path
    Example_env.rt0 Example_env.root ("/live-test.html" +++ "?" +++ "v=2")
  = SimpleHTTPRequestHandler.translate_path
      Example_env.rt0 Example_env.root "/live-test.html"
  /\ SimpleHTTPRequestHandler.translate_path
       Example_env.rt0 Example_env.root ("/live-test.html" +++ "#" +++ "v=2")
     = SimpleHTTPRequestHandler.translate_path
         Example_env.rt0 Example_env.root "/live-test.html".
Proof.
  apply (translate_path_ignores_query_and_fragment
           Example_env.rt0 Example_env.root "/live-test.html").
  reflexivity.
Defined.

(** * The listing is sorted *)

Lemma sort_insert_perm x l :
  Permutation (x :: l) (SimpleHTTPRequestHandler.sort_insert x l).
Proof.
  induction l as [|y l IH]; simpl; [apply Permutation_refl|].
  destruct (String.ltb (Py.lower x) (Py.lower y)); [apply Permutation_refl|].
  eapply Permutation_trans; [apply perm_swap|]. apply perm_skip, IH.
Qed.

Lemma ltb_asym a b : String.ltb a b = true -> String.ltb b a = false.
Proof.
  unfold String.ltb. rewrite (String.compare_antisym b a).
  destruct (String.compare a b); simpl; congruence.
Qed.

Lemma sort_insert_hd x y l :
  lower_le y x -> HdRel lower_le y l ->
  HdRel lower_le y (SimpleHTTPRequestHandler.sort_insert x l).
Proof.
  intros Hyx Hl. destruct l as [|z l]; simpl.
  - constructor. exact Hyx.
  - inversion Hl; subst.
    destruct (String.ltb (Py.lower x) (Py.lower z)); constructor; assumption.
Qed.

Lemma sort_insert_sorted x l :
  Sorted lower_le l ->
  Sorted lower_le (SimpleHTTPRequestHandler.sort_insert x l).
Proof.
  induction 1 as [|y l Hs IH Hhd]; simpl.
  - repeat constructor.
  - destruct (String.ltb (Py.lower x) (Py.lower y)) eqn:Hxy.
    + constructor; [constructor; assumption|].
      constructor. unfold lower_le. apply ltb_asym, Hxy.
    + constructor; [exact IH|].
      apply sort_insert_hd; [exact Hxy | exact Hhd].
Qed.

(** X4.  The names of a listing are those of the directory, each as
    often as [os.listdir] gave it, in the order of their lower-case
    forms. *)
Theorem listing_order (names : list string) :
  Permutation names (SimpleHTTPRequestHandler.sort_by_lower names)
  /\ Sorted lower_le (SimpleHTTPRequestHandler.sort_by_lower names).
Proof.
  unfold SimpleHTTPRequestHandler.sort_by_lower.
  assert (G : forall acc,
    Sorted lower_le acc ->
    Permutation (names ++ acc)
      (fold_left (fun acc x => SimpleHTTPRequestHandler.sort_insert x acc)
                 names acc)
    /\ Sorted lower_le
         (fold_left (fun acc x => SimpleHTTPRequestHandler.sort_insert x acc)
                    names acc)).
  { induction names as [|x names IH]; intros acc Hacc; simpl.
    - split; [apply Permutation_refl | exact Hacc].
    - destruct (IH (SimpleHTTPRequestHandler.sort_insert x acc)
                   (sort_insert_sorted x acc Hacc)) as [Hp Hs].
      split; [|exact Hs].
      eapply Permutation_trans; [|exact Hp].
      eapply Permutation_trans; [apply Permutation_middle|].
      apply Permutation_app_head, sort_insert_perm. }
  destruct (G [] (Sorted_nil _)) as [Hp Hs].
  rewrite app_nil_r in Hp. split; assumption.
Qed.

(** * The copy of a file *)

Lemma take_length n s : String.length (Shutil.take n s) <= n.
Proof.
  revert s. induction n as [|n IH]; intros [|c s]; simpl; try lia.
  specialize (IH s). lia.
Qed.

Lemma copy_loop_buffers fuel n s :
  Forall (fun buf => buf <> EmptyString /\ String.length buf <= n)
         (Shutil.copy_loop fuel n s).
Proof.
  revert s. induction fuel as [|fuel IH]; intros s; cbn [Shutil.copy_loop].
  - constructor.
  - destruct (String.eqb_spec (Shutil.take n s) EmptyString) as [He|Hne].
    + constructor.
    + constructor; [split; [exact Hne | apply take_length] | apply IH].
Qed.

(** X5.  [copyfileobj] writes the whole source and nothing else, in
    buffers that are not empty and not longer than [COPY_BUFSIZE]; for an
    empty source it writes nothing. *)
Theorem copyfileobj_writes_the_source (src : string) :
  Py.join0 (Shutil.copyfileobj src) = src
  /\ Forall (fun buf => buf <> EmptyString
                        /\ String.length buf <= Shutil.COPY_BUFSIZE)
            (Shutil.copyfileobj src)
  /\ Shutil.copyfileobj EmptyString = [].
Proof.
  split; [apply copyfileobj_concat|]. split; [apply copy_loop_buffers|].
  reflexivity.
Qed.

(** * The answers of [send_head] *)

Ltac run_handler tac :=
  repeat (progress (run_methods; eval_connection; tac;
                    cbn [negb andb orb f_data f_mtime])).







Lemma translate_path_keeps_trailing_slash rt d p :
  Py.endswith (Py.rstrip (Py.split1_head "#" (Py.split1_head "?" p))) "/"
  = true ->
  Py.endswith (SimpleHTTPRequestHandler.translate_path rt d p) "/" = true.
Proof.
  intros H. unfold SimpleHTTPRequestHandler.translate_path. rewrite H.
  rewrite endswith_app by discriminate. reflexivity.
Qed.

(** X9.  A request path that ends with [/] and does not name a directory
    is answered 404, whether or not a file of that name exists: the file
    is not opened. *)
Theorem file_path_with_trailing_slash_is_404
        (rt : runtime) (fs : filesystem) (h : handler) :
  full_request h ->
  command h = Some "GET" ->
  headers_buffer h = [] ->
  wfile h = [] ->
  Py.endswith (Py.rstrip (Py.split1_head "#"
                            (Py.split1_head "?" (self_path h)))) "/"
  = true ->
  fs_isdir fs (SimpleHTTPRequestHandler.translate_path
                 rt (directory h) (self_path h)) = false ->
  wfile (exec (MyHTTPRequestHandler.do_GET rt fs) h)
  = WHeaders
      (response_head rt 404 "File not found"
         ++ [header_line "Connection" "close";
             header_line "Content-Type" "text/html;charset=utf-8";
             header_line "Content-Length"
               (Py.str_of_nat
                  (String.length
                     (error_page rt 404 "File not found"
                                 "Nothing matches the given URI")));
             COEP_line; COOP_line; Py.CRLF])
      :: (if String.eqb (error_page rt 404 "File not found"
                                    "Nothing matches the given URI")
                        EmptyString
          then []
          else [WBody (error_page rt 404 "File not found"
                                  "Nothing matches the given URI")])
  /\ fs_calls (exec (MyHTTPRequestHandler.do_GET rt fs) h)
     = fs_calls h
       ++ [CallIsdir (SimpleHTTPRequestHandler.translate_path
                        rt (directory h) (self_path h))].
Proof.
  intros Hv Hc Hb Hw Ht Hd.
  pose proof (translate_path_keeps_trailing_slash
                rt (directory h) (self_path h) Ht) as He.
  destruct h as [d c p v rl hs cc hb wf lg calls].
  cbn [command headers_buffer wfile directory self_path path headers
       request_version fs_calls] in *.
  unfold full_request in Hv. cbn [request_version] in Hv.
  subst c hb wf. unfold response_head, header_line, status_line, error_page.
  split.
  - destruct (String.eqb (encode_utf8 rt _) EmptyString) eqn:Hbody;
      run_handler ltac:(rewrite ?Hd, ?He, ?Hv, ?Hbody); reflexivity.
  - destruct (String.eqb
                (encode_utf8 rt
                   (BaseHTTPRequestHandler.error_message_format
                      404 (Html.escape "File not found")
                      (Html.escape "Nothing matches the given URI")))
                EmptyString) eqn:Hbody;
      run_handler ltac:(rewrite ?Hd, ?He, ?Hv, ?Hbody); reflexivity.
Qed.

Lemma file_path_with_trailing_slash_is_404_witness :
  wfile (exec (MyHTTPRequestHandler.do_GET Example_env.rt0 Example_env.fs0)
              (Example_env.dispatched
                 (Example_env.request "GET /live-test.html/ HTTP/1.1")))
  = [WHeaders
       (response_head Example_env.rt0 404 "File not found"
          ++ [header_line "Connection" "close";
              header_line "Content-Type" "text/html;charset=utf-8";
              header_line "Content-Length" "335";
              COEP_line; COOP_line; Py.CRLF]);
     WBody (error_page Example_env.rt0 404 "File not found"
                       "Nothing matches the given URI")]
  /\ fs_calls (exec (MyHTTPRequestHandler.do_GET
                       Example_env.rt0 Example_env.fs0)
                    (Example_env.dispatched
                       (Example_env.request "GET /live-test.html/ HTTP/1.1")))
     = [CallIsdir (Example_env.root +++ "/live-test.html/")].
Proof.
  apply (file_path_with_trailing_slash_is_404
           Example_env.rt0 Example_env.fs0
           (Example_env.dispatched
              (Example_env.request "GET /live-test.html/ HTTP/1.1")));
    reflexivity.
Defined.



(** * HEAD *)





(** * [send_error] in general *)

Lemma send_error_writes_full rt code message explain short long h :
  BaseHTTPRequestHandler.responses code = Some (short, long) ->
  has_page code = true ->
  full_request h ->
  command h <> Some "HEAD" ->
  headers_buffer h = [] ->
  wfile (exec (MyHTTPRequestHandler.send_error rt code message explain) h)
  = wfile h
    ++ error_writes rt code
         (match message with Some m => m | None => short end)
         (match explain with Some e => e | None => long end)
  /\ headers_buffer
       (exec (MyHTTPRequestHandler.send_error rt code message explain) h)
     = []
  /\ fs_calls
       (exec (MyHTTPRequestHandler.send_error rt code message explain) h)
     = fs_calls h.
Proof.
  intros Hr Hp Hv Hc Hb.
  destruct h as [d c p v rl hs cc hb wf lg calls].
  cbn [command headers_buffer wfile request_version fs_calls] in *.
  unfold full_request in Hv. cbn [request_version] in Hv. subst hb.
  unfold has_page in Hp.
  unfold MyHTTPRequestHandler.send_error, BaseHTTPRequestHandler.send_error.
  rewrite Hr, Hp.
  unfold error_writes, error_page, response_head, header_line, status_line.
  set (m := match message with Some m => m | None => short end).
  set (e := match explain with Some e => e | None => long end).
  set (page := encode_utf8 rt _).
  assert (Hhead : match c with
                  | Some c0 => String.eqb c0 "HEAD"
                  | None => false
                  end = false).
  { destruct c as [c0|]; [|reflexivity].
    destruct (String.eqb_spec c0 "HEAD"); [subst; congruence|reflexivity]. }
  destruct (String.eqb page EmptyString) eqn:Hbody;
    run_handler ltac:(rewrite ?Hv, ?Hhead, ?Hbody);
    repeat split; rewrite <- ?app_assoc; reflexivity.
Qed.

(** * The request line *)

Lemma parse_request_headers_accepts rt rh h :
  eval (BaseHTTPRequestHandler.parse_request_headers
          rt MyHTTPRequestHandler.server_version
          MyHTTPRequestHandler.end_headers rh) h = true ->
  exists hs cc,
    rh = HeadersOk hs
    /\ exec (BaseHTTPRequestHandler.parse_request_headers
               rt MyHTTPRequestHandler.server_version
               MyHTTPRequestHandler.end_headers rh) h
       = set_close_connection cc (set_headers hs h).
Proof.
  destruct rh as [hs|err|err]; intros H.
  - exists hs.
    destruct h as [d c p v rl hs0 cc hb wf lg calls].
    unfold BaseHTTPRequestHandler.parse_request_headers in *.
    change (Py.str_ge BaseHTTPRequestHandler.protocol_version "HTTP/1.1")
      with false in *.
    revert H. run_methods.
    rewrite !andb_false_r. cbn [andb].
    destruct (String.eqb _ "close"); intros _; eexists; split; reflexivity.
  - unfold BaseHTTPRequestHandler.parse_request_headers in H.
    rewrite eval_bind in H. discriminate.
  - unfold BaseHTTPRequestHandler.parse_request_headers in H.
    rewrite eval_bind in H. discriminate.
Qed.

Lemma parse_request_words_accepts rt requestline words rh h :
  eval (BaseHTTPRequestHandler.parse_request_words
          rt MyHTTPRequestHandler.server_version
          MyHTTPRequestHandler.end_headers requestline words rh) h = true ->
  exists c p hs cc,
    rh = HeadersOk hs
    /\ (words = [c; p] /\ c = "GET" \/ exists v, words = [c; p; v])
    /\ exec (BaseHTTPRequestHandler.parse_request_words
               rt MyHTTPRequestHandler.server_version
               MyHTTPRequestHandler.end_headers requestline words rh) h
       = set_close_connection cc
           (set_headers hs (set_path (kept_path p)
                                     (set_command (Some c) h))).
Proof.
  intros H.
  unfold BaseHTTPRequestHandler.parse_request_words in *.
  destruct words as [|c [|p [|v [|w ws]]]];
    try (rewrite eval_bind in H; discriminate).
  - rewrite eval_bind in H. cbv beta in H.
    destruct (String.eqb_spec c "GET") as [->|Hne]; cbn [negb] in *;
      [|rewrite eval_bind in H; discriminate].
    repeat (rewrite eval_bind in H; cbv beta in H).
    apply parse_request_headers_accepts in H.
    destruct H as (hs & cc & -> & H).
    exists "GET", p, hs, cc. split; [reflexivity|].
    split; [left; split; reflexivity|].
    repeat (rewrite exec_bind; cbv beta). rewrite H.
    destruct h as [d c0 p0 v rl hs0 cc0 hb wf lg calls].
    unfold kept_path. destruct (Py.startswith p "//"); reflexivity.
  - repeat (rewrite eval_bind in H; cbv beta in H).
    apply parse_request_headers_accepts in H.
    destruct H as (hs & cc & -> & H).
    exists c, p, hs, cc. split; [reflexivity|].
    split; [right; exists v; reflexivity|].
    repeat (rewrite exec_bind; cbv beta). rewrite H.
    destruct h as [d c0 p0 v0 rl hs0 cc0 hb wf lg calls].
    unfold kept_path. destruct (Py.startswith p "//"); reflexivity.
Qed.

Lemma parse_request_accepts rt r h :
  eval (BaseHTTPRequestHandler.parse_request
          rt MyHTTPRequestHandler.server_version
          MyHTTPRequestHandler.end_headers r) h = true ->
  exists c p v hs cc,
    raw_headers r = HeadersOk hs
    /\ (request_words r = [c; p] /\ c = "GET" /\ v = "HTTP/0.9"
        \/ request_words r = [c; p; v]
           /\ exists n, BaseHTTPRequestHandler.parse_version rt v = Some n
                        /\ BaseHTTPRequestHandler.tuple_ge (snd n) (2, 0)%Z
                           = false)
    /\ exec (BaseHTTPRequestHandler.parse_request
               rt MyHTTPRequestHandler.server_version
               MyHTTPRequestHandler.end_headers r) h
       = set_close_connection cc
           (set_headers hs
              (set_path (kept_path p)
                 (set_command (Some c)
                    (set_requestline
                       (Py.rstrip_by
                          (fun c => Ascii.eqb c Py.CR || Ascii.eqb c Py.LF)
                          (raw_requestline r))
                       (set_request_version v h))))).
Proof.
  intros H.
  unfold BaseHTTPRequestHandler.parse_request in *.
  fold (request_words r) in *.
  repeat (rewrite eval_bind in H; cbv beta in H).
  repeat (rewrite exec_bind; cbv beta).
  destruct (request_words r) as [|w1 [|w2 [|w3 [|w4 ws]]]] eqn:Hw;
    [discriminate| | | |].
  - cbn [List.length Nat.leb] in H.
    apply parse_request_words_accepts in H.
    destruct H as (c & p & hs & cc & _ & [[Hx _]|[v Hx]] & _); discriminate.
  - cbn [List.length Nat.leb] in *.
    apply parse_request_words_accepts in H.
    destruct H as (c & p & hs & cc & Hh & [[Hx Hc]|[v Hx]] & H);
      [|discriminate].
    injection Hx as <- <-.
    exists w1, w2, "HTTP/0.9", hs, cc. split; [exact Hh|].
    split; [left; repeat split; exact Hc|].
    rewrite H. destruct h as [d c0 p0 v0 rl hs0 cc0 hb wf lg calls].
    reflexivity.
  - cbn [List.length Nat.leb last] in *.
    change (Py.str_ge BaseHTTPRequestHandler.protocol_version "HTTP/1.1")
      with false in *.
    destruct (BaseHTTPRequestHandler.parse_version rt w3)
      as [[b n]|] eqn:Hpv; [|rewrite eval_bind in H; discriminate].
    rewrite andb_false_r in *.
    repeat (rewrite eval_bind in H; cbv beta in H).
    repeat (rewrite exec_bind; cbv beta).
    destruct (BaseHTTPRequestHandler.tuple_ge n (2, 0)%Z) eqn:Hge;
      [rewrite eval_bind in H; discriminate|].
    repeat (rewrite eval_bind in H; cbv beta in H).
    repeat (rewrite exec_bind; cbv beta).
    apply parse_request_words_accepts in H.
    destruct H as (c & p & hs & cc & Hh & [[Hx Hc]|[v Hx]] & H);
      [discriminate|].
    injection Hx as <- <- <-.
    exists w1, w2, w3, hs, cc. split; [exact Hh|].
    split; [right; split; [reflexivity|exists (b, n); split; auto]|].
    rewrite H. destruct h as [d c0 p0 v0 rl hs0 cc0 hb wf lg calls].
    reflexivity.
  - cbn [List.length Nat.leb] in *.
    change (Py.str_ge BaseHTTPRequestHandler.protocol_version "HTTP/1.1")
      with false in *.
    destruct (BaseHTTPRequestHandler.parse_version rt _)
      as [[b n]|] eqn:Hpv; [|rewrite eval_bind in H; discriminate].
    rewrite andb_false_r in *.
    repeat (rewrite eval_bind in H; cbv beta in H).
    destruct (BaseHTTPRequestHandler.tuple_ge n (2, 0)%Z) eqn:Hge;
      [rewrite eval_bind in H; discriminate|].
    repeat (rewrite eval_bind in H; cbv beta in H).
    apply parse_request_words_accepts in H.
    destruct H as (c & p & hs & cc & _ & [[Hx _]|[v Hx]] & _); discriminate.
Qed.

Lemma send_error_writes_simple rt code message explain short long h :
  BaseHTTPRequestHandler.responses code = Some (short, long) ->
  has_page code = true ->
  simple_request h ->
  command h <> Some "HEAD" ->
  wfile (exec (MyHTTPRequestHandler.send_error rt code message explain) h)
  = wfile h
    ++ error_writes_simple rt code
         (match message with Some m => m | None => short end)
         (match explain with Some e => e | None => long end)
  /\ headers_buffer
       (exec (MyHTTPRequestHandler.send_error rt code message explain) h)
     = headers_buffer h
  /\ fs_calls
       (exec (MyHTTPRequestHandler.send_error rt code message explain) h)
     = fs_calls h.
Proof.
  intros Hr Hp Hv Hc.
  destruct h as [d c p v rl hs cc hb wf lg calls].
  cbn [command headers_buffer wfile request_version fs_calls] in *.
  unfold simple_request in Hv. cbn [request_version] in Hv.
  unfold has_page in Hp.
  unfold MyHTTPRequestHandler.send_error, BaseHTTPRequestHandler.send_error.
  rewrite Hr, Hp.
  unfold error_writes_simple, error_page.
  set (m := match message with Some m => m | None => short end).
  set (e := match explain with Some e => e | None => long end).
  set (page := encode_utf8 rt _).
  assert (Hhead : match c with
                  | Some c0 => String.eqb c0 "HEAD"
                  | None => false
                  end = false).
  { destruct c as [c0|]; [|reflexivity].
    destruct (String.eqb_spec c0 "HEAD"); [subst; congruence|reflexivity]. }
  destruct (String.eqb page EmptyString) eqn:Hbody;
    run_handler ltac:(rewrite ?Hv, ?Hhead, ?Hbody);
    repeat split; rewrite ?app_nil_r; reflexivity.
Qed.

Lemma lstrip_by_not_prefix f c s :
  f c = true -> String.prefix (String c EmptyString) (Py.lstrip_by f s) = false.
Proof.
  intros Hf. induction s as [|a s IH]; [reflexivity|].
  cbn [Py.lstrip_by]. destruct (f a) eqn:Ha; [exact IH|].
  cbn [String.prefix]. destruct (ascii_dec c a) as [->|]; [congruence|].
  reflexivity.
Qed.

Lemma kept_path_single_slash p : Py.startswith (kept_path p) "//" = false.
Proof.
  unfold kept_path. destruct (Py.startswith p "//") eqn:Hp; [|exact Hp].
  unfold Py.startswith. cbn [String.append String.prefix].
  destruct (ascii_dec "/" "/"); [|congruence].
  apply (lstrip_by_not_prefix (Ascii.eqb "/") "/"). reflexivity.
Qed.

(** X13.  [parse_request] accepts a request exactly when its headers are
    read and its line is [GET] and a path, or three words of which the
    last is a version [HTTP/a.b] below 2.0. *)
Theorem accepted_request_lines (rt : runtime) (r : raw_request) (h : handler) :
  eval (BaseHTTPRequestHandler.parse_request
          rt MyHTTPRequestHandler.server_version
          MyHTTPRequestHandler.end_headers r) h = true
  <-> (exists hs, raw_headers r = HeadersOk hs)
      /\ ((exists p, request_words r = ["GET"; p])
          \/ exists c p v n,
               request_words r = [c; p; v]
               /\ BaseHTTPRequestHandler.parse_version rt v = Some n
               /\ BaseHTTPRequestHandler.tuple_ge (snd n) (2, 0)%Z = false).
Proof.
  split.
  - intros H. apply parse_request_accepts in H.
    destruct H as (c & p & v & hs & cc & Hh & Hw & _).
    split; [exists hs; exact Hh|].
    destruct Hw as [(Hw & -> & _)|(Hw & n & Hn & Hge)].
    + left. exists p. exact Hw.
    + right. exists c, p, v, n. auto.
  - intros [[hs Hh] Hw].
    unfold BaseHTTPRequestHandler.parse_request.
    fold (request_words r). rewrite Hh.
    repeat (rewrite eval_bind; cbv beta).
    assert (Hhd : forall h0,
               eval (BaseHTTPRequestHandler.parse_request_headers
                       rt MyHTTPRequestHandler.server_version
                       MyHTTPRequestHandler.end_headers (HeadersOk hs)) h0
               = true).
    { intros h0. destruct h0.
      unfold BaseHTTPRequestHandler.parse_request_headers.
      change (Py.str_ge BaseHTTPRequestHandler.protocol_version "HTTP/1.1")
        with false.
      run_methods. rewrite !andb_false_r. cbn [andb].
      destruct (String.eqb _ "close"); reflexivity. }
    destruct Hw as [[p ->]|(c & p & v & [b n] & -> & Hn & Hge)].
    + cbn [List.length Nat.leb].
      unfold BaseHTTPRequestHandler.parse_request_words.
      repeat (rewrite eval_bind; cbv beta).
      change (negb ("GET" =? "GET")%string) with false. cbv iota.
      repeat (rewrite eval_bind; cbv beta). apply Hhd.
    + cbn [List.length Nat.leb last]. rewrite Hn.
      repeat (rewrite eval_bind; cbv beta).
      cbn [snd] in Hge. rewrite Hge.
      repeat (rewrite eval_bind; cbv beta).
      unfold BaseHTTPRequestHandler.parse_request_words.
      repeat (rewrite eval_bind; cbv beta). apply Hhd.
Qed.

(** X14.  When [parse_request] accepts a request, the command is the
    first word of the line, the path is the second with a run of leading
    slashes cut to one, the version is the third word, or [HTTP/0.9] when
    there is none, and nothing is written, buffered or asked of the file
    system. *)
Theorem accepted_request_is_recorded
        (rt : runtime) (r : raw_request) (h : handler) :
  eval (BaseHTTPRequestHandler.parse_request
          rt MyHTTPRequestHandler.server_version
          MyHTTPRequestHandler.end_headers r) h = true ->
  command (exec (BaseHTTPRequestHandler.parse_request
                   rt MyHTTPRequestHandler.server_version
                   MyHTTPRequestHandler.end_headers r) h)
  = Some (nth 0 (request_words r) EmptyString)
  /\ path (exec (BaseHTTPRequestHandler.parse_request
                   rt MyHTTPRequestHandler.server_version
                   MyHTTPRequestHandler.end_headers r) h)
     = kept_path (nth 1 (request_words r) EmptyString)
  /\ Py.startswith
       (path (exec (BaseHTTPRequestHandler.parse_request
                      rt MyHTTPRequestHandler.server_version
                      MyHTTPRequestHandler.end_headers r) h)) "//" = false
  /\ request_version (exec (BaseHTTPRequestHandler.parse_request
                              rt MyHTTPRequestHandler.server_version
                              MyHTTPRequestHandler.end_headers r) h)
     = nth 2 (request_words r) "HTTP/0.9"
  /\ raw_headers r
     = HeadersOk (headers (exec (BaseHTTPRequestHandler.parse_request
                                   rt MyHTTPRequestHandler.server_version
                                   MyHTTPRequestHandler.end_headers r) h))
  /\ wfile (exec (BaseHTTPRequestHandler.parse_request
                    rt MyHTTPRequestHandler.server_version
                    MyHTTPRequestHandler.end_headers r) h) = wfile h
  /\ headers_buffer (exec (BaseHTTPRequestHandler.parse_request
                             rt MyHTTPRequestHandler.server_version
                             MyHTTPRequestHandler.end_headers r) h)
     = headers_buffer h
  /\ fs_calls (exec (BaseHTTPRequestHandler.parse_request
                       rt MyHTTPRequestHandler.server_version
                       MyHTTPRequestHandler.end_headers r) h) = fs_calls h.
Proof.
  intros H. apply parse_request_accepts in H.
  destruct H as (c & p & v & hs & cc & Hh & Hw & ->).
  destruct h as [d c0 p0 v0 rl hs0 cc0 hb wf lg calls].
  cbn [set_close_connection set_headers set_path set_command set_requestline
       set_request_version command path request_version headers wfile
       headers_buffer fs_calls directory requestline close_connection
       stderr_log].
  rewrite kept_path_single_slash.
  destruct Hw as [(-> & _ & ->)|(-> & _)]; repeat split; exact Hh.
Qed.

Lemma accepted_request_is_recorded_witness :
  command (exec (BaseHTTPRequestHandler.parse_request
                   Example_env.rt0 MyHTTPRequestHandler.server_version
                   MyHTTPRequestHandler.end_headers
                   (Example_env.request "GET //assets//logo.png HTTP/1.1"))
                (MyHTTPRequestHandler.init Example_env.root))
  = Some "GET"
  /\ path (exec (BaseHTTPRequestHandler.parse_request
                   Example_env.rt0 MyHTTPRequestHandler.server_version
                   MyHTTPRequestHandler.end_headers
                   (Example_env.request "GET //assets//logo.png HTTP/1.1"))
                (MyHTTPRequestHandler.init Example_env.root))
     = "/assets//logo.png".
Proof.
  destruct (accepted_request_is_recorded
              Example_env.rt0
              (Example_env.request "GET //assets//logo.png HTTP/1.1")
              (MyHTTPRequestHandler.init Example_env.root))
    as (Hc & Hp & _); [reflexivity|].
  split; [exact Hc | exact Hp].
Defined.

(** * Requests that are refused *)

(** X15.  A request line of more than 65536 bytes is not parsed: it is
    answered 414 with a header block, whatever the line holds, and the
    file system is not asked. *)
Theorem overlong_request_line_is_answered_414
        (rt : runtime) (fs : filesystem) (r : raw_request) (h : handler) :
  Py.len_gt (raw_requestline r) 65536 = true ->
  headers_buffer h = [] ->
  wfile (exec (MyHTTPRequestHandler.handle_one_request rt fs r) h)
  = wfile h ++ error_writes rt 414 "Request-URI Too Long" "URI is too long"
  /\ fs_calls (exec (MyHTTPRequestHandler.handle_one_request rt fs r) h)
     = fs_calls h.
Proof.
  intros Hlen Hb.
  unfold MyHTTPRequestHandler.handle_one_request,
    BaseHTTPRequestHandler.handle_one_request.
  rewrite Hlen. repeat (rewrite exec_bind; cbv beta).
  rewrite !exec_modify.
  destruct h as [d c p v rl hs cc hb wf lg calls].
  cbn [headers_buffer] in Hb. subst hb.
  destruct (send_error_writes_full
              rt 414 None None "Request-URI Too Long" "URI is too long"
              (set_command (Some EmptyString)
                 (set_request_version EmptyString
                    (set_requestline EmptyString
                       (mkHandler d c p v rl hs cc [] wf lg calls)))))
    as (Hw & _ & Hc); try reflexivity; [discriminate|].
  split; [exact Hw | exact Hc].
Qed.

Lemma overlong_request_line_is_answered_414_witness :
  wfile (exec (MyHTTPRequestHandler.handle_one_request
                 Example_env.rt0 Example_env.fs0 Example_more.long_request)
              (MyHTTPRequestHandler.init Example_env.root))
  = error_writes Example_env.rt0 414 "Request-URI Too Long" "URI is too long"
  /\ fs_calls (exec (MyHTTPRequestHandler.handle_one_request
                       Example_env.rt0 Example_env.fs0
                       Example_more.long_request)
                    (MyHTTPRequestHandler.init Example_env.root))
     = [].
Proof.
  apply (overlong_request_line_is_answered_414
           Example_env.rt0 Example_env.fs0 Example_more.long_request
           (MyHTTPRequestHandler.init Example_env.root));
    [vm_compute; reflexivity | reflexivity].
Defined.

(** X16.  A request that is accepted with a version, for a method other
    than GET and HEAD, is answered 501 with a header block and the page
    that names the method; the file system is not asked. *)
Theorem other_method_is_answered_501
        (rt : runtime) (fs : filesystem) (r : raw_request) (h : handler)
        (c p v : string) :
  Py.len_gt (raw_requestline r) 65536 = false ->
  request_words r = [c; p; v] ->
  eval (BaseHTTPRequestHandler.parse_request
          rt MyHTTPRequestHandler.server_version
          MyHTTPRequestHandler.end_headers r) h = true ->
  c <> "GET" ->
  c <> "HEAD" ->
  v <> "HTTP/0.9" ->
  headers_buffer h = [] ->
  wfile (exec (MyHTTPRequestHandler.handle_one_request rt fs r) h)
  = wfile h
    ++ error_writes rt 501
         ("Unsupported method (" +++ py_repr rt c +++ ")")
         "Server does not support this operation"
  /\ fs_calls (exec (MyHTTPRequestHandler.handle_one_request rt fs r) h)
     = fs_calls h.
Proof.
  intros Hlen Hw Hok Hg Hh Hv Hb.
  unfold MyHTTPRequestHandler.handle_one_request,
    BaseHTTPRequestHandler.handle_one_request.
  rewrite Hlen.
  assert (Hne : String.eqb (raw_requestline r) EmptyString = false).
  { destruct (String.eqb_spec (raw_requestline r) EmptyString) as [He|];
      [|reflexivity].
    unfold request_words in Hw. rewrite He in Hw. discriminate. }
  rewrite Hne. rewrite exec_bind, Hok. cbn [negb].
  rewrite exec_bind. change (eval get ?x) with x. change (exec get ?x) with x.
  cbv beta zeta.
  destruct (parse_request_accepts rt r h Hok)
    as (c' & p' & v' & hs & cc & _ & Hw' & ->).
  rewrite Hw in Hw'.
  destruct Hw' as [(Hx & _)|(Hx & _)]; [discriminate|].
  injection Hx as <- <- <-.
  destruct h as [d c0 p0 v0 rl hs0 cc0 hb wf lg calls].
  cbn [headers_buffer] in Hb. subst hb.
  cbv beta iota delta
      [set_close_connection set_headers set_path set_command set_requestline
       set_request_version directory command path request_version
       requestline headers close_connection headers_buffer wfile stderr_log
       fs_calls].
  unfold MyHTTPRequestHandler.getattr_do.
  destruct (String.eqb_spec c "GET"); [contradiction|].
  destruct (String.eqb_spec c "HEAD"); [contradiction|].
  match goal with
  | |- context [exec _ ?s] =>
      destruct (send_error_writes_full
                  rt 501
                  (Some ("Unsupported method (" +++ py_repr rt c +++ ")"))
                  None "Not Implemented"
                  "Server does not support this operation" s)
        as (H1 & _ & H2)
  end; try reflexivity.
  - unfold full_request. cbn [request_version].
    destruct (String.eqb_spec v "HTTP/0.9"); [contradiction|reflexivity].
  - cbn [command]. congruence.
  - split; [exact H1 | exact H2].
Qed.

Lemma other_method_is_answered_501_witness :
  wfile (exec (MyHTTPRequestHandler.handle_one_request
                 Example_env.rt0 Example_env.fs0
                 (Example_env.request "POST /live-test.html HTTP/1.1"))
              (MyHTTPRequestHandler.init Example_env.root))
  = error_writes Example_env.rt0 501 "Unsupported method ('POST')"
                 "Server does not support this operation"
  /\ fs_calls (exec (MyHTTPRequestHandler.handle_one_request
                       Example_env.rt0 Example_env.fs0
                       (Example_env.request "POST /live-test.html HTTP/1.1"))
                    (MyHTTPRequestHandler.init Example_env.root))
     = [].
Proof.
  apply (other_method_is_answered_501
           Example_env.rt0 Example_env.fs0
           (Example_env.request "POST /live-test.html HTTP/1.1")
           (MyHTTPRequestHandler.init Example_env.root)
           "POST" "/live-test.html" "HTTP/1.1");
    first [reflexivity | discriminate].
Defined.

(** X17.  A request line of white space only is answered with nothing:
    no byte is written and the file system is not asked. *)
Theorem blank_request_line_is_not_answered
        (rt : runtime) (fs : filesystem) (r : raw_request) (h : handler) :
  Py.len_gt (raw_requestline r) 65536 = false ->
  request_words r = [] ->
  wfile (exec (MyHTTPRequestHandler.handle_one_request rt fs r) h) = wfile h
  /\ headers_buffer (exec (MyHTTPRequestHandler.handle_one_request rt fs r) h)
     = headers_buffer h
  /\ fs_calls (exec (MyHTTPRequestHandler.handle_one_request rt fs r) h)
     = fs_calls h.
Proof.
  intros Hlen Hw.
  unfold MyHTTPRequestHandler.handle_one_request,
    BaseHTTPRequestHandler.handle_one_request.
  rewrite Hlen.
  destruct (String.eqb (raw_requestline r) EmptyString);
    [destruct h; repeat split; reflexivity|].
  unfold BaseHTTPRequestHandler.parse_request.
  fold (request_words r). rewrite Hw.
  destruct h; repeat split; reflexivity.
Qed.

Lemma blank_request_line_is_not_answered_witness :
  wfile (exec (MyHTTPRequestHandler.handle_one_request
                 Example_env.rt0 Example_env.fs0
                 (Example_env.request "  "))
              (MyHTTPRequestHandler.init Example_env.root))
  = [].
Proof.
  apply (blank_request_line_is_not_answered
           Example_env.rt0 Example_env.fs0 (Example_env.request "  ")
           (MyHTTPRequestHandler.init Example_env.root));
    reflexivity.
Defined.

Lemma request_words_not_empty r :
  request_words r <> [] -> String.eqb (raw_requestline r) EmptyString = false.
Proof.
  intros Hw. destruct (String.eqb_spec (raw_requestline r) EmptyString) as [He|];
    [|reflexivity].
  exfalso. apply Hw. unfold request_words. rewrite He. reflexivity.
Qed.

(** X18.  A request line of three words or more whose last word is not a
    version [HTTP/a.b] is answered 400 in the HTTP/0.9 form: the error page
    alone, without status line and without headers, the two headers of the
    script included. *)
Theorem malformed_version_is_answered_without_headers
        (rt : runtime) (fs : filesystem) (r : raw_request) (h : handler) :
  Py.len_gt (raw_requestline r) 65536 = false ->
  3 <= List.length (request_words r) ->
  BaseHTTPRequestHandler.parse_version
    rt (List.last (request_words r) EmptyString) = None ->
  wfile (exec (MyHTTPRequestHandler.handle_one_request rt fs r) h)
  = wfile h
    ++ error_writes_simple rt 400
         ("Bad request version ("
            +++ py_repr rt (List.last (request_words r) EmptyString) +++ ")")
         "Bad request syntax or unsupported method"
  /\ headers_buffer (exec (MyHTTPRequestHandler.handle_one_request rt fs r) h)
     = headers_buffer h
  /\ fs_calls (exec (MyHTTPRequestHandler.handle_one_request rt fs r) h)
     = fs_calls h.
Proof.
  intros Hlen Hn Hpv.
  unfold MyHTTPRequestHandler.handle_one_request,
    BaseHTTPRequestHandler.handle_one_request.
  rewrite Hlen.
  rewrite request_words_not_empty
    by (destruct (request_words r); [cbn in Hn; lia | discriminate]).
  unfold BaseHTTPRequestHandler.parse_request.
  fold (request_words r).
  destruct (request_words r) as [|w1 ws] eqn:Hw; [cbn in Hn; lia|].
  rewrite <- Hw in *.
  apply Nat.leb_le in Hn. rewrite Hn, Hpv.
  repeat (rewrite exec_bind; cbv beta).
  repeat (rewrite eval_bind; cbv beta).
  change (negb (eval (ret false) ?x)) with true. cbv iota.
  rewrite exec_ret, !exec_modify.
  destruct h as [d c p v rl hs cc hb wf lg calls].
  match goal with
  | |- context [exec (BaseHTTPRequestHandler.send_error
                        _ _ _ ?code ?m ?e) ?s] =>
      destruct (send_error_writes_simple
                  rt code m e "Bad Request"
                  "Bad request syntax or unsupported method" s)
        as (H1 & H2 & H3)
  end; try reflexivity; [discriminate|].
  repeat split; assumption.
Qed.

Lemma malformed_version_is_answered_without_headers_witness :
  wfile (exec (MyHTTPRequestHandler.handle_one_request
                 Example_env.rt0 Example_env.fs0
                 (Example_env.request "GET /live-test.html HTTP/one"))
              (MyHTTPRequestHandler.init Example_env.root))
  = error_writes_simple Example_env.rt0 400
      "Bad request version ('HTTP/one')"
      "Bad request syntax or unsupported method".
Proof.
  apply (malformed_version_is_answered_without_headers
           Example_env.rt0 Example_env.fs0
           (Example_env.request "GET /live-test.html HTTP/one")
           (MyHTTPRequestHandler.init Example_env.root));
    [reflexivity | vm_compute; lia | reflexivity].
Defined.

(** X19.  A request line of three words or more whose version is 2.0 or
    above is answered 505 in the HTTP/0.9 form: the error page alone,
    without status line and without headers. *)
Theorem version_2_is_answered_505_without_headers
        (rt : runtime) (fs : filesystem) (r : raw_request) (h : handler)
        (base : string) (n : Z * Z) :
  Py.len_gt (raw_requestline r) 65536 = false ->
  3 <= List.length (request_words r) ->
  BaseHTTPRequestHandler.parse_version
    rt (List.last (request_words r) EmptyString) = Some (base, n) ->
  BaseHTTPRequestHandler.tuple_ge n (2, 0)%Z = true ->
  wfile (exec (MyHTTPRequestHandler.handle_one_request rt fs r) h)
  = wfile h
    ++ error_writes_simple rt 505
         ("Invalid HTTP version (" +++ base +++ ")")
         "Cannot fulfill request"
  /\ headers_buffer (exec (MyHTTPRequestHandler.handle_one_request rt fs r) h)
     = headers_buffer h
  /\ fs_calls (exec (MyHTTPRequestHandler.handle_one_request rt fs r) h)
     = fs_calls h.
Proof.
  intros Hlen Hn Hpv Hge.
  unfold MyHTTPRequestHandler.handle_one_request,
    BaseHTTPRequestHandler.handle_one_request.
  rewrite Hlen.
  rewrite request_words_not_empty
    by (destruct (request_words r); [cbn in Hn; lia | discriminate]).
  unfold BaseHTTPRequestHandler.parse_request.
  fold (request_words r).
  destruct (request_words r) as [|w1 ws] eqn:Hw; [cbn in Hn; lia|].
  rewrite <- Hw in *.
  apply Nat.leb_le in Hn. rewrite Hn, Hpv, Hge.
  change (Py.str_ge BaseHTTPRequestHandler.protocol_version "HTTP/1.1")
    with false.
  rewrite andb_false_r.
  repeat (rewrite exec_bind; cbv beta).
  repeat (rewrite eval_bind; cbv beta).
  change (negb (eval (ret false) ?x)) with true. cbv iota.
  rewrite !exec_ret, !exec_modify.
  destruct h as [d c p v rl hs cc hb wf lg calls].
  match goal with
  | |- context [exec (BaseHTTPRequestHandler.send_error
                        _ _ _ ?code ?m ?e) ?s] =>
      destruct (send_error_writes_simple
                  rt code m e "HTTP Version Not Supported"
                  "Cannot fulfill request" s)
        as (H1 & H2 & H3)
  end; try reflexivity; [discriminate|].
  repeat split; assumption.
Qed.

Lemma version_2_is_answered_505_without_headers_witness :
  wfile (exec (MyHTTPRequestHandler.handle_one_request
                 Example_env.rt0 Example_env.fs0
                 (Example_env.request "GET /live-test.html HTTP/2.0"))
              (MyHTTPRequestHandler.init Example_env.root))
  = error_writes_simple Example_env.rt0 505 "Invalid HTTP version (2.0)"
                        "Cannot fulfill request".
Proof.
  apply (version_2_is_answered_505_without_headers
           Example_env.rt0 Example_env.fs0
           (Example_env.request "GET /live-test.html HTTP/2.0")
           (MyHTTPRequestHandler.init Example_env.root)
           "2.0" (2, 0)%Z);
    [reflexivity | vm_compute; lia | reflexivity | reflexivity].
Defined.

(** X20.  A request line of two words is accepted for GET only: with
    another first word it is answered 400 in the HTTP/0.9 form, the error
    page alone, whatever the word, HEAD included. *)
Theorem two_words_other_than_GET_are_answered_400
        (rt : runtime) (fs : filesystem) (r : raw_request) (h : handler)
        (c p : string) :
  Py.len_gt (raw_requestline r) 65536 = false ->
  request_words r = [c; p] ->
  c <> "GET" ->
  wfile (exec (MyHTTPRequestHandler.handle_one_request rt fs r) h)
  = wfile h
    ++ error_writes_simple rt 400
         ("Bad HTTP/0.9 request type (" +++ py_repr rt c +++ ")")
         "Bad request syntax or unsupported method"
  /\ headers_buffer (exec (MyHTTPRequestHandler.handle_one_request rt fs r) h)
     = headers_buffer h
  /\ fs_calls (exec (MyHTTPRequestHandler.handle_one_request rt fs r) h)
     = fs_calls h.
Proof.
  intros Hlen Hw Hc.
  unfold MyHTTPRequestHandler.handle_one_request,
    BaseHTTPRequestHandler.handle_one_request.
  rewrite Hlen.
  rewrite request_words_not_empty by (rewrite Hw; discriminate).
  unfold BaseHTTPRequestHandler.parse_request.
  fold (request_words r). rewrite Hw.
  cbn [List.length Nat.leb].
  unfold BaseHTTPRequestHandler.parse_request_words.
  destruct (String.eqb_spec c "GET"); [contradiction|]. cbn [negb].
  repeat (rewrite exec_bind; cbv beta).
  repeat (rewrite eval_bind; cbv beta).
  change (negb (eval (ret false) ?x)) with true. cbv iota.
  rewrite !exec_ret, !exec_modify.
  destruct h as [d c0 p0 v rl hs cc hb wf lg calls].
  match goal with
  | |- context [exec (BaseHTTPRequestHandler.send_error
                        _ _ _ ?code ?m ?e) ?s] =>
      destruct (send_error_writes_simple
                  rt code m e "Bad Request"
                  "Bad request syntax or unsupported method" s)
        as (H1 & H2 & H3)
  end; try reflexivity; [discriminate|].
  repeat split; assumption.
Qed.

Lemma two_words_other_than_GET_are_answered_400_witness :
  wfile (exec (MyHTTPRequestHandler.handle_one_request
                 Example_env.rt0 Example_env.fs0
                 (Example_env.request "HEAD /live-test.html"))
              (MyHTTPRequestHandler.init Example_env.root))
  = error_writes_simple Example_env.rt0 400
      "Bad HTTP/0.9 request type ('HEAD')"
      "Bad request syntax or unsupported method".
Proof.
  apply (two_words_other_than_GET_are_answered_400
           Example_env.rt0 Example_env.fs0
           (Example_env.request "HEAD /live-test.html")
           (MyHTTPRequestHandler.init Example_env.root)
           "HEAD" "/live-test.html");
    first [reflexivity | discriminate].
Defined.

(** * A directory that cannot be listed *)



(** * The connections that the server accepts *)

Lemma filter_accept_map {A : Type} (f : A -> event) (l : list A) :
  (forall a, is_accept (f a) = false) -> filter is_accept (map f l) = [].
Proof.
  intros Hf. induction l as [|a l IH]; [reflexivity|].
  cbn [map filter]. rewrite Hf. exact IH.
Qed.

Lemma handle_request_noblock_accepts rt c w :
  exists evs,
    TCPServer.handle_request_noblock rt c w
    = Ok tt (emit (EvAccept c :: evs) w)
    /\ filter is_accept evs = [].
Proof.
  unfold TCPServer.handle_request_noblock, TCPServer.process_request,
    TCPServer.finish_request, TCPServer.shutdown_request, pbind, pemit.
  cbn [emit set_trace w_cwd w_fs].
  eexists. split.
  - rewrite !emit_emit. cbn [app]. reflexivity.
  - rewrite !filter_app, !filter_accept_map by reflexivity. reflexivity.
Qed.

Lemma serve_forever_accepts rt self attempts w :
  exists evs,
    TCPServer.serve_forever rt self attempts w = Ok tt (emit evs w)
    /\ filter is_accept evs
       = map EvAccept
             (filter (delivers (TCPServer.server_address self)) attempts).
Proof.
  revert w. induction attempts as [|c attempts IH]; intros w.
  - exists []. simpl. unfold pret. rewrite emit_nil. split; reflexivity.
  - cbn [TCPServer.serve_forever filter]. unfold pbind.
    destruct (delivers (TCPServer.server_address self) c) eqn:Hd.
    + destruct (handle_request_noblock_accepts rt c w) as (evs1 & -> & H1).
      destruct (IH (emit (EvAccept c :: evs1) w)) as (evs2 & -> & H2).
      exists ((EvAccept c :: evs1) ++ evs2). rewrite emit_emit.
      split; [reflexivity|].
      rewrite filter_app. cbn [filter is_accept]. rewrite H1, H2.
      reflexivity.
    + unfold pret at 1. destruct (IH w) as (evs2 & -> & H2).
      exists evs2. split; [reflexivity | exact H2].
Qed.



(** X23.  When the root of the script exists and is not a directory, or
    is a directory that the process may not enter, [os.chdir] raises
    [NotADirectoryError] or [PermissionError] and nothing catches it: the
    process ends with exit status 1 and the traceback, no socket is
    created and nothing is printed. *)
Theorem root_that_cannot_be_entered_is_fatal
        (rt : runtime) (attempts : list connection) (w : world) :
  fs_exists (w_fs w) Script.ROOT = true ->
  fs_isdir (w_fs w) Script.ROOT && fs_searchable (w_fs w) Script.ROOT
  = false ->
  Script.run rt attempts w
  = (Script.Exited 1,
     emit [EvChdir Script.ROOT;
           EvTraceback (if fs_isdir (w_fs w) Script.ROOT
                        then PermissionError else NotADirectoryError)] w).
Proof.
  intros He Hd.
  cbv beta iota delta [Script.run Script.main pbind Os.chdir pemit].
  change (Os.chdir_error Script.ROOT (emit [EvChdir Script.ROOT] w))
    with (Os.chdir_error Script.ROOT w).
  unfold Os.chdir_error. rewrite He. cbn [negb].
  destruct (fs_isdir (w_fs w) Script.ROOT); cbn [negb andb] in *.
  - rewrite Hd. cbn [negb]. rewrite emit_emit. reflexivity.
  - rewrite emit_emit. reflexivity.
Qed.

Lemma root_that_cannot_be_entered_is_fatal_witness :
  Script.run Example_env.rt0 [Example_env.conn_lan]
             Example_more.w_root_is_file
  = (Script.Exited 1,
     emit [EvChdir Script.ROOT; EvTraceback NotADirectoryError]
          Example_more.w_root_is_file).
Proof.
  apply (root_that_cannot_be_entered_is_fatal
           Example_env.rt0 [Example_env.conn_lan]
           Example_more.w_root_is_file);
    reflexivity.
Defined.
